(** * BufferedProxy: a shallow embedding of Buffer.cpp / Buffer.h

    The C++ class [BufferedProxy] keeps a window of a block device in
    caller-supplied memory and turns byte-granular Read/Write/Seek calls
    into block-granular calls on a [BufferedObject].

    Modelling conventions.
    - [int] values are [Z].  Signed overflow is undefined in C++, so the
      arithmetic of the engine is the exact arithmetic of [Z]; the
      conversions between [unsigned] and [int] and the unsigned
      subtraction that builds the alignment masks are written out with
      their 32-bit wrap-around ([to_unsigned], [to_int]).
    - [/] and [%] are the truncating [Z.quot] and [Z.rem].  Dividing by 0
      is undefined in C++: the constructor, which divides by its
      arguments, reports it ([UndefinedBehaviour]) and so never builds an
      engine whose block size is 0; the statements below that depend on a
      division assume a divisor that is not 0.
    - The window is the list of bytes found at [m_paBuffer]; a client
      buffer is a pointer together with the bytes found there.  Only these
      regions are tracked: bytes that a [memcpy] would put outside the
      region it targets are not recorded.
    - The buffered object is an interface (a type class over the state of
      the object); every call the engine makes on it is appended to a log.
    - The [assert]s of the source come from a header that is not part of
      the repository; they do not change the control flow here and are
      kept as separate boolean definitions.
    - Loops that the source writes as [while] carry an iteration budget and
      answer [None] when it is used up. *)

From stdpp Require Import base numbers list strings.
From Stdlib Require Import ZArith Lia Strings.Byte.

Local Open Scope Z_scope.

Abbreviation byte := Byte.byte.

(** ** Integer conversions *)

Definition to_unsigned (z : Z) : Z := z `mod` 2 ^ 32.

Definition to_int (z : Z) : Z := (z + 2 ^ 31) `mod` 2 ^ 32 - 2 ^ 31.

Definition INT_MIN : Z := - 2 ^ 31.

(** [z] is the value of an [int].  Signed overflow is undefined in the
    source and the arithmetic of the engine is modelled exactly:
    [int_range] is the hypothesis under which a sum or product of the
    model is the value that the source computes. *)
Definition int_range (z : Z) : Prop := INT_MIN <= z < 2 ^ 31.

(** [n % m] on [int]: undefined for [m = 0] and for [INT_MIN % -1]. *)
Definition int_rem (n m : Z) : option Z :=
  if m =? 0 then None
  else if (n =? INT_MIN) && (m =? -1) then None
  else Some (Z.rem n m).

(** ** Helpers of the anonymous namespace *)

Definition _IsPowerOf2 (n : Z) : bool :=
  Z.land n (to_int (n - 1)) =? 0.

Definition _IsMultipleOf (n m : Z) : option bool :=
  match int_rem n m with
  | Some r => Some (r =? 0)
  | None => None
  end.

Definition _IsAligned (n align : Z) : bool :=
  Z.land n align =? 0.

Definition _HighestMultiple (n m : Z) : Z :=
  n - Z.rem n m.

Definition _HighestMultiplePowerOf2 (n align : Z) : Z :=
  Z.land n (Z.lnot align).

(** The sum is an [int]: where it leaves the range of [int] the behaviour
    is undefined in the source, and the value modelled is the one of the
    two's complement wrap-around. *)
Definition _Pad (n m : Z) : Z :=
  to_int (_HighestMultiple n m + m).

(** [n] and [align] are [unsigned]: the sum and the complement wrap. *)
Definition _PadPowerOf2 (n align : Z) : Z :=
  Z.land (to_unsigned (n + align)) (to_unsigned (Z.lnot align)).

(** ** Configuration flags *)

Definition CF_READ_ONLY : Z := 1.
Definition CF_WRITE_ONLY : Z := 2.
Definition CF_NO_DIRECT_IO : Z := 4.
Definition CF_NO_FILLS : Z := 8.
Definition CF_RANDOM_ACCESS : Z := 16.

(** ** Memory regions *)

(** [n] bytes of [l] starting at offset [off] (the source of a [memcpy]),
    as far as [l] has them.  The bytes that a [memcpy] with a negative
    offset or length would read outside [l] are not modelled. *)
Definition load_at (l : list byte) (off n : Z) : list byte :=
  take (Z.to_nat n) (drop (Z.to_nat off) l).

(** [l] with [new] copied over it from offset [off] on (the target of a
    [memcpy]); the part of [new] that falls outside [l] is dropped. *)
Definition store_at (l : list byte) (off : Z) (new : list byte) : list byte :=
  if off <? 0 then list_inserts 0 (drop (Z.to_nat (- off)) new) l
  else list_inserts (Z.to_nat off) new l.

(** A pointer into client memory: where the buffer starts, where the
    pointer is now, and the bytes of the buffer. *)
Record ClientBuffer := {
  cb_base : Z;
  cb_ptr : Z;
  cb_bytes : list byte
}.

Definition cb_offset (c : ClientBuffer) : Z := cb_ptr c - cb_base c.

Definition cb_advance (c : ClientBuffer) (n : Z) : ClientBuffer :=
  {| cb_base := cb_base c; cb_ptr := cb_ptr c + n; cb_bytes := cb_bytes c |}.

Definition cb_store (c : ClientBuffer) (new : list byte) : ClientBuffer :=
  {| cb_base := cb_base c; cb_ptr := cb_ptr c;
     cb_bytes := store_at (cb_bytes c) (cb_offset c) new |}.

(** The bytes visible from the pointer on. *)
Definition cb_view (c : ClientBuffer) : list byte :=
  drop (Z.to_nat (cb_offset c)) (cb_bytes c).

(** ** The buffered object *)

(** [obj_Read o handle pBuffer n] answers the new state of the object, the
    bytes it put at [pBuffer] and the number of blocks read;
    [obj_Write o handle pBuffer bytes n] is given the bytes found at
    [pBuffer] and answers the number of blocks written;
    [obj_Seek o handle location] answers the resulting block location. *)
Class BufferedObject (D : Type) := {
  obj_Read : D -> Z -> Z -> Z -> D * list byte * Z;
  obj_Write : D -> Z -> Z -> list byte -> Z -> D * Z;
  obj_Seek : D -> Z -> Z -> D * Z
}.

Inductive DeviceCall :=
| CallSeek (location result : Z)
| CallRead (pBuffer n result : Z)
| CallWrite (pBuffer n result : Z).

Definition is_CallRead (c : DeviceCall) : bool :=
  match c with CallRead _ _ _ => true | _ => false end.

Definition is_CallWrite (c : DeviceCall) : bool :=
  match c with CallWrite _ _ _ => true | _ => false end.

Definition device_reads (l : list DeviceCall) : nat :=
  length (List.filter is_CallRead l).

Definition device_writes (l : list DeviceCall) : nat :=
  length (List.filter is_CallWrite l).

(** ** The members of BufferedProxy *)

Record BufferedProxy := {
  m_Handle : Z;
  m_paBuffer : Z;
  window : list byte;
  m_BufferSize : Z;
  m_BufferSizeInBlocks : Z;
  m_BlockSize : Z;
  m_SectorAlign : Z;
  m_BufferAlign : Z;
  m_Flags : Z;
  m_Point : Z;
  m_BufferLoc : Z;
  m_DataSize : Z;
  m_IsDirty : bool
}.

Definition with_window (w : list byte) (p : BufferedProxy) : BufferedProxy :=
  {| m_Handle := m_Handle p; m_paBuffer := m_paBuffer p; window := w;
     m_BufferSize := m_BufferSize p;
     m_BufferSizeInBlocks := m_BufferSizeInBlocks p;
     m_BlockSize := m_BlockSize p; m_SectorAlign := m_SectorAlign p;
     m_BufferAlign := m_BufferAlign p; m_Flags := m_Flags p;
     m_Point := m_Point p; m_BufferLoc := m_BufferLoc p;
     m_DataSize := m_DataSize p; m_IsDirty := m_IsDirty p |}.

Definition with_Point (v : Z) (p : BufferedProxy) : BufferedProxy :=
  {| m_Handle := m_Handle p; m_paBuffer := m_paBuffer p; window := window p;
     m_BufferSize := m_BufferSize p;
     m_BufferSizeInBlocks := m_BufferSizeInBlocks p;
     m_BlockSize := m_BlockSize p; m_SectorAlign := m_SectorAlign p;
     m_BufferAlign := m_BufferAlign p; m_Flags := m_Flags p;
     m_Point := v; m_BufferLoc := m_BufferLoc p;
     m_DataSize := m_DataSize p; m_IsDirty := m_IsDirty p |}.

Definition with_BufferLoc (v : Z) (p : BufferedProxy) : BufferedProxy :=
  {| m_Handle := m_Handle p; m_paBuffer := m_paBuffer p; window := window p;
     m_BufferSize := m_BufferSize p;
     m_BufferSizeInBlocks := m_BufferSizeInBlocks p;
     m_BlockSize := m_BlockSize p; m_SectorAlign := m_SectorAlign p;
     m_BufferAlign := m_BufferAlign p; m_Flags := m_Flags p;
     m_Point := m_Point p; m_BufferLoc := v;
     m_DataSize := m_DataSize p; m_IsDirty := m_IsDirty p |}.

Definition with_DataSize (v : Z) (p : BufferedProxy) : BufferedProxy :=
  {| m_Handle := m_Handle p; m_paBuffer := m_paBuffer p; window := window p;
     m_BufferSize := m_BufferSize p;
     m_BufferSizeInBlocks := m_BufferSizeInBlocks p;
     m_BlockSize := m_BlockSize p; m_SectorAlign := m_SectorAlign p;
     m_BufferAlign := m_BufferAlign p; m_Flags := m_Flags p;
     m_Point := m_Point p; m_BufferLoc := m_BufferLoc p;
     m_DataSize := v; m_IsDirty := m_IsDirty p |}.

Definition with_IsDirty (v : bool) (p : BufferedProxy) : BufferedProxy :=
  {| m_Handle := m_Handle p; m_paBuffer := m_paBuffer p; window := window p;
     m_BufferSize := m_BufferSize p;
     m_BufferSizeInBlocks := m_BufferSizeInBlocks p;
     m_BlockSize := m_BlockSize p; m_SectorAlign := m_SectorAlign p;
     m_BufferAlign := m_BufferAlign p; m_Flags := m_Flags p;
     m_Point := m_Point p; m_BufferLoc := m_BufferLoc p;
     m_DataSize := m_DataSize p; m_IsDirty := v |}.

(** ** Construction *)

Inductive Construction :=
| Constructed (p : BufferedProxy)
| ConstructorFailedException (what : string)
| UndefinedBehaviour.

(** [BufferedProxy::BufferedProxy].  [pBuffer] is the address of the
    memory and [memory] its bytes; [handle], [flags], [sectorAlign] and
    [bufferAlign] are [unsigned], [bufferSize] and [blockSize] are [int]. *)
Definition BufferedProxy_ctor (pBuffer : Z) (memory : list byte)
    (bufferSize handle flags blockSize sectorAlign bufferAlign : Z)
    : Construction :=
  if negb (_IsPowerOf2 (to_int sectorAlign)) then
    ConstructorFailedException "The sector alignment must be a power of two."
  else if negb (_IsPowerOf2 (to_int bufferAlign)) then
    ConstructorFailedException "The buffer alignment must be a power of two."
  else
    match int_rem bufferSize blockSize with
    | None => UndefinedBehaviour
    | Some r =>
      if negb (r =? 0) then
        ConstructorFailedException
          "The buffer size must be a multiple of the block size."
      else if negb (_IsAligned (to_unsigned pBuffer)
                               (to_unsigned (bufferAlign - 1))) then
        ConstructorFailedException
          "The buffer must be aligned on a bufferAlign boundary."
      else
        let built :=
          Constructed
            {| m_Handle := handle;
               m_paBuffer := pBuffer;
               window := memory;
               m_BufferSize := bufferSize;
               m_BufferSizeInBlocks := Z.quot bufferSize blockSize;
               m_BlockSize := blockSize;
               m_SectorAlign := to_unsigned (sectorAlign - 1);
               m_BufferAlign := to_unsigned (bufferAlign - 1);
               m_Flags := flags;
               m_Point := 0;
               m_BufferLoc := 0;
               m_DataSize := 0;
               m_IsDirty := false |} in
        if to_int sectorAlign >? blockSize then
          match _IsMultipleOf (to_int sectorAlign) blockSize with
          | None => UndefinedBehaviour
          | Some multiple =>
            if negb multiple then
              ConstructorFailedException
                "The sector alignement must be a multiple of the block size."
            else built
          end
        else
          match _IsMultipleOf blockSize (to_int sectorAlign) with
          | None => UndefinedBehaviour
          | Some multiple =>
            if negb multiple then
              ConstructorFailedException
                "The block size must be a multiple of the sector alignement."
            else built
          end
    end.

(** ** Queries *)

Definition RemainingReadAmount (p : BufferedProxy) : Z :=
  m_DataSize p * m_BlockSize p - m_Point p.

Definition RemainingWriteSpace (p : BufferedProxy) : Z :=
  m_BufferSizeInBlocks p * m_BlockSize p - m_Point p.

(** The conditions of the three [assert]s of the source. *)
Definition Flush_assertion (p : BufferedProxy) : bool :=
  _IsAligned (to_unsigned (m_BufferLoc p * m_BlockSize p)) (m_SectorAlign p).

Definition CopyOut_assertion (p : BufferedProxy) (n : Z) : bool :=
  m_Point p + n <=? m_DataSize p * m_BlockSize p.

Definition CopyIn_assertion (p : BufferedProxy) (n : Z) : bool :=
  m_Point p + n <=? m_BufferSize p.

(** ** The engine together with its buffered object *)

Section Engine.

Context {D : Type} `{BufferedObject D}.

(** The members of the proxy, the state of the object behind
    [m_pBufferedObject], and the calls made on it so far (oldest first). *)
Record World := {
  proxy : BufferedProxy;
  object : D;
  calls : list DeviceCall
}.

Definition update (f : BufferedProxy -> BufferedProxy) (s : World) : World :=
  {| proxy := f (proxy s); object := object s; calls := calls s |}.

(** [m_pBufferedObject->Seek( m_Handle, location )] *)
Definition call_Seek (s : World) (location : Z) : World * Z :=
  let '(o, r) := obj_Seek (object s) (m_Handle (proxy s)) location in
  ({| proxy := proxy s; object := o;
      calls := calls s ++ [CallSeek location r] |}, r).

(** [m_pBufferedObject->Read( m_Handle, pBuffer, n )] *)
Definition call_Read (s : World) (pBuffer n : Z) : World * list byte * Z :=
  let '(o, data, r) := obj_Read (object s) (m_Handle (proxy s)) pBuffer n in
  ({| proxy := proxy s; object := o;
      calls := calls s ++ [CallRead pBuffer n r] |}, data, r).

(** [m_pBufferedObject->Write( m_Handle, pBuffer, n )] *)
Definition call_Write (s : World) (pBuffer : Z) (bytes : list byte) (n : Z)
    : World * Z :=
  let '(o, r) := obj_Write (object s) (m_Handle (proxy s)) pBuffer bytes n in
  ({| proxy := proxy s; object := o;
      calls := calls s ++ [CallWrite pBuffer n r] |}, r).

(** [BufferedProxy::Flush] *)
Definition Flush (s : World) : World :=
  let p := proxy s in
  if m_IsDirty p && (m_DataSize p >? 0) then
    let '(s1, seekValue) := call_Seek s (m_BufferLoc p) in
    if seekValue =? m_BufferLoc p then
      let blocksToFlush := m_DataSize p in
      let '(s2, blocksFlushed) :=
        call_Write s1 (m_paBuffer p) (window p) blocksToFlush in
      if blocksFlushed =? m_DataSize p then
        update (with_IsDirty false) s2
      else s2
    else s1
  else s.

(** [BufferedProxy::Fill] *)
Definition Fill (s : World) : World :=
  let p := proxy s in
  let s' :=
    if Z.land (m_Flags p) CF_NO_FILLS =? 0 then
      let '(s1, seekValue) := call_Seek s (m_BufferLoc p) in
      if seekValue =? m_BufferLoc p then
        let '(s2, data, blocksRead) :=
          call_Read s1 (m_paBuffer p) (m_BufferSizeInBlocks p) in
        update (fun p => with_DataSize blocksRead
                           (with_window (store_at (window p) 0 data) p)) s2
      else s1
    else s in
  update (with_Point 0) s'.

(** [BufferedProxy::CopyOut( ppDst, n )] *)
Definition CopyOut (s : World) (dst : ClientBuffer) (n : Z)
    : World * ClientBuffer :=
  let p := proxy s in
  let dst' := cb_store dst (load_at (window p) (m_Point p) n) in
  (update (with_Point (m_Point p + n)) s, cb_advance dst' n).

(** [BufferedProxy::CopyIn( ppSrc, n )] *)
Definition CopyIn (s : World) (src : ClientBuffer) (n : Z)
    : World * ClientBuffer :=
  let p := proxy s in
  let p1 := with_window
              (store_at (window p) (m_Point p)
                        (load_at (cb_bytes src) (cb_offset src) n)) p in
  let p2 := with_Point (m_Point p1 + n) p1 in
  let p3 := with_IsDirty true p2 in
  let p4 :=
    if m_Point p3 >? m_DataSize p3 * m_BlockSize p3 then
      with_DataSize
        (Z.quot (m_Point p3 + m_BlockSize p3 - 1) (m_BlockSize p3)) p3
    else p3 in
  (update (fun _ => p4) s, cb_advance src n).

(** The locals of [Read] and [Write]: the client pointer, the total
    transferred so far and the amount [n] still to transfer. *)
Record Transfer := {
  t_world : World;
  t_client : ClientBuffer;
  t_total : Z;
  t_n : Z
}.

(** The [while ( n >= m_BufferSize )] loop of [Read]. *)
Fixpoint Read_loop (budget : nat) (t : Transfer) : option Transfer :=
  if t_n t >=? m_BufferSize (proxy (t_world t)) then
    match budget with
    | O => None
    | S budget' =>
      let s := t_world t in
      let s := update (fun p => with_BufferLoc (m_BufferLoc p + m_DataSize p) p) s in
      let s := Fill s in
      let amount := m_DataSize (proxy s) * m_BlockSize (proxy s) in
      let '(s, dst) := CopyOut s (t_client t) amount in
      let t' := {| t_world := s; t_client := dst;
                   t_total := t_total t + amount;
                   t_n := t_n t - amount |} in
      if m_DataSize (proxy s) <? m_BufferSize (proxy s) then Some t'
      else Read_loop budget' t'
    end
  else Some t.

(** [Read], first part: what is already available in the buffer. *)
Definition Read_available (t : Transfer) : Transfer :=
  let bytesToRead :=
    Z.min (t_n t) (RemainingReadAmount (proxy (t_world t))) in
  if bytesToRead >? 0 then
    let '(s, c) := CopyOut (t_world t) (t_client t) bytesToRead in
    {| t_world := s; t_client := c;
       t_total := t_total t + bytesToRead; t_n := t_n t - bytesToRead |}
  else t.

(** [Read], second part: as many buffer-sized blocks as possible, read
    directly into the destination when that is allowed and the
    destination is aligned, and through the buffer otherwise. *)
Definition Read_blocks (t : Transfer) : option Transfer :=
  if t_n t >=? m_BufferSize (proxy (t_world t)) then
    let s := Flush (t_world t) in
    if (Z.land (m_Flags (proxy s)) CF_NO_DIRECT_IO =? 0)
       && _IsAligned (to_unsigned (cb_ptr (t_client t)))
                     (m_BufferAlign (proxy s)) then
      let s := update (fun p => with_BufferLoc (m_BufferLoc p + m_DataSize p) p) s in
      let blocksToRead :=
        Z.quot (_HighestMultiple (t_n t) (m_BufferSize (proxy s)))
               (m_BlockSize (proxy s)) in
      let '(s, data, blocksRead) :=
        call_Read s (cb_ptr (t_client t)) blocksToRead in
      let bytesRead := blocksRead * m_BlockSize (proxy s) in
      let c := cb_advance (cb_store (t_client t) data) bytesRead in
      let s := update (fun p => with_DataSize 0 (with_Point 0
                 (with_BufferLoc (m_BufferLoc p + blocksRead) p))) s in
      Some {| t_world := s; t_client := c;
              t_total := t_total t + bytesRead; t_n := t_n t - bytesRead |}
    else
      Read_loop (Z.to_nat (t_n t))
        {| t_world := s; t_client := t_client t;
           t_total := t_total t; t_n := t_n t |}
  else Some t.

(** [Read], third part: the rest of the data, through the buffer. *)
Definition Read_rest (t : Transfer) : Transfer :=
  if t_n t >? 0 then
    let s := Flush (t_world t) in
    let s := update (fun p => with_BufferLoc (m_BufferLoc p + m_DataSize p) p) s in
    let s := Fill s in
    let bytesToRead := Z.min (t_n t) (RemainingReadAmount (proxy s)) in
    if bytesToRead >? 0 then
      let '(s, c) := CopyOut s (t_client t) bytesToRead in
      {| t_world := s; t_client := c;
         t_total := t_total t + bytesToRead; t_n := t_n t - bytesToRead |}
    else
      {| t_world := s; t_client := t_client t;
         t_total := t_total t; t_n := t_n t |}
  else t.

(** [BufferedProxy::Read( pDst, n )]: [dst] are the bytes found at [pDst].
    The answer is the number of bytes read, the bytes then found at [pDst],
    and the new state. *)
Definition Read (s : World) (pDst : Z) (dst : list byte) (n : Z)
    : option (Z * list byte * World) :=
  let t := {| t_world := s;
              t_client := {| cb_base := pDst; cb_ptr := pDst; cb_bytes := dst |};
              t_total := 0; t_n := n |} in
  match Read_blocks (Read_available t) with
  | None => None
  | Some t =>
    let t := Read_rest t in
    Some (t_total t, cb_bytes (t_client t), t_world t)
  end.

(** The [while ( n >= m_BufferSize )] loop of [Write]. *)
Fixpoint Write_loop (budget : nat) (t : Transfer) : option Transfer :=
  if t_n t >=? m_BufferSize (proxy (t_world t)) then
    match budget with
    | O => None
    | S budget' =>
      let size := m_BufferSize (proxy (t_world t)) in
      let '(s, src) := CopyIn (t_world t) (t_client t) size in
      let s := Flush s in
      let s := update (fun p => with_BufferLoc
                         (m_BufferLoc p + m_BufferSizeInBlocks p) p) s in
      Write_loop budget'
        {| t_world := s; t_client := src;
           t_total := t_total t + size; t_n := t_n t - size |}
    end
  else Some t.

(** The [while ( n > 0 )] loop of [Write]. *)
Fixpoint Write_rest (budget : nat) (t : Transfer) : option Transfer :=
  if t_n t >? 0 then
    match budget with
    | O => None
    | S budget' =>
      let s := Flush (t_world t) in
      let s :=
        if (t_n t <? m_BufferSize (proxy s))
           && (Z.land (m_Flags (proxy s)) CF_NO_FILLS =? 0) then Fill s
        else s in
      let bytesToWrite := Z.min (t_n t) (RemainingWriteSpace (proxy s)) in
      if bytesToWrite <=? 0 then
        Some {| t_world := s; t_client := t_client t;
                t_total := t_total t; t_n := t_n t |}
      else
        let '(s, src) := CopyIn s (t_client t) bytesToWrite in
        let s :=
          if m_Point (proxy s) >=? m_BufferSize (proxy s) then Flush s
          else s in
        Write_rest budget'
          {| t_world := s; t_client := src;
             t_total := t_total t + bytesToWrite;
             t_n := t_n t - bytesToWrite |}
    end
  else Some t.

(** [Write], first part: the remaining space available in the buffer. *)
Definition Write_available (t : Transfer) : Transfer :=
  let bytesToWrite :=
    Z.min (t_n t) (RemainingWriteSpace (proxy (t_world t))) in
  if bytesToWrite >? 0 then
    let '(s, c) := CopyIn (t_world t) (t_client t) bytesToWrite in
    {| t_world := s; t_client := c;
       t_total := t_total t + bytesToWrite; t_n := t_n t - bytesToWrite |}
  else t.

(** [Write], second part: the largest multiple of the buffer size,
    written directly from the source when that is allowed and the source
    is aligned, and through the buffer otherwise. *)
Definition Write_blocks (t : Transfer) : option Transfer :=
  if t_n t >=? m_BufferSize (proxy (t_world t)) then
    let s := Flush (t_world t) in
    let s := update (fun p => with_BufferLoc (m_BufferLoc p + m_DataSize p) p) s in
    if (Z.land (m_Flags (proxy s)) CF_NO_DIRECT_IO =? 0)
       && _IsAligned (to_unsigned (cb_ptr (t_client t)))
                     (m_BufferAlign (proxy s)) then
      let blocksToWrite :=
        Z.quot (_HighestMultiple (t_n t) (m_BufferSize (proxy s)))
               (m_BlockSize (proxy s)) in
      let '(s, blocksWritten) :=
        call_Write s (cb_ptr (t_client t)) (cb_view (t_client t))
                   blocksToWrite in
      let bytesWritten := blocksWritten * m_BlockSize (proxy s) in
      let c := cb_advance (t_client t) bytesWritten in
      let s := update (fun p => with_DataSize 0 (with_Point 0
                 (with_BufferLoc (m_BufferLoc p + blocksWritten) p))) s in
      Some {| t_world := s; t_client := c;
              t_total := t_total t + bytesWritten;
              t_n := t_n t - bytesWritten |}
    else
      Write_loop (Z.to_nat (t_n t))
        {| t_world := s; t_client := t_client t;
           t_total := t_total t; t_n := t_n t |}
  else Some t.

(** [BufferedProxy::Write( pSrc, n )]: [src] are the bytes found at [pSrc].
    The answer is the number of bytes written and the new state.  The
    third part of the function is the loop [Write_rest]. *)
Definition Write (s : World) (pSrc : Z) (src : list byte) (n : Z)
    : option (Z * World) :=
  let t := {| t_world := s;
              t_client := {| cb_base := pSrc; cb_ptr := pSrc; cb_bytes := src |};
              t_total := 0; t_n := n |} in
  match Write_blocks (Write_available t) with
  | None => None
  | Some t =>
    match Write_rest (Z.to_nat (t_n t)) t with
    | None => None
    | Some t => Some (t_total t, t_world t)
    end
  end.

(** [BufferedProxy::Seek( location )].  The products of the window test are
    exact integers; where the [int] products of the source overflow, its
    behaviour is undefined. *)
Definition Seek (s : World) (location : Z) : Z * World :=
  let p := proxy s in
  if (location >=? m_BufferLoc p * m_BlockSize p)
     && (location <? (m_BufferLoc p + m_DataSize p) * m_BlockSize p) then
    (location,
     update (with_Point (location - m_BufferLoc p * m_BlockSize p)) s)
  else
    let s := Flush s in
    let alignedLocation :=
      _HighestMultiplePowerOf2 location (to_int (m_SectorAlign (proxy s))) in
    let '(s, r) :=
      call_Seek s (Z.quot alignedLocation (m_BlockSize (proxy s))) in
    let s := update (with_BufferLoc r) s in
    let s := Fill s in
    let s := update (fun p => with_Point
                       (m_Point p
                        + (location - m_BufferLoc p * m_BlockSize p)) p) s in
    (location, s).

End Engine.

Arguments World D : clear implicits.

(** ** A block device in memory

    A fault-free buffered object used to run the engine: [disk_blocks]
    blocks of [disk_blockSize] bytes each.  Seeking clamps the location to
    the range of the device; a transfer stops at the end of the device. *)

Record Disk := {
  disk_blockSize : Z;
  disk_blocks : Z;
  disk_bytes : list byte;
  disk_pos : Z
}.

Definition disk_count (d : Disk) (n : Z) : Z :=
  Z.max 0 (Z.min n (disk_blocks d - disk_pos d)).

Definition disk_Seek (d : Disk) (handle location : Z) : Disk * Z :=
  let pos := Z.max 0 (Z.min location (disk_blocks d)) in
  ({| disk_blockSize := disk_blockSize d; disk_blocks := disk_blocks d;
      disk_bytes := disk_bytes d; disk_pos := pos |}, pos).

Definition disk_Read (d : Disk) (handle pBuffer n : Z) : Disk * list byte * Z :=
  let k := disk_count d n in
  ({| disk_blockSize := disk_blockSize d; disk_blocks := disk_blocks d;
      disk_bytes := disk_bytes d; disk_pos := disk_pos d + k |},
   load_at (disk_bytes d) (disk_pos d * disk_blockSize d) (k * disk_blockSize d),
   k).

Definition disk_Write (d : Disk) (handle pBuffer : Z) (bytes : list byte) (n : Z)
    : Disk * Z :=
  let k := disk_count d n in
  ({| disk_blockSize := disk_blockSize d; disk_blocks := disk_blocks d;
      disk_bytes := store_at (disk_bytes d) (disk_pos d * disk_blockSize d)
                             (load_at bytes 0 (k * disk_blockSize d));
      disk_pos := disk_pos d + k |}, k).

#[export] Instance Disk_BufferedObject : BufferedObject Disk := {
  obj_Read := disk_Read;
  obj_Write := disk_Write;
  obj_Seek := disk_Seek
}.

(** A disk of [blocks] blocks holding [bytes], positioned at block 0. *)
Definition new_disk (blockSize blocks : Z) (bytes : list byte) : Disk :=
  {| disk_blockSize := blockSize; disk_blocks := blocks;
     disk_bytes := bytes; disk_pos := 0 |}.

(** ** Sequences of client calls *)

Inductive ClientCall :=
| DoRead (pDst : Z) (dst : list byte) (n : Z)
| DoWrite (pSrc : Z) (src : list byte) (n : Z)
| DoSeek (location : Z)
| DoFlush
| DoFill.

(** The calls that only read from the buffered object or flush the
    window. *)
Definition is_reading (c : ClientCall) : bool :=
  match c with
  | DoRead _ _ _ | DoFlush | DoFill => true
  | DoWrite _ _ _ | DoSeek _ => false
  end.

Section Sequences.

Context {D : Type} `{BufferedObject D}.

Definition perform (s : World D) (c : ClientCall) : option (World D) :=
  match c with
  | DoRead pDst dst n =>
    match Read s pDst dst n with
    | Some (_, _, s') => Some s'
    | None => None
    end
  | DoWrite pSrc src n =>
    match Write s pSrc src n with
    | Some (_, s') => Some s'
    | None => None
    end
  | DoSeek location => Some (snd (Seek s location))
  | DoFlush => Some (Flush s)
  | DoFill => Some (Fill s)
  end.

Fixpoint run (s : World D) (l : list ClientCall) : option (World D) :=
  match l with
  | [] => Some s
  | c :: l' =>
    match perform s c with
    | Some s' => run s' l'
    | None => None
    end
  end.

(** The engine right after construction, attached to object [o]. *)
Definition attach (p : BufferedProxy) (o : D) : World D :=
  {| proxy := p; object := o; calls := [] |}.

(** [BufferedProxy::~BufferedProxy] *)
Definition BufferedProxy_dtor (s : World D) : World D :=
  Flush s.

End Sequences.

(** ** Notions used in the statements *)

(** [location] lies in the part of the device that the window holds. *)
Definition within_window (p : BufferedProxy) (location : Z) : Prop :=
  m_BufferLoc p * m_BlockSize p <= location
  < (m_BufferLoc p + m_DataSize p) * m_BlockSize p.

(** The greatest multiple of [sectorAlign] that is not above [location]
    (the sector-aligned floor, in bytes). *)
Definition sector_floor (sectorAlign location : Z) : Z :=
  sectorAlign * (location `div` sectorAlign).

(** The window starts on a sector boundary of the device. *)
Definition sector_aligned (sectorAlign : Z) (p : BufferedProxy) : Prop :=
  (m_BufferLoc p * m_BlockSize p) `mod` sectorAlign = 0.

(** The members that are set by the constructor and never assigned again. *)
Definition config (p : BufferedProxy) : Z * Z * Z * Z * Z * Z * Z * Z :=
  (m_Handle p, m_paBuffer p, m_BufferSize p, m_BufferSizeInBlocks p,
   m_BlockSize p, m_SectorAlign p, m_BufferAlign p, m_Flags p).

(** [n] is a power of two. *)
Definition power_of_two (n : Z) : Prop := exists k, 0 <= k /\ n = 2 ^ k.

(** The sizes of the window agree: a positive block size, a positive
    buffer size, and a buffer of a whole number of blocks. *)
Definition well_sized (p : BufferedProxy) : Prop :=
  0 < m_BlockSize p /\ 0 < m_BufferSize p
  /\ m_BufferSizeInBlocks p * m_BlockSize p = m_BufferSize p.

(** The cursor is inside the window and the data fits in it. *)
Definition within_bounds (p : BufferedProxy) : Prop :=
  0 <= m_Point p <= m_BufferSize p
  /\ 0 <= m_DataSize p <= m_BufferSizeInBlocks p.

(** The window location is not negative and the byte location one block
    past the end of the window is still an [int]: no sum or product that
    [Seek] and [CopyIn] form for a cursor and a data size within such a
    window overflows. *)
Definition window_representable (p : BufferedProxy) : Prop :=
  0 <= m_BufferLoc p
  /\ (m_BufferLoc p + m_BufferSizeInBlocks p + 1) * m_BlockSize p <= 2 ^ 31.

(** The memory given to the constructor has the size of the buffer. *)
Definition window_allocated (p : BufferedProxy) : Prop :=
  Z.of_nat (length (window p)) = m_BufferSize p.

(** A buffered object that never answers a negative number of blocks nor
    more blocks than it was asked for. *)
Definition modest (D : Type) `{BufferedObject D} : Prop :=
  (forall d handle pBuffer n,
     0 <= (obj_Read d handle pBuffer n).2 <= Z.max 0 n)
  /\ (forall d handle pBuffer bytes n,
        0 <= (obj_Write d handle pBuffer bytes n).2 <= Z.max 0 n).

(** A transfer under way for a request of [n] bytes on an engine
    configured like [q]: the bytes done and the bytes left are not negative
    and add up to [n]. *)
Definition transferring {D : Type} `{BufferedObject D}
    (q : BufferedProxy) (n : Z) (t : Transfer (D:=D)) : Prop :=
  0 <= t_total t /\ 0 <= t_n t /\ t_total t + t_n t = n
  /\ config (proxy (t_world t)) = config q.

(** A disk whose bytes are its blocks, with the position inside it. *)
Definition disk_ok (d : Disk) : Prop :=
  0 < disk_blockSize d /\ 0 <= disk_pos d <= disk_blocks d
  /\ Z.of_nat (length (disk_bytes d)) = disk_blocks d * disk_blockSize d.

(** The location in the buffered object at which the next byte is read or
    written. *)
Definition position (p : BufferedProxy) : Z :=
  m_BufferLoc p * m_BlockSize p + m_Point p.

(** The engine and the disk agree: the window is clean, lies inside the
    disk with the cursor inside its data, and its data are the bytes of
    the disk at the window location. *)
Definition synced (s : World Disk) : Prop :=
  let p := proxy s in
  let d := object s in
  well_sized p /\ window_allocated p /\ disk_ok d
  /\ m_BlockSize p = disk_blockSize d
  /\ Z.land (m_Flags p) CF_NO_FILLS = 0
  /\ m_IsDirty p = false
  /\ 0 <= m_BufferLoc p
  /\ 0 <= m_DataSize p <= m_BufferSizeInBlocks p
  /\ m_BufferLoc p + m_DataSize p <= disk_blocks d
  /\ 0 <= m_Point p <= m_DataSize p * m_BlockSize p
  /\ load_at (window p) 0 (m_DataSize p * m_BlockSize p)
     = load_at (disk_bytes d) (m_BufferLoc p * m_BlockSize p)
               (m_DataSize p * m_BlockSize p).

(** The engine built by the constructor, attached to a disk, after a
    sequence of client calls. *)
Definition session (c : Construction) (o : Disk) (l : list ClientCall)
    : option (World Disk) :=
  match c with
  | Constructed p => run (attach p o) l
  | _ => None
  end.

Definition zeros (n : Z) : list byte := replicate (Z.to_nat n) x00.

(** [n] bytes that are not all the same. *)
Definition pattern (n : Z) : list byte :=
  map (fun i => default x00 (Byte.of_nat (i mod 251)))
      (seq 0 (Z.to_nat n)).

(** ** Engines and devices used in the examples *)

(** The state the constructor builds for a window of 4096 bytes with
    512-byte blocks, sector alignment 512 and buffer alignment 1 (see
    [engine_4096_constructed]). *)
Definition engine_4096 (pBuffer handle flags : Z) (memory : list byte)
    : BufferedProxy :=
  {| m_Handle := handle; m_paBuffer := pBuffer; window := memory;
     m_BufferSize := 4096; m_BufferSizeInBlocks := 8; m_BlockSize := 512;
     m_SectorAlign := 511; m_BufferAlign := 0; m_Flags := flags;
     m_Point := 0; m_BufferLoc := 0; m_DataSize := 0; m_IsDirty := false |}.

(** The same, at address 65536 with handle 7 and zeroed memory. *)
Definition engine_at_65536 (flags : Z) : BufferedProxy :=
  engine_4096 65536 7 flags (zeros 4096).

(** What the constructor answers for that window. *)
Definition ctor_4096 (flags : Z) : Construction :=
  BufferedProxy_ctor 65536 (zeros 4096) 4096 7 flags 512 512 1.

(** An 8-byte window over single-byte blocks with sector alignment 4. *)
Definition engine_8 : Construction :=
  BufferedProxy_ctor 65536 (zeros 8) 8 7 0 1 4 1.

(** What [Read] of 12288 bytes answers on a fresh engine that may not use
    direct transfers, over a disk of 64 blocks (32768 bytes): the number of
    bytes read and the calls made on the disk. *)
Definition read_three_windows : option (Z * list DeviceCall) :=
  match ctor_4096 CF_NO_DIRECT_IO with
  | Constructed p =>
    match Read (attach p (new_disk 512 64 (zeros 32768)))
               131072 (zeros 12288) 12288 with
    | Some (r, _, s) => Some (r, calls s)
    | None => None
    end
  | _ => None
  end.

(** Three bytes are written at the start of the device, then the next
    byte is read. *)
Definition write_3_read_1 : option (World Disk) :=
  session engine_8 (new_disk 1 64 (zeros 64))
          [DoWrite 131072 (zeros 3) 3; DoRead 196608 (zeros 1) 1].

(** A seek beyond the end of a disk of 20 blocks (10240 bytes). *)
Definition seek_past_end : option (World Disk) :=
  session (ctor_4096 0) (new_disk 512 20 (zeros 10240))
          [DoSeek 20000].

(** A seek to a negative location. *)
Definition seek_negative : option (World Disk) :=
  session (ctor_4096 0) (new_disk 512 20 (zeros 10240))
          [DoSeek (-1)].

(** 1024 bytes are written through the window over a disk that has room
    for one block only, followed by the given calls. *)
Definition write_1024_then (l : list ClientCall) : option (World Disk) :=
  session (ctor_4096 0) (new_disk 512 1 (zeros 512))
          (DoWrite 131072 (zeros 1024) 1024 :: l).

(** The locals of [Write] when its second part begins, for 10000 bytes
    written through a fresh engine that may not use direct transfers. *)
Definition indirect_write_start : Transfer (D:=Disk) :=
  Write_available
    {| t_world := attach (engine_at_65536 CF_NO_DIRECT_IO)
                         (new_disk 512 20 (zeros 10240));
       t_client := {| cb_base := 131072; cb_ptr := 131072;
                      cb_bytes := pattern 10000 |};
       t_total := 0; t_n := 10000 |}.

(** 100 bytes are written through the window over a disk of 20 blocks. *)
Definition written_100 : World Disk :=
  default (attach (engine_at_65536 0) (new_disk 512 20 (zeros 10240)))
          (session (ctor_4096 0)
                   (new_disk 512 20 (zeros 10240))
                   [DoWrite 131072 (zeros 100) 100]).

(** A whole window of 4096 bytes is written on a fresh engine: the
    cursor is then at the end of the window. *)
Definition written_4096 (flags : Z) : World Disk :=
  default (attach (engine_at_65536 flags) (new_disk 512 20 (zeros 10240)))
          (session (ctor_4096 flags)
                   (new_disk 512 20 (zeros 10240))
                   [DoWrite 131072 (pattern 4096) 4096]).

(** A fresh engine over a disk of 20 blocks whose bytes are not all the
    same. *)
Definition fresh_on_pattern : World Disk :=
  attach (engine_at_65536 0) (new_disk 512 20 (pattern 10240)).

(** What the constructor builds for a buffer of 0 bytes that may not use
    direct transfers. *)
Definition engine_0 : BufferedProxy :=
  match BufferedProxy_ctor 65536 [] 0 7 CF_NO_DIRECT_IO 512 512 1 with
  | Constructed p => p
  | _ => engine_at_65536 CF_NO_DIRECT_IO
  end.

(** The locals of [Write] when its second part begins, for 100 bytes
    written through that engine. *)
Definition empty_buffer_start : Transfer (D:=Disk) :=
  Write_available
    {| t_world := attach engine_0 (new_disk 512 20 (zeros 10240));
       t_client := {| cb_base := 131072; cb_ptr := 131072;
                      cb_bytes := pattern 100 |};
       t_total := 0; t_n := 100 |}.

(** The window of [written_4096] after it was flushed: the cursor is at
    the end of a clean window. *)
Definition flushed_4096 : World Disk :=
  Flush (written_4096 0).

(** ** Facts about the helpers *)

Lemma to_int_small (z : Z) : - 2 ^ 31 <= z < 2 ^ 31 -> to_int z = z.
Proof.
  intros Hz. unfold to_int.
  rewrite Z.mod_small by lia. lia.
Qed.

Lemma pow2_le_31 (k : Z) : 0 <= k <= 31 -> 1 <= 2 ^ k <= 2 ^ 31.
Proof.
  intros Hk. split.
  - assert (0 < 2 ^ k) by (apply Z.pow_pos_nonneg; lia). lia.
  - apply Z.pow_le_mono_r; lia.
Qed.

(** On a mask [2^k - 1] the bit operation of the source is the
    sector-aligned floor. *)
Lemma _HighestMultiplePowerOf2_floor (n k : Z) :
  0 <= k ->
  _HighestMultiplePowerOf2 n (2 ^ k - 1) = sector_floor (2 ^ k) n.
Proof.
  intros Hk. unfold _HighestMultiplePowerOf2, sector_floor.
  rewrite <- Z.ldiff_land.
  replace (2 ^ k - 1) with (Z.ones k) by (rewrite Z.ones_equiv; lia).
  rewrite Z.ldiff_ones_r by lia.
  rewrite Z.shiftl_mul_pow2, Z.shiftr_div_pow2 by lia.
  lia.
Qed.

Lemma _IsAligned_mod (n k : Z) :
  0 <= k -> _IsAligned n (2 ^ k - 1) = true <-> n `mod` 2 ^ k = 0.
Proof.
  intros Hk. unfold _IsAligned.
  replace (2 ^ k - 1) with (Z.ones k) by (rewrite Z.ones_equiv; lia).
  rewrite Z.land_ones by lia. apply Z.eqb_eq.
Qed.

(** On positive [int]s the bit test of the source recognises exactly the
    powers of two. *)
Lemma _IsPowerOf2_spec (n : Z) :
  0 < n < 2 ^ 31 -> _IsPowerOf2 n = true <-> power_of_two n.
Proof.
  intros Hn. unfold _IsPowerOf2. rewrite to_int_small by lia.
  rewrite Z.eqb_eq. split.
  - intros Hland.
    pose proof (Z.log2_spec n ltac:(lia)) as [Hlo Hhi].
    pose proof (Z.log2_nonneg n) as Hk.
    exists (Z.log2 n). split; [done|].
    destruct (Z.eq_dec n (2 ^ Z.log2 n)) as [|Hne]; [done|exfalso].
    assert (Hlog : Z.log2 (n - 1) = Z.log2 n).
    { apply Z.log2_unique; [done|]. lia. }
    assert (Hbit : Z.testbit (Z.land n (n - 1)) (Z.log2 n) = true).
    { assert (0 < 2 ^ Z.log2 n) by (apply Z.pow_pos_nonneg; lia).
      rewrite Z.land_spec, (Z.bit_log2 n) by lia.
      rewrite <- Hlog. by rewrite Z.bit_log2 by lia. }
    rewrite Hland, Z.bits_0 in Hbit. discriminate.
  - intros (k & Hk & ->).
    replace (2 ^ k - 1) with (Z.ones k) by (rewrite Z.ones_equiv; lia).
    rewrite Z.land_ones by lia. apply Z_mod_same_full.
Qed.

Lemma _IsAligned_0 (n : Z) : _IsAligned n 0 = true.
Proof. unfold _IsAligned. by rewrite Z.land_0_r. Qed.

(** The boolean tests of the source, decided from an order on [Z]. *)

Lemma gtb_true a b : b < a -> (a >? b) = true.
Proof. rewrite Z.gtb_ltb. apply Z.ltb_lt. Qed.

Lemma gtb_false a b : a <= b -> (a >? b) = false.
Proof. rewrite Z.gtb_ltb. apply Z.ltb_ge. Qed.

Lemma geb_true a b : b <= a -> (a >=? b) = true.
Proof. rewrite Z.geb_leb. apply Z.leb_le. Qed.

Lemma ltb_false a b : b <= a -> (a <? b) = false.
Proof. apply Z.ltb_ge. Qed.

Lemma to_nat_S (n : Z) : 0 < n -> Z.to_nat n = S (Z.to_nat (n - 1)).
Proof. lia. Qed.

(** ** Facts about memory regions *)

Lemma length_zeros (n : Z) : length (zeros n) = Z.to_nat n.
Proof. apply length_replicate. Qed.

Lemma length_load_at (l : list byte) (off n : Z) :
  length (load_at l off n)
  = (Z.to_nat n `min` (length l - Z.to_nat off))%nat.
Proof. unfold load_at. by rewrite length_take, length_drop. Qed.

Lemma length_store_at (l : list byte) (off : Z) (new : list byte) :
  length (store_at l off new) = length l.
Proof. unfold store_at. destruct (off <? 0); apply length_inserts. Qed.

Lemma lookup_load_at (l : list byte) (off n : Z) (i : nat) :
  load_at l off n !! i
  = if decide (i < Z.to_nat n)%nat then l !! (Z.to_nat off + i)%nat else None.
Proof.
  unfold load_at. case_decide.
  - by rewrite lookup_take_lt, lookup_drop by done.
  - by rewrite lookup_take_ge by lia.
Qed.

Lemma lookup_store_at (l : list byte) (off : Z) (new : list byte) (i : nat) :
  0 <= off ->
  store_at l off new !! i
  = if decide (Z.to_nat off <= i < Z.to_nat off + length new
               /\ i < length l)%nat
    then new !! (i - Z.to_nat off)%nat else l !! i.
Proof.
  intros Hoff. unfold store_at. rewrite (ltb_false off 0) by lia.
  case_decide as Hi.
  - by rewrite list_lookup_inserts by lia.
  - destruct (decide (i < Z.to_nat off)%nat).
    { by rewrite list_lookup_inserts_lt. }
    destruct (decide (Z.to_nat off + length new <= i)%nat).
    { by rewrite list_lookup_inserts_ge. }
    rewrite !lookup_ge_None_2; [done|lia|rewrite length_inserts; lia].
Qed.

(** ** Facts about the engine over any buffered object *)

Section EngineFacts.

Context {D : Type} `{BufferedObject D}.

Implicit Types (s : World D) (p : BufferedProxy).

(** *** Loops whose guard is false *)

Lemma Read_loop_done budget (t : Transfer) :
  t_n t < m_BufferSize (proxy (t_world t)) -> Read_loop budget t = Some t.
Proof.
  intros Hn. destruct budget; simpl;
    by rewrite Z.geb_leb, (proj2 (Z.leb_gt _ _) Hn).
Qed.

Lemma Write_loop_done budget (t : Transfer) :
  t_n t < m_BufferSize (proxy (t_world t)) -> Write_loop budget t = Some t.
Proof.
  intros Hn. destruct budget; simpl;
    by rewrite Z.geb_leb, (proj2 (Z.leb_gt _ _) Hn).
Qed.

Lemma Write_rest_done budget (t : Transfer) :
  t_n t <= 0 -> Write_rest budget t = Some t.
Proof.
  intros Hn. destruct budget; simpl;
    by rewrite Z.gtb_ltb, (proj2 (Z.ltb_ge _ _) Hn).
Qed.

Lemma Write_rest_step budget (t : Transfer) :
  t_n t > 0 ->
  Write_rest (S budget) t
  = let s := Flush (t_world t) in
    let s :=
      if (t_n t <? m_BufferSize (proxy s))
         && (Z.land (m_Flags (proxy s)) CF_NO_FILLS =? 0) then Fill s
      else s in
    let bytesToWrite := Z.min (t_n t) (RemainingWriteSpace (proxy s)) in
    if bytesToWrite <=? 0 then
      Some {| t_world := s; t_client := t_client t;
              t_total := t_total t; t_n := t_n t |}
    else
      let '(s, src) := CopyIn s (t_client t) bytesToWrite in
      let s :=
        if m_Point (proxy s) >=? m_BufferSize (proxy s) then Flush s
        else s in
      Write_rest budget
        {| t_world := s; t_client := src;
           t_total := t_total t + bytesToWrite;
           t_n := t_n t - bytesToWrite |}.
Proof. intros Hn. cbn [Write_rest]. by rewrite gtb_true by lia. Qed.

(** *** Flush *)

Lemma Flush_idle s :
  m_IsDirty (proxy s) = false \/ m_DataSize (proxy s) <= 0 -> Flush s = s.
Proof.
  intros Hidle. unfold Flush.
  destruct (m_IsDirty (proxy s)) eqn:Hd; [|done].
  destruct Hidle as [?|Hsz]; [done|].
  rewrite Z.gtb_ltb. by destruct (Z.ltb_spec 0 (m_DataSize (proxy s))); [lia|].
Qed.

(** What one call of [Flush] does, by cases on the answers of the object. *)
Lemma Flush_cases s :
  let p := proxy s in
  (Flush s = s /\ (m_IsDirty p = false \/ m_DataSize p <= 0))
  \/ (m_IsDirty p = true /\ 0 < m_DataSize p /\
      exists o1 r,
        obj_Seek (object s) (m_Handle p) (m_BufferLoc p) = (o1, r) /\
        ((r <> m_BufferLoc p /\
          Flush s = {| proxy := p; object := o1;
                       calls := calls s ++ [CallSeek (m_BufferLoc p) r] |})
         \/ (r = m_BufferLoc p /\
             exists o2 k,
               obj_Write o1 (m_Handle p) (m_paBuffer p) (window p)
                         (m_DataSize p) = (o2, k) /\
               Flush s =
                 {| proxy := if k =? m_DataSize p then with_IsDirty false p
                             else p;
                    object := o2;
                    calls := calls s ++ [CallSeek (m_BufferLoc p) r;
                                         CallWrite (m_paBuffer p)
                                                   (m_DataSize p) k] |}))).
Proof.
  intros p. subst p.
  destruct (m_IsDirty (proxy s)) eqn:Hd;
    [|left; split; [apply Flush_idle|]; auto].
  destruct (Z.ltb_spec 0 (m_DataSize (proxy s))) as [Hsz|Hsz];
    [|left; split; [apply Flush_idle|]; auto].
  right. split; [done|]. split; [done|].
  unfold Flush. rewrite Hd, Z.gtb_ltb, (proj2 (Z.ltb_lt _ _) Hsz). simpl.
  unfold call_Seek.
  destruct (obj_Seek (object s) (m_Handle (proxy s)) (m_BufferLoc (proxy s)))
    as [o1 r] eqn:Hseek.
  exists o1, r. split; [done|]. simpl.
  destruct (Z.eqb_spec r (m_BufferLoc (proxy s))) as [Hr|Hr]; [right|left; done].
  split; [done|]. unfold call_Write. simpl.
  destruct (obj_Write o1 (m_Handle (proxy s)) (m_paBuffer (proxy s))
                      (window (proxy s)) (m_DataSize (proxy s)))
    as [o2 k] eqn:Hwrite.
  exists o2, k. split; [done|]. simpl.
  rewrite <- app_assoc. simpl.
  by destruct (k =? m_DataSize (proxy s)).
Qed.

Lemma Flush_proxy s :
  proxy (Flush s) = with_IsDirty (m_IsDirty (proxy (Flush s))) (proxy s).
Proof.
  assert (Hid : forall p, p = with_IsDirty (m_IsDirty p) p) by (by intros []).
  destruct (Flush_cases s)
    as [[-> _]|(Hd & _ & o1 & r & _ & [[_ ->]|(_ & o2 & k & _ & ->)])]; simpl;
    auto.
  by destruct (k =? m_DataSize (proxy s)).
Qed.

(** *** Fill *)

Lemma Fill_proxy s :
  exists w n,
    proxy (Fill s) = with_Point 0 (with_DataSize n (with_window w (proxy s))).
Proof.
  assert (Hid : forall p,
    with_Point 0 p
    = with_Point 0 (with_DataSize (m_DataSize p) (with_window (window p) p)))
    by (by intros []).
  unfold Fill.
  destruct (Z.land (m_Flags (proxy s)) CF_NO_FILLS =? 0); [|simpl; eauto].
  unfold call_Seek.
  destruct (obj_Seek _ _ _) as [o1 r]. simpl.
  destruct (r =? m_BufferLoc (proxy s)); [|simpl; eauto].
  unfold call_Read. simpl.
  destruct (obj_Read _ _ _ _) as [[o2 data] k]. simpl. eauto.
Qed.

(** C5. [Flush] does nothing unless the window is dirty and holds data.
    Otherwise it seeks the object to the window location; only if the
    object answers that very location does it write [m_DataSize] blocks,
    once; the dirty flag is cleared only if the object answers that it
    wrote exactly [m_DataSize] blocks.  On a wrong seek answer or a short
    write every member of the proxy is as before the call. *)
Theorem Flush_protocol s :
  let p := proxy s in
  ((m_IsDirty p = false \/ m_DataSize p <= 0) -> Flush s = s)
  /\ (m_IsDirty p = true -> 0 < m_DataSize p ->
      exists o1 r,
        obj_Seek (object s) (m_Handle p) (m_BufferLoc p) = (o1, r) /\
        (r <> m_BufferLoc p ->
         Flush s = {| proxy := p; object := o1;
                      calls := calls s ++ [CallSeek (m_BufferLoc p) r] |}) /\
        (r = m_BufferLoc p ->
         exists o2 k,
           obj_Write o1 (m_Handle p) (m_paBuffer p) (window p) (m_DataSize p)
             = (o2, k) /\
           object (Flush s) = o2 /\
           calls (Flush s) =
             calls s ++ [CallSeek (m_BufferLoc p) r;
                         CallWrite (m_paBuffer p) (m_DataSize p) k] /\
           (k = m_DataSize p -> proxy (Flush s) = with_IsDirty false p) /\
           (k <> m_DataSize p -> proxy (Flush s) = p))).
Proof.
  intros p. subst p. split; [apply Flush_idle|].
  intros Hd Hsz.
  destruct (Flush_cases s) as [[_ [Hn|Hn]]|(_ & _ & o1 & r & Hseek & Hcase)];
    [congruence|lia|].
  exists o1, r. split; [done|].
  destruct Hcase as [[Hr Hfl]|(Hr & o2 & k & Hwrite & Hfl)].
  - split; [done|]. intros ?. done.
  - split; [intros ?; done|]. intros _.
    exists o2, k. rewrite Hfl. simpl. repeat split; try done.
    + intros ->. by rewrite Z.eqb_refl.
    + intros Hk. by rewrite (proj2 (Z.eqb_neq _ _) Hk).
Qed.

(** C9. [Flush] leaves the cursor, the window location, the data size and
    the bytes of the window as they are and never reads from the object;
    the only member it can change is the dirty flag, and only from set to
    clear. *)
Theorem Flush_frame s :
  m_Point (proxy (Flush s)) = m_Point (proxy s)
  /\ m_BufferLoc (proxy (Flush s)) = m_BufferLoc (proxy s)
  /\ m_DataSize (proxy (Flush s)) = m_DataSize (proxy s)
  /\ window (proxy (Flush s)) = window (proxy s)
  /\ (exists l, calls (Flush s) = calls s ++ l /\ device_reads l = 0%nat)
  /\ proxy (Flush s) = with_IsDirty (m_IsDirty (proxy (Flush s))) (proxy s)
  /\ (m_IsDirty (proxy (Flush s)) = m_IsDirty (proxy s)
      \/ (m_IsDirty (proxy s) = true
          /\ m_IsDirty (proxy (Flush s)) = false)).
Proof.
  assert (Hid : forall p, p = with_IsDirty (m_IsDirty p) p) by (by intros []).
  destruct (Flush_cases s)
    as [[-> _]|(Hd & _ & o1 & r & _ & [[_ ->]|(_ & o2 & k & _ & ->)])]; simpl.
  - repeat split; auto. exists []. by rewrite app_nil_r.
  - repeat split; auto. by eexists.
  - destruct (k =? m_DataSize (proxy s)); simpl; repeat split; auto;
      by eexists.
Qed.

(** C6, as amended.  When the first of two consecutive calls of [Flush]
    leaves the window clean, the second call does nothing, and the two
    calls together write to the object at most once. *)
Theorem Flush_twice s :
  m_IsDirty (proxy (Flush s)) = false ->
  Flush (Flush s) = Flush s
  /\ exists l, calls (Flush (Flush s)) = calls s ++ l
               /\ (device_writes l <= 1)%nat.
Proof.
  intros Hclean.
  rewrite (Flush_idle (Flush s)) by auto.
  split; [done|].
  destruct (Flush_cases s)
    as [[-> _]|(_ & _ & o1 & r & _ & [[_ ->]|(_ & o2 & k & _ & ->)])]; simpl.
  - exists []. rewrite app_nil_r. split; [done|]. cbn. lia.
  - eexists. split; [done|]. cbn. lia.
  - destruct (k =? m_DataSize (proxy s)); simpl;
      (eexists; split; [done|]; cbn; lia).
Qed.

(** C10. With a positive buffer size, [Read] and [Write] of [n <= 0] bytes
    answer 0 and leave the proxy, the object, the log of calls and the
    client bytes as they are. *)
Theorem Read_Write_nothing s (ptr : Z) (bytes : list byte) (n : Z) :
  m_BufferSize (proxy s) > 0 -> n <= 0 ->
  Read s ptr bytes n = Some (0, bytes, s)
  /\ Write s ptr bytes n = Some (0, s).
Proof.
  intros Hsize Hn.
  assert (Hmin : forall m, (Z.min n m >? 0) = false).
  { intros m. rewrite Z.gtb_ltb. apply Z.ltb_ge. lia. }
  assert (Hge : (n >=? m_BufferSize (proxy s)) = false).
  { rewrite Z.geb_leb. apply Z.leb_gt. lia. }
  assert (Hgt : (n >? 0) = false).
  { rewrite Z.gtb_ltb. apply Z.ltb_ge. lia. }
  split.
  - unfold Read, Read_available, Read_blocks, Read_rest.
    cbn [t_n t_world t_client t_total]. rewrite Hmin.
    cbn [t_n t_world t_client t_total]. rewrite Hge.
    cbn [t_n t_world t_client t_total]. by rewrite Hgt.
  - unfold Write, Write_available, Write_blocks.
    cbn [t_n t_world t_client t_total]. rewrite Hmin.
    cbn [t_n t_world t_client t_total]. rewrite Hge.
    by rewrite Write_rest_done.
Qed.

(** *** Seek *)

Lemma within_window_test p location :
  (location >=? m_BufferLoc p * m_BlockSize p)
  && (location <? (m_BufferLoc p + m_DataSize p) * m_BlockSize p) = true
  <-> within_window p location.
Proof.
  unfold within_window.
  rewrite andb_true_iff, Z.geb_leb, Z.leb_le, Z.ltb_lt. tauto.
Qed.

(** C7. [Seek] answers the location it was given.  A location inside the
    window only moves the cursor: no call is made on the object.  For any
    other location the window is flushed, the object is asked to seek to
    the sector-aligned floor of the location, converted to blocks; the
    location the object answers becomes the window location, the window is
    filled there, and the cursor is the distance from the start of the
    window to the location.  [2^k] is the sector alignment given to the
    constructor, which also makes sure that the block size is not 0.  The
    location, the two ends of the window that the source compares it with,
    the block location that it asks for and the cursor that it computes
    are assumed to be representable as [int]: where one of them overflows
    the behaviour of the source is undefined. *)
Theorem Seek_spec s (location k : Z) :
  0 <= k <= 31 -> m_SectorAlign (proxy s) = 2 ^ k - 1 ->
  m_BlockSize (proxy s) <> 0 ->
  int_range location ->
  int_range (m_BufferLoc (proxy s) * m_BlockSize (proxy s)) ->
  int_range (m_BufferLoc (proxy s) + m_DataSize (proxy s)) ->
  int_range ((m_BufferLoc (proxy s) + m_DataSize (proxy s))
             * m_BlockSize (proxy s)) ->
  let p := proxy s in
  (Seek s location).1 = location
  /\ (within_window p location ->
      int_range (location - m_BufferLoc p * m_BlockSize p) ->
      (Seek s location).2
      = update (with_Point (location - m_BufferLoc p * m_BlockSize p)) s
      /\ object (Seek s location).2 = object s
      /\ calls (Seek s location).2 = calls s)
  /\ (~ within_window p location ->
      let target := Z.quot (sector_floor (2 ^ k) location) (m_BlockSize p) in
      int_range target ->
      forall o r,
        obj_Seek (object (Flush s)) (m_Handle p) target = (o, r) ->
        int_range (r * m_BlockSize p) ->
        int_range (location - r * m_BlockSize p) ->
        let filled :=
          Fill {| proxy := with_BufferLoc r (proxy (Flush s)); object := o;
                  calls := calls (Flush s) ++ [CallSeek target r] |} in
        (Seek s location).2
        = update (with_Point (location - r * m_BlockSize p)) filled
        /\ m_BufferLoc (proxy (Seek s location).2) = r
        /\ m_Point (proxy (Seek s location).2) = location - r * m_BlockSize p).
Proof.
  intros Hk Hmask _ _ _ _ _ p. subst p.
  pose proof (within_window_test (proxy s) location) as Htest.
  unfold Seek.
  destruct ((location >=? m_BufferLoc (proxy s) * m_BlockSize (proxy s))
            && (location <? (m_BufferLoc (proxy s) + m_DataSize (proxy s))
                            * m_BlockSize (proxy s))) eqn:Hin.
  - split; [done|]. split; [done|]. intros Hout. destruct Hout. by apply Htest.
  - assert (Hout : ~ within_window (proxy s) location).
    { intros Hw. apply Htest in Hw. congruence. }
    assert (Hconf : m_SectorAlign (proxy (Flush s)) = 2 ^ k - 1
                    /\ m_BlockSize (proxy (Flush s)) = m_BlockSize (proxy s)
                    /\ m_Handle (proxy (Flush s)) = m_Handle (proxy s)).
    { rewrite (Flush_proxy s). simpl. auto. }
    destruct Hconf as (Hmask' & Hblock & Hhandle).
    rewrite Hmask', Hblock.
    pose proof (pow2_le_31 k Hk) as Hpow.
    rewrite to_int_small by lia.
    rewrite _HighestMultiplePowerOf2_floor by lia.
    unfold call_Seek. rewrite Hhandle.
    destruct (obj_Seek (object (Flush s)) (m_Handle (proxy s))
                (Z.quot (sector_floor (2 ^ k) location) (m_BlockSize (proxy s))))
      as [o r] eqn:Hseek.
    cbn [fst snd].
    split; [done|]. split; [intros Hw; by destruct Hout|].
    intros _ _ o' r' Heq _ _. injection Heq as <- <-.
    unfold update. cbn [proxy object calls].
    set (s2 := {| proxy := with_BufferLoc r (proxy (Flush s)); object := o;
                  calls := calls (Flush s)
                           ++ [CallSeek (Z.quot (sector_floor (2 ^ k) location)
                                                (m_BlockSize (proxy s))) r] |}).
    destruct (Fill_proxy s2) as (w & n & Hfill).
    assert (Hcursor :
      m_Point (proxy (Fill s2))
      + (location - m_BufferLoc (proxy (Fill s2)) * m_BlockSize (proxy (Fill s2)))
      = location - r * m_BlockSize (proxy s)).
    { rewrite Hfill. subst s2. simpl. rewrite Hblock. lia. }
    rewrite Hcursor.
    repeat split. rewrite Hfill. by subst s2.
Qed.

(** *** The loop of Read *)

Lemma Read_loop_step budget (t : Transfer) :
  m_BufferSize (proxy (t_world t)) <= t_n t ->
  Read_loop (S budget) t
  = let s := update (fun p => with_BufferLoc (m_BufferLoc p + m_DataSize p) p)
                    (t_world t) in
    let s := Fill s in
    let amount := m_DataSize (proxy s) * m_BlockSize (proxy s) in
    let '(s, dst) := CopyOut s (t_client t) amount in
    let t' := {| t_world := s; t_client := dst;
                 t_total := t_total t + amount; t_n := t_n t - amount |} in
    if m_DataSize (proxy s) <? m_BufferSize (proxy s) then Some t'
    else Read_loop budget t'.
Proof. intros Hn. cbn [Read_loop]. by rewrite geb_true by lia. Qed.

(** With blocks of more than one byte, a window that is full of data
    still passes the test [m_DataSize < m_BufferSize] that leaves the
    loop: the test compares a number of blocks with a number of bytes. *)
Lemma full_window_counts_as_short p :
  1 < m_BlockSize p -> 0 < m_BufferSize p ->
  m_BufferSize p = m_BufferSizeInBlocks p * m_BlockSize p ->
  m_DataSize p <= m_BufferSizeInBlocks p ->
  (m_DataSize p <? m_BufferSize p) = true.
Proof. intros Hblock Hsize Heq Hdata. apply Z.ltb_lt. nia. Qed.

(** *** Sector alignment *)

(** When the block size is a multiple of the sector alignment every
    window location is on a sector boundary. *)
Lemma sector_aligned_blocks (sectorAlign : Z) p :
  (sectorAlign | m_BlockSize p) -> sector_aligned sectorAlign p.
Proof.
  intros [q Hq]. unfold sector_aligned. rewrite Hq, Z.mul_assoc.
  apply Z_mod_mult.
Qed.

(** *** The configuration is never changed *)

Lemma Flush_config s : config (proxy (Flush s)) = config (proxy s).
Proof. by rewrite (Flush_proxy s). Qed.

Lemma Fill_config s : config (proxy (Fill s)) = config (proxy s).
Proof. destruct (Fill_proxy s) as (w & n & ->). done. Qed.

Lemma CopyIn_config s c n : config (proxy (CopyIn s c n).1) = config (proxy s).
Proof.
  unfold CopyIn. cbn [fst update proxy].
  by destruct (_ >? _).
Qed.

Lemma CopyOut_config s c n : config (proxy (CopyOut s c n).1) = config (proxy s).
Proof. done. Qed.

Lemma config_BufferSize p q : config p = config q -> m_BufferSize p = m_BufferSize q.
Proof. unfold config. congruence. Qed.

Lemma config_BlockSize p q : config p = config q -> m_BlockSize p = m_BlockSize q.
Proof. unfold config. congruence. Qed.

(** *** The iteration budgets are enough *)

Lemma Write_rest_total budget (t : Transfer) :
  t_n t <= Z.of_nat budget -> exists t', Write_rest budget t = Some t'.
Proof.
  revert t. induction budget as [|budget IH]; intros t Hn.
  - exists t. apply Write_rest_done. lia.
  - destruct (Z.le_gt_cases (t_n t) 0) as [Hdone|Hmore].
    { exists t. by apply Write_rest_done. }
    rewrite Write_rest_step by lia. cbv zeta.
    match goal with
    | |- context [Z.min (t_n t) ?r <=? 0] =>
        destruct (Z.leb_spec (Z.min (t_n t) r) 0) as [Hstop|Hgo]
    end; [by eexists|].
    unfold CopyIn. apply IH. cbn [t_n]. lia.
Qed.

Lemma Write_loop_total budget (t : Transfer) :
  0 < m_BufferSize (proxy (t_world t)) -> t_n t <= Z.of_nat budget ->
  exists t', Write_loop budget t = Some t'.
Proof.
  revert t. induction budget as [|budget IH]; intros t Hsize Hn.
  - exists t. apply Write_loop_done. lia.
  - destruct (Z.lt_ge_cases (t_n t) (m_BufferSize (proxy (t_world t))))
      as [Hdone|Hmore].
    { exists t. by apply Write_loop_done. }
    cbn [Write_loop]. rewrite geb_true by lia.
    pose proof (CopyIn_config (t_world t) (t_client t)
                  (m_BufferSize (proxy (t_world t)))) as Hc.
    destruct (CopyIn (t_world t) (t_client t)
                (m_BufferSize (proxy (t_world t)))) as [s1 c1].
    cbn [fst] in Hc.
    apply IH; cbn [t_n t_world update proxy].
    + unfold with_BufferLoc. cbn [m_BufferSize].
      rewrite (config_BufferSize _ _ (Flush_config s1)).
      by rewrite (config_BufferSize _ _ Hc).
    + lia.
Qed.

Lemma Read_loop_total budget (t : Transfer) :
  0 < m_BufferSize (proxy (t_world t)) ->
  0 < m_BlockSize (proxy (t_world t)) ->
  t_n t <= Z.of_nat budget ->
  exists t', Read_loop budget t = Some t'.
Proof.
  revert t. induction budget as [|budget IH]; intros t Hsize Hblock Hn.
  - exists t. apply Read_loop_done. lia.
  - destruct (Z.lt_ge_cases (t_n t) (m_BufferSize (proxy (t_world t))))
      as [Hdone|Hmore].
    { exists t. by apply Read_loop_done. }
    cbn [Read_loop]. rewrite geb_true by lia.
    set (s1 := Fill (update (fun p => with_BufferLoc
                                        (m_BufferLoc p + m_DataSize p) p)
                            (t_world t))).
    assert (Hc : config (proxy s1) = config (proxy (t_world t))).
    { subst s1. rewrite Fill_config. by destruct t as [[[]]]. }
    unfold CopyOut, with_Point.
    cbn [update proxy m_DataSize m_BufferSize m_BlockSize].
    destruct (Z.ltb_spec (m_DataSize (proxy s1)) (m_BufferSize (proxy s1)))
      as [Hshort|Hfull]; [by eexists|].
    rewrite (config_BufferSize _ _ Hc) in Hfull.
    apply IH; unfold update; cbn [t_n t_world proxy m_BufferSize m_BlockSize].
    + by rewrite (config_BufferSize _ _ Hc).
    + by rewrite (config_BlockSize _ _ Hc).
    + rewrite (config_BlockSize _ _ Hc). nia.
Qed.

(** With a positive buffer size [Write] always answers. *)
Lemma Write_total s (pSrc : Z) (src : list byte) (n : Z) :
  0 < m_BufferSize (proxy s) -> exists r, Write s pSrc src n = Some r.
Proof.
  intros Hsize. unfold Write.
  set (t0 := {| t_world := s;
                t_client := {| cb_base := pSrc; cb_ptr := pSrc;
                               cb_bytes := src |};
                t_total := 0; t_n := n |}).
  assert (Hb : exists t1, Write_blocks (Write_available t0) = Some t1).
  { set (t := Write_available t0).
    assert (Hc : config (proxy (t_world t)) = config (proxy s)).
    { subst t. unfold Write_available.
      destruct (_ >? _); [|done].
      pose proof (CopyIn_config (t_world t0) (t_client t0)
                    (Z.min (t_n t0) (RemainingWriteSpace (proxy (t_world t0)))))
        as Hin.
      by destruct (CopyIn _ _ _). }
    unfold Write_blocks.
    destruct (Z.geb_spec (t_n t) (m_BufferSize (proxy (t_world t))))
      as [Hmore|Hdone]; [|by eexists].
    destruct (_ && _).
    - destruct (call_Write _ _ _ _). by eexists.
    - apply Write_loop_total; cbn [t_n t_world update proxy].
      + unfold with_BufferLoc. cbn [m_BufferSize].
        rewrite (config_BufferSize _ _ (Flush_config _)).
        by rewrite (config_BufferSize _ _ Hc).
      + lia. }
  destruct Hb as [t1 ->].
  destruct (Write_rest_total (Z.to_nat (t_n t1)) t1) as [t2 ->]; [lia|].
  by eexists.
Qed.

(** With a positive buffer size and a positive block size the model of
    [Read] always answers.  The amounts are exact integers here: for the
    [int]s of the source the lemma is used over objects that answer
    within their request. *)
Lemma Read_total s (pDst : Z) (dst : list byte) (n : Z) :
  0 < m_BufferSize (proxy s) -> 0 < m_BlockSize (proxy s) ->
  exists r, Read s pDst dst n = Some r.
Proof.
  intros Hsize Hblock. unfold Read.
  set (t0 := {| t_world := s;
                t_client := {| cb_base := pDst; cb_ptr := pDst;
                               cb_bytes := dst |};
                t_total := 0; t_n := n |}).
  assert (Hb : exists t1, Read_blocks (Read_available t0) = Some t1).
  { set (t := Read_available t0).
    assert (Hc : config (proxy (t_world t)) = config (proxy s)).
    { subst t. unfold Read_available. by destruct (_ >? _). }
    unfold Read_blocks.
    destruct (Z.geb_spec (t_n t) (m_BufferSize (proxy (t_world t))))
      as [Hmore|Hdone]; [|by eexists].
    destruct (_ && _).
    - destruct (call_Read _ _ _) as [[? ?] ?]. by eexists.
    - apply Read_loop_total; cbn [t_n t_world].
      + rewrite (config_BufferSize _ _ (Flush_config _)).
        by rewrite (config_BufferSize _ _ Hc).
      + rewrite (config_BlockSize _ _ (Flush_config _)).
        by rewrite (config_BlockSize _ _ Hc).
      + lia. }
  destruct Hb as [t1 ->]. by eexists.
Qed.

End EngineFacts.

(** ** The engine over a disk *)

(** A seek inside the disk lands where it is asked to. *)
Lemma disk_Seek_inside (d : Disk) (handle location : Z) :
  0 <= location <= disk_blocks d ->
  disk_Seek d handle location
  = ({| disk_blockSize := disk_blockSize d; disk_blocks := disk_blocks d;
        disk_bytes := disk_bytes d; disk_pos := location |}, location).
Proof.
  intros Hl. unfold disk_Seek.
  by replace (Z.max 0 (Z.min location (disk_blocks d))) with location by lia.
Qed.

(** Flushing a dirty window that lies inside the disk copies its data to
    the disk at the window location and clears the dirty flag. *)
Lemma Flush_disk (s : World Disk) :
  m_IsDirty (proxy s) = true -> 0 < m_DataSize (proxy s) ->
  0 <= m_BufferLoc (proxy s) ->
  m_BufferLoc (proxy s) + m_DataSize (proxy s) <= disk_blocks (object s) ->
  Flush s
  = {| proxy := with_IsDirty false (proxy s);
       object :=
         {| disk_blockSize := disk_blockSize (object s);
            disk_blocks := disk_blocks (object s);
            disk_bytes :=
              store_at (disk_bytes (object s))
                       (m_BufferLoc (proxy s) * disk_blockSize (object s))
                       (load_at (window (proxy s)) 0
                                (m_DataSize (proxy s) * disk_blockSize (object s)));
            disk_pos := m_BufferLoc (proxy s) + m_DataSize (proxy s) |};
       calls := calls s ++ [CallSeek (m_BufferLoc (proxy s)) (m_BufferLoc (proxy s));
                            CallWrite (m_paBuffer (proxy s)) (m_DataSize (proxy s))
                                      (m_DataSize (proxy s))] |}.
Proof.
  intros Hd Hsz Hloc Hcap.
  unfold Flush. rewrite Hd, Z.gtb_ltb, (proj2 (Z.ltb_lt _ _) Hsz).
  cbn [andb]. unfold call_Seek. cbn [obj_Seek Disk_BufferedObject].
  rewrite disk_Seek_inside by lia. cbn [proxy object calls].
  rewrite Z.eqb_refl. unfold call_Write.
  cbn [proxy object calls obj_Write Disk_BufferedObject].
  unfold disk_Write, disk_count.
  cbn [disk_blockSize disk_blocks disk_bytes disk_pos].
  replace (Z.max 0 (Z.min (m_DataSize (proxy s))
                          (disk_blocks (object s) - m_BufferLoc (proxy s))))
    with (m_DataSize (proxy s)) by lia.
  cbn [proxy object calls]. rewrite Z.eqb_refl.
  unfold update. cbn [proxy object calls]. by rewrite <- app_assoc.
Qed.

(** Filling a window that starts inside the disk brings the blocks the
    disk has from the window location on, a full window at most. *)
Lemma Fill_disk (s : World Disk) :
  Z.land (m_Flags (proxy s)) CF_NO_FILLS = 0 ->
  0 <= m_BufferLoc (proxy s) <= disk_blocks (object s) ->
  Fill s
  = let k := Z.max 0 (Z.min (m_BufferSizeInBlocks (proxy s))
                            (disk_blocks (object s) - m_BufferLoc (proxy s))) in
    {| proxy :=
         with_Point 0
           (with_DataSize k
              (with_window
                 (store_at (window (proxy s)) 0
                    (load_at (disk_bytes (object s))
                             (m_BufferLoc (proxy s) * disk_blockSize (object s))
                             (k * disk_blockSize (object s))))
                 (proxy s)));
       object :=
         {| disk_blockSize := disk_blockSize (object s);
            disk_blocks := disk_blocks (object s);
            disk_bytes := disk_bytes (object s);
            disk_pos := m_BufferLoc (proxy s) + k |};
       calls := calls s ++ [CallSeek (m_BufferLoc (proxy s)) (m_BufferLoc (proxy s));
                            CallRead (m_paBuffer (proxy s))
                                     (m_BufferSizeInBlocks (proxy s)) k] |}.
Proof.
  intros Hf Hloc.
  unfold Fill. rewrite Hf. cbn [Z.eqb].
  unfold call_Seek. cbn [obj_Seek Disk_BufferedObject].
  rewrite disk_Seek_inside by lia. cbn [proxy object calls].
  rewrite Z.eqb_refl. unfold call_Read.
  cbn [proxy object calls obj_Read Disk_BufferedObject].
  unfold disk_Read, disk_count.
  cbn [disk_blockSize disk_blocks disk_bytes disk_pos].
  unfold update. cbn [proxy object calls]. by rewrite <- app_assoc.
Qed.

Lemma engine_4096_constructed (pBuffer handle flags : Z) (memory : list byte) :
  BufferedProxy_ctor pBuffer memory 4096 handle flags 512 512 1
  = Constructed (engine_4096 pBuffer handle flags memory).
Proof.
  unfold BufferedProxy_ctor.
  change (to_unsigned (1 - 1)) with 0. rewrite _IsAligned_0. reflexivity.
Qed.

(** *** Evaluation of the engine on explicit states

    [ev] unfolds the operations of the engine that do not call [Flush] or
    [Fill] and computes the arithmetic between constants; [Flush] and
    [Fill] are rewritten with [Flush_idle], [Flush_disk] and [Fill_disk]. *)

Ltac is_pos_const p :=
  lazymatch p with
  | xH => idtac
  | xI ?q => is_pos_const q
  | xO ?q => is_pos_const q
  end.

Ltac is_z_const z :=
  lazymatch z with
  | Z0 => idtac
  | Zpos ?p => is_pos_const p
  | Zneg ?p => is_pos_const p
  end.

Ltac fold_const t a b :=
  is_z_const a; is_z_const b;
  let v := eval vm_compute in t in change t with v.

Ltac zfold :=
  repeat match goal with
  | |- context [Z.add ?a ?b] => fold_const (Z.add a b) a b
  | |- context [Z.sub ?a ?b] => fold_const (Z.sub a b) a b
  | |- context [Z.mul ?a ?b] => fold_const (Z.mul a b) a b
  | |- context [Z.quot ?a ?b] => fold_const (Z.quot a b) a b
  | |- context [Z.rem ?a ?b] => fold_const (Z.rem a b) a b
  | |- context [Z.min ?a ?b] => fold_const (Z.min a b) a b
  | |- context [Z.max ?a ?b] => fold_const (Z.max a b) a b
  | |- context [Z.gtb ?a ?b] => fold_const (Z.gtb a b) a b
  | |- context [Z.geb ?a ?b] => fold_const (Z.geb a b) a b
  | |- context [Z.ltb ?a ?b] => fold_const (Z.ltb a b) a b
  | |- context [Z.leb ?a ?b] => fold_const (Z.leb a b) a b
  | |- context [Z.eqb ?a ?b] => fold_const (Z.eqb a b) a b
  | |- context [Z.land ?a ?b] => fold_const (Z.land a b) a b
  | |- context [Z.lnot ?a] => fold_const (Z.lnot a) a a
  | |- context [to_int ?a] => fold_const (to_int a) a a
  end.

Ltac unfold_engine :=
  cbv beta iota zeta delta
      [t_n t_world t_client t_total proxy object calls
       m_Handle m_paBuffer window m_BufferSize m_BufferSizeInBlocks
       m_BlockSize m_SectorAlign m_BufferAlign m_Flags m_Point m_BufferLoc
       m_DataSize m_IsDirty
       with_window with_Point with_BufferLoc with_DataSize with_IsDirty
       update attach cb_base cb_ptr cb_bytes cb_offset cb_advance cb_store
       RemainingWriteSpace RemainingReadAmount CopyIn CopyOut cb_view
       andb negb fst snd _HighestMultiple _HighestMultiplePowerOf2
       disk_blockSize disk_blocks disk_bytes disk_pos
       obj_Read obj_Write obj_Seek Disk_BufferedObject
       call_Read call_Write call_Seek disk_Read disk_Write disk_count].

Ltac ev := repeat (progress (unfold_engine; zfold)).

Ltac flush_idle :=
  rewrite Flush_idle by (left; reflexivity).
Ltac flush_disk :=
  rewrite Flush_disk
    by (cbn [proxy object m_IsDirty m_DataSize m_BufferLoc disk_blocks];
        (reflexivity || lia)).
Ltac fill_disk :=
  rewrite Fill_disk
    by (cbn [proxy object m_Flags m_BufferLoc disk_blocks];
        (assumption || lia)).

(** Lookups in regions built by [store_at] and [load_at]. *)

Ltac lengths :=
  rewrite ?length_store_at, ?length_load_at, ?length_zeros, ?length_drop,
    ?length_store_at, ?length_load_at, ?length_zeros, ?length_drop.

Ltac look :=
  repeat first
    [ rewrite lookup_store_at by lia
    | rewrite lookup_load_at
    | rewrite lookup_drop
    | rewrite decide_True by (repeat lengths; lia)
    | rewrite decide_False by (repeat lengths; lia) ].

(** C2.  Engine constructed with a window of 4096 bytes, 512-byte blocks,
    sector alignment 512 and buffer alignment 1, over a fault-free disk of
    at least 20 blocks (10000 bytes need 20 blocks of 512).  Writing 10000
    bytes at location 0 answers 10000; after seeking to 0, reading 10000
    bytes answers 10000 and the bytes read are the bytes written.  The
    scenario sets no flag: the theorem covers it ([flags = 0]) and every
    other value of the flags in which neither bit that changes the path
    of the transfers (no-direct-io, no-fills) is set. *)
Theorem write_seek_read_roundtrip
    (pBuffer handle flags blocks : Z) (memory disk0 data dst0 : list byte)
    (pSrc pDst : Z) :
  Z.land flags CF_NO_DIRECT_IO = 0 -> Z.land flags CF_NO_FILLS = 0 ->
  20 <= blocks ->
  Z.of_nat (length memory) = 4096 ->
  Z.of_nat (length disk0) = blocks * 512 ->
  Z.of_nat (length data) = 10000 -> Z.of_nat (length dst0) = 10000 ->
  exists p s1 s2 s3,
    BufferedProxy_ctor pBuffer memory 4096 handle flags 512 512 1
    = Constructed p
    /\ Write (attach p (new_disk 512 blocks disk0)) pSrc data 10000
       = Some (10000, s1)
    /\ Seek s1 0 = (0, s2)
    /\ Read s2 pDst dst0 10000 = Some (10000, data, s3).
Proof.
  intros Hdirect Hfills Hblocks Hmem Hdisk Hdata Hdst.
  remember (Z.min 8 (blocks - 16)) as k eqn:Hk.
  assert (Hk4 : 4 <= k <= 8) by lia.
  exists (engine_4096 pBuffer handle flags memory).
  do 3 eexists. split; [apply engine_4096_constructed|]. split; [|split].
  - (* Write: the window is filled and flushed, 8 blocks go directly from
       the source, the last 1808 bytes are left in the refilled window *)
    unfold Write, engine_4096, new_disk.
    unfold Write_available. ev.
    unfold Write_blocks.
    cbv beta iota delta [t_n t_world t_client t_total proxy m_BufferSize]; zfold; cbv iota.
    flush_disk. ev.
    rewrite Hdirect, _IsAligned_0. ev.
    replace (Z.max 0 (Z.min 8 (blocks - 8))) with 8 by lia. ev.
    rewrite (to_nat_S 1808) by lia.
    rewrite Write_rest_step by (cbn [t_n]; lia).
    cbv beta iota delta [t_world].
    flush_idle. ev. rewrite Hfills. ev.
    fill_disk. ev.
    replace (Z.max 0 (Z.min 8 (blocks - 16))) with k by lia.
    rewrite (gtb_false 1808 (k * 512)) by lia.
    rewrite Write_rest_done by (cbn [t_n]; lia).
    ev. replace (pSrc - pSrc) with 0 by lia.
    replace (pSrc + 4096 - pSrc) with 4096 by lia.
    replace (pSrc + 4096 + 4096 - pSrc) with 8192 by lia.
    reflexivity.
  - (* Seek: those bytes are flushed, the window is filled from block 0 *)
    unfold Seek. ev. flush_disk. ev.
    rewrite disk_Seek_inside by (cbn [disk_blocks]; lia). ev.
    fill_disk. ev.
    replace (Z.max 0 (Z.min k (blocks - 16))) with k by lia.
    replace (Z.max 0 (Z.min 8 (blocks - 0))) with 8 by lia.
    ev.
    reflexivity.
  - (* Read: one window from the buffer, 8 blocks directly into the
       destination, the last 1808 bytes through the refilled window *)
    unfold Read. unfold Read_available. ev.
    unfold Read_blocks.
    cbv beta iota delta [t_n t_world t_client t_total proxy m_BufferSize]; zfold; cbv iota.
    flush_idle. ev.
    rewrite Hdirect, _IsAligned_0. ev.
    replace (Z.max 0 (Z.min 8 (blocks - 8))) with 8 by lia. ev.
    unfold Read_rest.
    cbv beta iota delta [t_n t_world t_client t_total proxy m_BufferSize]; zfold; cbv iota.
    flush_idle. ev.
    fill_disk. ev.
    replace (Z.max 0 (Z.min 8 (blocks - 16))) with k by lia.
    replace (Z.min 1808 (k * 512 - 0)) with 1808 by lia.
    ev.
    replace (pDst - pDst) with 0 by lia.
    replace (pDst + 4096 - pDst) with 4096 by lia.
    replace (pDst + 4096 + 4096 - pDst) with 8192 by lia.
    f_equal. f_equal. f_equal.
    (* the contents of the windows (W) and of the disk (C), step by step *)
    set (W1 := store_at memory 0 (load_at data 0 4096)).
    assert (LW1 : length W1 = length memory)
      by (subst W1; by rewrite length_store_at).
    assert (VW1 : forall i, (i < Z.to_nat 4096)%nat -> W1 !! i = data !! i).
    { intros i Hi. subst W1. look. f_equal. lia. }
    clearbody W1.
    set (C1 := store_at disk0 0 (load_at W1 0 4096)).
    assert (LC1 : length C1 = length disk0)
      by (subst C1; by rewrite length_store_at).
    assert (VC1 : forall i, (i < Z.to_nat 4096)%nat -> C1 !! i = data !! i).
    { intros i Hi. subst C1. look. rewrite <- VW1 by lia. f_equal. lia. }
    clearbody C1.
    set (C2 := store_at C1 4096 (load_at (drop (Z.to_nat 4096) data) 0 4096)).
    assert (LC2 : length C2 = length disk0)
      by (subst C2; by rewrite length_store_at).
    assert (VC2 : forall i, (i < Z.to_nat 8192)%nat -> C2 !! i = data !! i).
    { intros i Hi. subst C2.
      destruct (decide (i < Z.to_nat 4096)%nat); look; [by apply VC1|].
      f_equal. lia. }
    clearbody C2.
    set (W2 := store_at W1 0 (load_at C2 8192 (k * 512))).
    assert (LW2 : length W2 = length memory)
      by (subst W2; by rewrite length_store_at).
    clearbody W2.
    set (W3 := store_at W2 0 (load_at data 8192 1808)).
    assert (LW3 : length W3 = length memory)
      by (subst W3; by rewrite length_store_at).
    assert (VW3 : forall j, (j < Z.to_nat 1808)%nat ->
                            W3 !! j = data !! (Z.to_nat 8192 + j)%nat).
    { intros j Hj. subst W3. look. f_equal. lia. }
    clearbody W3.
    set (C3 := store_at C2 8192 (load_at W3 0 (k * 512))).
    assert (LC3 : length C3 = length disk0)
      by (subst C3; by rewrite length_store_at).
    assert (VC3 : forall i, (i < Z.to_nat 10000)%nat -> C3 !! i = data !! i).
    { intros i Hi. subst C3.
      destruct (decide (i < Z.to_nat 8192)%nat); look; [by apply VC2|].
      rewrite VW3 by lia. f_equal. lia. }
    clearbody C3.
    set (W4 := store_at W3 0 (load_at C3 0 4096)).
    assert (LW4 : length W4 = length memory)
      by (subst W4; by rewrite length_store_at).
    assert (VW4 : forall i, (i < Z.to_nat 4096)%nat -> W4 !! i = data !! i).
    { intros i Hi. subst W4. look. rewrite <- VC3 by lia. f_equal. lia. }
    clearbody W4.
    set (W5 := store_at W4 0 (load_at C3 8192 (k * 512))).
    assert (LW5 : length W5 = length memory)
      by (subst W5; by rewrite length_store_at).
    assert (VW5 : forall j, (j < Z.to_nat 1808)%nat ->
                            W5 !! j = data !! (Z.to_nat 8192 + j)%nat).
    { intros j Hj. subst W5. look. rewrite <- VC3 by lia. f_equal. lia. }
    clearbody W5.
    apply list_eq. intros i.
    destruct (decide (i < Z.to_nat 10000)%nat) as [Hi|Hi].
    + destruct (decide (i < Z.to_nat 4096)%nat);
        [|destruct (decide (i < Z.to_nat 8192)%nat)]; look.
      * rewrite <- VW4 by lia. f_equal. lia.
      * rewrite <- VC3 by lia. f_equal. lia.
      * rewrite VW5 by lia. f_equal. lia.
    + rewrite !lookup_ge_None_2; [done|lia|].
      rewrite !length_store_at. lia.
Qed.

(** ** The engine over a disk: evaluations *)

(** X1. For alignments and a block size that are positive [int]s, the
    constructor builds an engine exactly when the five conditions of its
    documentation hold (both alignments are powers of two, the buffer size
    is a multiple of the block size, the buffer address is a multiple of
    the buffer alignment, and of the block size and the sector alignment
    the one divides the other), and throws otherwise. *)
Lemma ctor_positive_arguments (pBuffer : Z) (memory : list byte)
    (bufferSize handle flags blockSize sectorAlign bufferAlign : Z) :
  0 < sectorAlign < 2 ^ 31 -> 0 < bufferAlign < 2 ^ 31 -> 0 < blockSize ->
  let accepted :=
    power_of_two sectorAlign /\ power_of_two bufferAlign
    /\ (blockSize | bufferSize) /\ (bufferAlign | pBuffer)
    /\ (if decide (blockSize < sectorAlign) then (blockSize | sectorAlign)
        else (sectorAlign | blockSize)) in
  match BufferedProxy_ctor pBuffer memory bufferSize handle flags blockSize
                           sectorAlign bufferAlign with
  | Constructed _ => accepted
  | ConstructorFailedException _ => ~ accepted
  | UndefinedBehaviour => False
  end.
Proof.
  intros Hsector Hbuffer Hblock accepted. subst accepted.
  unfold BufferedProxy_ctor, _IsMultipleOf.
  rewrite !to_int_small by lia.
  pose proof (_IsPowerOf2_spec sectorAlign Hsector) as Hps.
  pose proof (_IsPowerOf2_spec bufferAlign Hbuffer) as Hpb.
  destruct (_IsPowerOf2 sectorAlign); cbn [negb];
    [|intros (Hc & _); apply Hps in Hc; discriminate].
  destruct (_IsPowerOf2 bufferAlign); cbn [negb];
    [|intros (_ & Hc & _); apply Hpb in Hc; discriminate].
  assert (Hs2 : power_of_two sectorAlign) by (by apply Hps).
  assert (Hb2 : power_of_two bufferAlign) by (by apply Hpb).
  clear Hps Hpb.
  assert (Hrem : forall a b, 0 < b -> ~ (a = INT_MIN /\ b = -1) ->
                             int_rem a b = Some (Z.rem a b)).
  { intros a b Hb Hnot. unfold int_rem.
    rewrite (proj2 (Z.eqb_neq b 0)) by lia.
    destruct (Z.eqb_spec a INT_MIN), (Z.eqb_spec b (-1)); cbn [andb];
      try done. lia. }
  rewrite Hrem by lia.
  destruct (Z.eqb_spec (Z.rem bufferSize blockSize) 0) as [Hsize|Hsize];
    cbn [negb];
    [|intros (_ & _ & Hc & _); apply Z.rem_divide in Hc; lia].
  assert (Hsz : (blockSize | bufferSize)) by (apply Z.rem_divide; lia).
  assert (Haligned :
    _IsAligned (to_unsigned pBuffer) (to_unsigned (bufferAlign - 1)) = true
    <-> (bufferAlign | pBuffer)).
  { destruct Hb2 as (j & Hj & ->).
    assert (j < 31) by (apply (Z.pow_lt_mono_r_iff 2); lia).
    unfold to_unsigned at 2. rewrite Z.mod_small
      by (split; [lia|]; assert (2 ^ 31 < 2 ^ 32) by done; lia).
    rewrite _IsAligned_mod by lia. unfold to_unsigned.
    replace (2 ^ 32) with (2 ^ j * 2 ^ (32 - j))
      by (rewrite <- Z.pow_add_r by lia; f_equal; lia).
    rewrite Z.rem_mul_r by (try apply Z.pow_nonzero; try apply Z.pow_pos_nonneg; lia).
    rewrite Z.mul_comm, Z.mod_add by (apply Z.pow_nonzero; lia).
    rewrite Z.mod_mod by (apply Z.pow_nonzero; lia).
    split; [apply Z.mod_divide; apply Z.pow_nonzero; lia|].
    apply Z.mod_divide. apply Z.pow_nonzero; lia. }
  destruct (_IsAligned _ _); cbn [negb];
    [|intros (_ & _ & _ & Hc & _); apply Haligned in Hc; discriminate].
  assert (Hal : (bufferAlign | pBuffer)) by (by apply Haligned).
  destruct (Z.gtb_spec sectorAlign blockSize) as [Hgt|Hle].
  - rewrite Hrem by lia.
    destruct (Z.eqb_spec (Z.rem sectorAlign blockSize) 0) as [Hm|Hm];
      cbn [negb].
    + repeat split; try done. rewrite decide_True by lia.
      apply Z.rem_divide; lia.
    + intros (_ & _ & _ & _ & Hc). rewrite decide_True in Hc by lia.
      apply Z.rem_divide in Hc; lia.
  - rewrite Hrem by lia.
    destruct (Z.eqb_spec (Z.rem blockSize sectorAlign) 0) as [Hm|Hm];
      cbn [negb].
    + repeat split; try done. rewrite decide_False by lia.
      apply Z.rem_divide; lia.
    + intros (_ & _ & _ & _ & Hc). rewrite decide_False in Hc by lia.
      apply Z.rem_divide in Hc; lia.
Qed.

(** Whatever the arguments, an engine that the constructor builds starts
    with the cursor at 0, the window at block 0, no data and not dirty. *)
Lemma ctor_initial_state pBuffer memory bufferSize handle flags blockSize
    sectorAlign bufferAlign p :
  BufferedProxy_ctor pBuffer memory bufferSize handle flags blockSize
                     sectorAlign bufferAlign = Constructed p ->
  m_Point p = 0 /\ m_BufferLoc p = 0 /\ m_DataSize p = 0
  /\ m_IsDirty p = false /\ window p = memory /\ m_paBuffer p = pBuffer.
Proof.
  unfold BufferedProxy_ctor. intros Hc.
  repeat match type of Hc with
         | (if ?b then _ else _) = _ => destruct b; try discriminate
         | match ?o with Some _ => _ | None => _ end = _ =>
             destruct o; try discriminate
         end;
    injection Hc as <-; done.
Qed.

(** C1 (the code departs from the claim).  Fresh engine, direct transfers
    disabled, 4096-byte window over 512-byte blocks, disk of 32768 bytes,
    [Read] of 12288 bytes.  The first fill of the loop brings a full
    window of 8 blocks and 8192 bytes are still to be read, yet the loop
    is left: only one more window is read by the code after the loop and
    [Read] answers 8192. *)
Theorem Read_loop_leaves_after_full_window :
  read_three_windows
  = Some (8192, [CallSeek 0 0; CallRead 65536 8 8;
                 CallSeek 8 8; CallRead 65536 8 8]).
Proof. vm_compute. reflexivity. Qed.

(** With the no-direct-io flag the loop of [Write] copies a full buffer
    into a window whose cursor is already at the end: the condition
    asserted by [CopyIn] is false when the loop is entered. *)
Lemma indirect_write_overruns_window :
  let p := proxy (t_world indirect_write_start) in
  (t_n indirect_write_start >=? m_BufferSize p) = true
  /\ m_Point p = 4096
  /\ CopyIn_assertion p (m_BufferSize p) = false.
Proof. vm_compute. auto. Qed.

(** C3 (the code departs from the claim).  8-byte window, single-byte
    blocks, sector alignment 4.  After writing 3 bytes and reading 1 the
    window is at block 3, which is not a multiple of 4; the object was
    asked to seek to block 3 and to read from there, and the condition
    asserted by [Flush] is false. *)
Theorem window_leaves_sector_boundary :
  option_map (fun s => (m_BufferLoc (proxy s),
                        (m_BufferLoc (proxy s) * m_BlockSize (proxy s)) `mod` 4,
                        Flush_assertion (proxy s),
                        calls s)) write_3_read_1
  = Some (3, 3, false,
          [CallSeek 0 0; CallWrite 65536 3 3; CallSeek 3 3; CallRead 65536 8 8]).
Proof. vm_compute. reflexivity. Qed.

(** C4 (the code departs from the claim).  After a seek beyond the end of
    the device the cursor is 9760 although the window has 4096 bytes. *)
Theorem Seek_cursor_beyond_window :
  option_map (fun s => (m_Point (proxy s), m_BufferSize (proxy s),
                        m_BufferLoc (proxy s), m_DataSize (proxy s)))
             seek_past_end
  = Some (9760, 4096, 20, 0).
Proof. vm_compute. reflexivity. Qed.

(** A seek to location -1 leaves the cursor at -1. *)
Lemma Seek_cursor_negative :
  option_map (fun s => m_Point (proxy s)) seek_negative = Some (-1).
Proof. vm_compute. reflexivity. Qed.

(** C6 (counterexample to the claim as stated).  The disk takes one block
    of the two that the window holds: the first [Flush] writes and leaves
    the window dirty, and the second [Flush] writes again. *)
Lemma Flush_twice_writes_twice :
  option_map (fun s => (device_writes (calls s), m_IsDirty (proxy s)))
             (write_1024_then [])
  = Some (0%nat, true)
  /\ option_map (fun s => (device_writes (calls s), m_IsDirty (proxy s)))
                (write_1024_then [DoFlush])
     = Some (1%nat, true)
  /\ option_map (fun s => (device_writes (calls s), m_IsDirty (proxy s)))
                (write_1024_then [DoFlush; DoFlush])
     = Some (2%nat, true).
Proof. vm_compute. auto. Qed.

(** C8 (the code departs from the claim).  A buffer alignment of 0 is not
    a power of two, yet the constructor builds an engine when the low 32
    bits of the window address are 0; the alignment mask is then
    [2^32 - 1]. *)
Theorem ctor_accepts_alignment_zero :
  (exists p, BufferedProxy_ctor (2 ^ 32) (zeros 4096) 4096 7 0 512 512 0
             = Constructed p /\ m_BufferAlign p = 2 ^ 32 - 1)
  /\ (exists p, BufferedProxy_ctor 0 (zeros 4096) 4096 7 0 512 512 0
                = Constructed p /\ m_BufferAlign p = 2 ^ 32 - 1).
Proof. split; eexists; (split; [reflexivity|]); vm_compute; reflexivity. Qed.

(** ** Witnesses *)

Lemma Flush_twice_witness :
  m_IsDirty (proxy (Flush written_100)) = false
  /\ Flush (Flush written_100) = Flush written_100
  /\ exists l, calls (Flush (Flush written_100)) = calls written_100 ++ l
               /\ (device_writes l <= 1)%nat.
Proof.
  assert (Hclean : m_IsDirty (proxy (Flush written_100)) = false)
    by (vm_compute; reflexivity).
  split; [exact Hclean|exact (Flush_twice written_100 Hclean)].
Defined.

Lemma Read_Write_nothing_witness :
  m_BufferSize (proxy written_100) > 0 /\ -5 <= 0
  /\ Read written_100 131072 (zeros 16) (-5) = Some (0, zeros 16, written_100)
  /\ Write written_100 131072 (zeros 16) (-5) = Some (0, written_100).
Proof.
  assert (Hsize : m_BufferSize (proxy written_100) > 0)
    by (vm_compute; reflexivity).
  assert (Hn : -5 <= 0) by lia.
  split; [exact Hsize|]. split; [exact Hn|].
  exact (Read_Write_nothing written_100 131072 (zeros 16) (-5) Hsize Hn).
Defined.

Lemma Seek_spec_witness :
  0 <= 9 <= 31 /\ m_SectorAlign (proxy written_100) = 2 ^ 9 - 1
  /\ m_BlockSize (proxy written_100) <> 0
  /\ int_range 50
  /\ int_range (m_BufferLoc (proxy written_100)
                * m_BlockSize (proxy written_100))
  /\ int_range (m_BufferLoc (proxy written_100)
                + m_DataSize (proxy written_100))
  /\ int_range ((m_BufferLoc (proxy written_100)
                 + m_DataSize (proxy written_100))
                * m_BlockSize (proxy written_100))
  /\ within_window (proxy written_100) 50
  /\ int_range (50 - m_BufferLoc (proxy written_100)
                     * m_BlockSize (proxy written_100))
  /\ (Seek written_100 50).1 = 50
  /\ calls (Seek written_100 50).2 = calls written_100.
Proof.
  assert (Hk : 0 <= 9 <= 31) by lia.
  assert (Hmask : m_SectorAlign (proxy written_100) = 2 ^ 9 - 1)
    by (vm_compute; reflexivity).
  assert (Hblock : m_BlockSize (proxy written_100) <> 0)
    by (vm_compute; discriminate).
  assert (H1 : int_range 50) by (vm_compute; split; [discriminate|reflexivity]).
  assert (H2 : int_range (m_BufferLoc (proxy written_100)
                          * m_BlockSize (proxy written_100)))
    by (vm_compute; split; [discriminate|reflexivity]).
  assert (H3 : int_range (m_BufferLoc (proxy written_100)
                          + m_DataSize (proxy written_100)))
    by (vm_compute; split; [discriminate|reflexivity]).
  assert (H4 : int_range ((m_BufferLoc (proxy written_100)
                           + m_DataSize (proxy written_100))
                          * m_BlockSize (proxy written_100)))
    by (vm_compute; split; [discriminate|reflexivity]).
  assert (H5 : within_window (proxy written_100) 50)
    by (vm_compute; split; [discriminate|reflexivity]).
  assert (H6 : int_range (50 - m_BufferLoc (proxy written_100)
                               * m_BlockSize (proxy written_100)))
    by (vm_compute; split; [discriminate|reflexivity]).
  repeat (split; [assumption|]).
  pose proof (Seek_spec written_100 50 9 Hk Hmask Hblock H1 H2 H3 H4)
    as (Hanswer & Hhit & _).
  exact (conj Hanswer (proj2 (proj2 (Hhit H5 H6)))).
Defined.

Lemma write_seek_read_roundtrip_witness :
  Z.land 0 CF_NO_DIRECT_IO = 0 /\ Z.land 0 CF_NO_FILLS = 0
  /\ 20 <= 20
  /\ Z.of_nat (length (zeros 4096)) = 4096
  /\ Z.of_nat (length (zeros 10240)) = 20 * 512
  /\ Z.of_nat (length (pattern 10000)) = 10000
  /\ Z.of_nat (length (zeros 10000)) = 10000
  /\ exists p s1 s2 s3,
       BufferedProxy_ctor 65536 (zeros 4096) 4096 7 0 512 512 1
       = Constructed p
       /\ Write (attach p (new_disk 512 20 (zeros 10240))) 131072
                (pattern 10000) 10000
          = Some (10000, s1)
       /\ Seek s1 0 = (0, s2)
       /\ Read s2 196608 (zeros 10000) 10000
          = Some (10000, pattern 10000, s3).
Proof.
  assert (H1 : Z.land 0 CF_NO_DIRECT_IO = 0) by reflexivity.
  assert (H2 : Z.land 0 CF_NO_FILLS = 0) by reflexivity.
  assert (H3 : 20 <= 20) by lia.
  assert (H4 : Z.of_nat (length (zeros 4096)) = 4096)
    by (vm_compute; reflexivity).
  assert (H5 : Z.of_nat (length (zeros 10240)) = 20 * 512)
    by (vm_compute; reflexivity).
  assert (H6 : Z.of_nat (length (pattern 10000)) = 10000)
    by (vm_compute; reflexivity).
  assert (H7 : Z.of_nat (length (zeros 10000)) = 10000)
    by (vm_compute; reflexivity).
  repeat (split; [assumption|]).
  exact (write_seek_read_roundtrip 65536 7 0 20 (zeros 4096) (zeros 10240)
           (pattern 10000) (zeros 10000) 131072 196608
           H1 H2 H3 H4 H5 H6 H7).
Defined.

(** * Further properties of the code *)

(** ** The helpers of the anonymous namespace *)

Lemma sector_floor_bounds (a n : Z) :
  0 < a ->
  (a | sector_floor a n) /\ sector_floor a n <= n < sector_floor a n + a.
Proof.
  intros Ha. unfold sector_floor. split.
  - exists (n `div` a). lia.
  - pose proof (Z.mul_div_le n a Ha).
    pose proof (Z.mul_succ_div_gt n a Ha). lia.
Qed.

Lemma sector_floor_nonneg (a n : Z) :
  0 < a -> 0 <= n -> 0 <= sector_floor a n <= n.
Proof.
  intros Ha Hn. unfold sector_floor.
  pose proof (Z.div_mod n a ltac:(lia)).
  pose proof (Z.mod_pos_bound n a Ha).
  assert (0 <= n `div` a) by (apply Z.div_pos; lia). nia.
Qed.

Lemma int_rem_defined (n m : Z) :
  int_rem n m <> None -> m <> 0 /\ int_rem n m = Some (Z.rem n m).
Proof.
  unfold int_rem. destruct (Z.eqb_spec m 0); [done|].
  by destruct ((n =? INT_MIN) && (m =? -1)).
Qed.

(** The remainder of the source rounds toward zero: for [n >= 0] and
    [m > 0] the highest multiple is the one at or just below [n]. *)
Lemma _HighestMultiple_nonneg (n m : Z) :
  0 <= n -> 0 < m ->
  (m | _HighestMultiple n m) /\ n - m < _HighestMultiple n m <= n.
Proof.
  intros Hn Hm. unfold _HighestMultiple.
  pose proof (Z.quot_rem' n m) as Hqr.
  pose proof (Z.rem_bound_pos n m Hn Hm) as Hrem.
  split; [exists (Z.quot n m); lia|lia].
Qed.

(** X2. On the non-negative [int]s the bit test of [_IsPowerOf2] answers
    true exactly for 0 and for the powers of two: 0 passes the test. *)
Theorem IsPowerOf2_nonnegative (n : Z) :
  0 <= n < 2 ^ 31 ->
  _IsPowerOf2 n = true <-> n = 0 \/ power_of_two n.
Proof.
  intros Hn. destruct (Z.eq_dec n 0) as [->|Hne].
  - split; [auto|]. intros _. reflexivity.
  - rewrite (_IsPowerOf2_spec n) by lia. split; [auto|].
    intros [?|?]; [lia|done].
Qed.

(** X3. [_IsMultipleOf n m] has no defined answer exactly when [m] is 0 or
    the remainder overflows ([INT_MIN % -1]); otherwise it answers whether
    [m] divides [n], for negative arguments too. *)
Theorem IsMultipleOf_divides (n m : Z) :
  (_IsMultipleOf n m = None <-> m = 0 \/ (n = INT_MIN /\ m = -1))
  /\ (forall b, _IsMultipleOf n m = Some b -> (b = true <-> (m | n))).
Proof.
  unfold _IsMultipleOf, int_rem.
  destruct (Z.eqb_spec m 0) as [->|Hm].
  { split; [split; auto|]. intros b [=]. }
  destruct (Z.eqb_spec n INT_MIN) as [Hn|Hn],
           (Z.eqb_spec m (-1)) as [Hm1|Hm1]; cbn [andb].
  { split; [split; auto|]. intros b [=]. }
  all: split; [split; [intros [=]|intros [?|[? ?]]; done]|].
  all: intros b [= <-]; rewrite Z.eqb_eq; split; intros Hd.
  all: by apply Z.rem_divide.
Qed.

(** X4. For a mask [2^k - 1], [_IsAligned n] answers true exactly when
    [2^k] divides [n]. *)
Theorem IsAligned_divides (n k : Z) :
  0 <= k -> _IsAligned n (2 ^ k - 1) = true <-> (2 ^ k | n).
Proof.
  intros Hk. rewrite _IsAligned_mod by done.
  assert (2 ^ k <> 0) by (apply Z.pow_nonzero; lia).
  split; by apply Z.mod_divide.
Qed.

(** X5. Where [n % m] is defined, [_HighestMultiple n m] is a multiple of
    [m] that is less than [|m|] away from [n] and lies between 0 and [n]:
    it is rounded toward zero, so for a negative [n] it is not below [n]. *)
Theorem HighestMultiple_bounds (n m : Z) :
  int_rem n m <> None ->
  (m | _HighestMultiple n m)
  /\ Z.abs (n - _HighestMultiple n m) < Z.abs m
  /\ (0 <= n -> 0 <= _HighestMultiple n m <= n)
  /\ (n <= 0 -> n <= _HighestMultiple n m <= 0).
Proof.
  intros Hdef. destruct (int_rem_defined n m Hdef) as [Hm _].
  unfold _HighestMultiple.
  pose proof (Z.quot_rem' n m) as Hqr.
  pose proof (Z.rem_bound_abs n m Hm) as Habs.
  split; [exists (Z.quot n m); lia|].
  split; [replace (n - (n - Z.rem n m)) with (Z.rem n m) by lia; lia|].
  split; intros Hn.
  - pose proof (Z.rem_nonneg n m Hm Hn).
    pose proof (Z.rem_le n (Z.abs m) Hn ltac:(lia)) as Hle.
    rewrite (Z.rem_abs_r n m Hm) in Hle. lia.
  - pose proof (Z.rem_nonpos n m Hm Hn).
    pose proof (Z.rem_opp_l n m Hm) as Hopp.
    pose proof (Z.rem_le (- n) (Z.abs m) ltac:(lia) ltac:(lia)) as Hle.
    rewrite (Z.rem_abs_r (- n) m Hm), Hopp in Hle. lia.
Qed.

(** X6. For a mask [2^k - 1], [_HighestMultiplePowerOf2 n] is the greatest
    multiple of [2^k] that is not above [n], for negative [n] too (it
    rounds down, where [_HighestMultiple] rounds toward zero). *)
Theorem HighestMultiplePowerOf2_bounds (n k : Z) :
  0 <= k ->
  (2 ^ k | _HighestMultiplePowerOf2 n (2 ^ k - 1))
  /\ _HighestMultiplePowerOf2 n (2 ^ k - 1) <= n
     < _HighestMultiplePowerOf2 n (2 ^ k - 1) + 2 ^ k.
Proof.
  intros Hk. rewrite _HighestMultiplePowerOf2_floor by done.
  apply sector_floor_bounds. apply Z.pow_pos_nonneg; lia.
Qed.

(** X7. For [n >= 0] and [m > 0] whose padded value is representable as
    an [int], [_Pad n m] is the least multiple of [m] that is strictly
    above [n]: a value that is already a multiple of [m] is padded by a
    whole [m]. *)
Theorem Pad_bounds (n m : Z) :
  0 <= n -> 0 < m -> _HighestMultiple n m + m < 2 ^ 31 ->
  (m | _Pad n m) /\ n < _Pad n m <= n + m.
Proof.
  intros Hn Hm Hfit. unfold _Pad.
  destruct (_HighestMultiple_nonneg n m Hn Hm) as ([q Hq] & Hlo & Hhi).
  rewrite to_int_small by lia.
  split; [exists (q + 1); lia|lia].
Qed.

(** X8. For a mask [2^k - 1] and an [n] for which [n + 2^k - 1] does not
    wrap around, [_PadPowerOf2 n] is the least multiple of [2^k] that is
    not below [n]: a multiple of [2^k] is left as it is. *)
Theorem PadPowerOf2_bounds (n k : Z) :
  0 <= k -> 0 <= n -> n + 2 ^ k - 1 < 2 ^ 32 ->
  (2 ^ k | _PadPowerOf2 n (2 ^ k - 1))
  /\ n <= _PadPowerOf2 n (2 ^ k - 1) < n + 2 ^ k.
Proof.
  intros Hk Hn Hfit.
  assert (Hpow : 0 < 2 ^ k) by (apply Z.pow_pos_nonneg; lia).
  assert (Heq : _PadPowerOf2 n (2 ^ k - 1)
                = sector_floor (2 ^ k) (n + (2 ^ k - 1))).
  { unfold _PadPowerOf2, to_unsigned.
    rewrite (Z.mod_small (n + (2 ^ k - 1))) by lia.
    rewrite <- (Z.land_ones (Z.lnot (2 ^ k - 1))) by lia.
    rewrite (Z.land_comm (Z.lnot (2 ^ k - 1))), Z.land_assoc.
    rewrite Z.land_ones, Z.mod_small by lia.
    by apply _HighestMultiplePowerOf2_floor. }
  rewrite Heq.
  destruct (sector_floor_bounds (2 ^ k) (n + (2 ^ k - 1)) Hpow)
    as ([q Hq] & Hlo & Hhi).
  split; [by exists q|].
  split; [|lia].
  destruct (sector_floor_bounds (2 ^ k) n Hpow) as ([q' Hq'] & Hlo' & Hhi').
  nia.
Qed.

(** ** The constructor *)

(** X9. Whatever the arguments, an engine that the constructor builds has
    the buffer size and the block size it was given, a block size that is
    not 0, a buffer of exactly [m_BufferSizeInBlocks] blocks, nothing to
    read and the whole buffer to write in, the window at block 0, a clean
    window, the flags and the memory it was given. *)
Theorem ctor_builds_consistent_engine (pBuffer : Z) (memory : list byte)
    (bufferSize handle flags blockSize sectorAlign bufferAlign : Z)
    (p : BufferedProxy) :
  BufferedProxy_ctor pBuffer memory bufferSize handle flags blockSize
                     sectorAlign bufferAlign = Constructed p ->
  m_BufferSize p = bufferSize /\ m_BlockSize p = blockSize
  /\ blockSize <> 0
  /\ m_BufferSizeInBlocks p * m_BlockSize p = m_BufferSize p
  /\ RemainingReadAmount p = 0 /\ RemainingWriteSpace p = bufferSize
  /\ m_BufferLoc p = 0 /\ m_IsDirty p = false
  /\ m_Flags p = flags /\ window p = memory.
Proof.
  unfold BufferedProxy_ctor. intros Hc.
  destruct (negb (_IsPowerOf2 (to_int sectorAlign))); [discriminate|].
  destruct (negb (_IsPowerOf2 (to_int bufferAlign))); [discriminate|].
  destruct (int_rem bufferSize blockSize) as [r|] eqn:Hrem; [|discriminate].
  destruct (negb (r =? 0)) eqn:Hr0; [discriminate|].
  apply negb_false_iff, Z.eqb_eq in Hr0. subst r.
  destruct (negb (_IsAligned (to_unsigned pBuffer)
                             (to_unsigned (bufferAlign - 1))));
    [discriminate|].
  assert (Hblock : blockSize <> 0 /\ Z.rem bufferSize blockSize = 0).
  { unfold int_rem in Hrem. destruct (Z.eqb_spec blockSize 0); [discriminate|].
    destruct ((bufferSize =? INT_MIN) && (blockSize =? -1));
      [discriminate|]. by injection Hrem. }
  destruct Hblock as [Hnz Hzero].
  pose proof (Z.quot_rem' bufferSize blockSize) as Hqr.
  assert (Hp : p = {| m_Handle := handle; m_paBuffer := pBuffer;
                      window := memory; m_BufferSize := bufferSize;
                      m_BufferSizeInBlocks := Z.quot bufferSize blockSize;
                      m_BlockSize := blockSize;
                      m_SectorAlign := to_unsigned (sectorAlign - 1);
                      m_BufferAlign := to_unsigned (bufferAlign - 1);
                      m_Flags := flags; m_Point := 0; m_BufferLoc := 0;
                      m_DataSize := 0; m_IsDirty := false |}).
  { destruct (to_int sectorAlign >? blockSize);
      match type of Hc with
      | match ?o with Some _ => _ | None => _ end = _ =>
          destruct o as [[]|]; try discriminate
      end; by injection Hc as <-. }
  subst p. unfold RemainingReadAmount, RemainingWriteSpace.
  cbn [m_BufferSize m_BlockSize m_BufferSizeInBlocks m_DataSize m_Point
       m_BufferLoc m_IsDirty m_Flags window].
  repeat split; try done; lia.
Qed.

(** ** The engine over any buffered object *)

Section MoreEngineFacts.

Context {D : Type} `{BufferedObject D}.

Implicit Types (s : World D) (p : BufferedProxy).

Lemma call_Seek_proxy s location : proxy (call_Seek s location).1 = proxy s.
Proof. unfold call_Seek. by destruct (obj_Seek _ _ _). Qed.

Lemma call_Write_proxy s a b n : proxy (call_Write s a b n).1 = proxy s.
Proof. unfold call_Write. by destruct (obj_Write _ _ _ _ _). Qed.

Lemma call_Read_proxy s a n : proxy (call_Read s a n).1.1 = proxy s.
Proof. unfold call_Read. by destruct (obj_Read _ _ _ _) as [[? ?] ?]. Qed.

Lemma Read_loop_config budget (t t' : Transfer (D:=D)) :
  Read_loop budget t = Some t' ->
  config (proxy (t_world t')) = config (proxy (t_world t)).
Proof.
  revert t. induction budget as [|budget IH]; intros t; cbn [Read_loop];
    destruct (_ >=? _); try discriminate; try (by intros [= <-]).
  unfold CopyOut.
  set (s1 := Fill _).
  assert (Hc : config (proxy s1) = config (proxy (t_world t))).
  { subst s1. rewrite Fill_config. by destruct t as [[[]]]. }
  destruct (_ <? _).
  - intros [= <-]. by rewrite <- Hc.
  - intros Hloop. apply IH in Hloop. by rewrite Hloop, <- Hc.
Qed.

Lemma Read_available_config (t : Transfer (D:=D)) :
  config (proxy (t_world (Read_available t))) = config (proxy (t_world t)).
Proof. unfold Read_available. by destruct (_ >? _). Qed.

Lemma Read_blocks_config (t t' : Transfer (D:=D)) :
  Read_blocks t = Some t' ->
  config (proxy (t_world t')) = config (proxy (t_world t)).
Proof.
  unfold Read_blocks. destruct (_ >=? _); [|by intros [= <-]].
  destruct (_ && _).
  - pose proof (call_Read_proxy
      (update (fun p => with_BufferLoc (m_BufferLoc p + m_DataSize p) p)
              (Flush (t_world t)))
      (cb_ptr (t_client t))
      (Z.quot (_HighestMultiple (t_n t)
                 (m_BufferSize (proxy (update
                    (fun p => with_BufferLoc (m_BufferLoc p + m_DataSize p) p)
                    (Flush (t_world t))))))
              (m_BlockSize (proxy (update
                    (fun p => with_BufferLoc (m_BufferLoc p + m_DataSize p) p)
                    (Flush (t_world t))))))) as Hp.
    destruct (call_Read _ _ _) as [[s2 data] r]. cbn [fst] in Hp.
    intros [= <-]. cbn [t_world]. unfold update at 1. cbn [proxy].
    rewrite Hp. unfold update. cbn [proxy].
    change (config (proxy (Flush (t_world t))) = config (proxy (t_world t))).
    apply Flush_config.
  - intros Hloop. apply Read_loop_config in Hloop.
    rewrite Hloop. cbn [t_world]. apply Flush_config.
Qed.

Lemma Read_rest_config (t : Transfer (D:=D)) :
  config (proxy (t_world (Read_rest t))) = config (proxy (t_world t)).
Proof.
  unfold Read_rest. destruct (_ >? _); [|done].
  set (s1 := Fill _).
  assert (Hc : config (proxy s1) = config (proxy (t_world t))).
  { subst s1. rewrite Fill_config.
    change (config (proxy (Flush (t_world t))) = config (proxy (t_world t))).
    apply Flush_config. }
  by destruct (_ >? _).
Qed.

Lemma Read_config s pDst dst n r out s' :
  Read s pDst dst n = Some (r, out, s') -> config (proxy s') = config (proxy s).
Proof.
  unfold Read.
  destruct (Read_blocks _) as [t1|] eqn:Hb; [|discriminate].
  intros [= _ _ <-]. rewrite Read_rest_config.
  apply Read_blocks_config in Hb. rewrite Hb. apply Read_available_config.
Qed.


Lemma CopyIn_proxy s c n :
  exists w size,
    proxy (CopyIn s c n).1
    = with_DataSize size
        (with_IsDirty true (with_Point (m_Point (proxy s) + n)
           (with_window w (proxy s)))).
Proof.
  unfold CopyIn. cbn [fst]. unfold update. cbn [proxy].
  destruct (_ >? _).
  - eexists _, _. reflexivity.
  - exists (store_at (window (proxy s)) (m_Point (proxy s))
              (load_at (cb_bytes c) (cb_offset c) n)),
           (m_DataSize (proxy s)).
    by destruct (proxy s).
Qed.

Lemma Write_available_config (t : Transfer (D:=D)) :
  config (proxy (t_world (Write_available t))) = config (proxy (t_world t)).
Proof.
  unfold Write_available. destruct (_ >? _); [|done].
  pose proof (CopyIn_config (t_world t) (t_client t)
                (Z.min (t_n t) (RemainingWriteSpace (proxy (t_world t)))))
    as Hc.
  by destruct (CopyIn _ _ _).
Qed.

Lemma Write_loop_config budget (t t' : Transfer (D:=D)) :
  Write_loop budget t = Some t' ->
  config (proxy (t_world t')) = config (proxy (t_world t)).
Proof.
  revert t. induction budget as [|budget IH]; intros t; cbn [Write_loop];
    destruct (_ >=? _); try discriminate; try (by intros [= <-]).
  pose proof (CopyIn_config (t_world t) (t_client t)
                (m_BufferSize (proxy (t_world t)))) as Hc.
  destruct (CopyIn _ _ _) as [s1 c1]. cbn [fst] in Hc.
  intros Hloop. apply IH in Hloop. rewrite Hloop. cbn [t_world].
  change (config (proxy (Flush s1)) = config (proxy (t_world t))).
  by rewrite Flush_config.
Qed.

Lemma Write_blocks_config (t t' : Transfer (D:=D)) :
  Write_blocks t = Some t' ->
  config (proxy (t_world t')) = config (proxy (t_world t)).
Proof.
  unfold Write_blocks. destruct (_ >=? _); [|by intros [= <-]].
  set (s1 := update _ (Flush (t_world t))).
  assert (Hc : config (proxy s1) = config (proxy (t_world t))).
  { subst s1.
    change (config (proxy (Flush (t_world t))) = config (proxy (t_world t))).
    apply Flush_config. }
  destruct (_ && _).
  - pose proof (call_Write_proxy s1 (cb_ptr (t_client t))
                  (cb_view (t_client t))
                  (Z.quot (_HighestMultiple (t_n t) (m_BufferSize (proxy s1)))
                          (m_BlockSize (proxy s1)))) as Hp.
    destruct (call_Write _ _ _ _) as [s2 r]. cbn [fst] in Hp.
    intros [= <-]. cbn [t_world]. unfold update. cbn [proxy].
    rewrite Hp. exact Hc.
  - intros Hloop. apply Write_loop_config in Hloop. by rewrite Hloop.
Qed.

Lemma Write_rest_config budget (t t' : Transfer (D:=D)) :
  Write_rest budget t = Some t' ->
  config (proxy (t_world t')) = config (proxy (t_world t)).
Proof.
  revert t. induction budget as [|budget IH]; intros t; cbn [Write_rest];
    destruct (_ >? _); try discriminate; try (by intros [= <-]).
  set (s1 := if _ && _ then Fill (Flush (t_world t)) else Flush (t_world t)).
  assert (Hc : config (proxy s1) = config (proxy (t_world t))).
  { subst s1. destruct (_ && _); by rewrite ?Fill_config, Flush_config. }
  destruct (_ <=? _); [by intros [= <-]|].
  pose proof (CopyIn_config s1 (t_client t)
                (Z.min (t_n t) (RemainingWriteSpace (proxy s1)))) as Hin.
  destruct (CopyIn _ _ _) as [s2 c2]. cbn [fst] in Hin.
  intros Hloop. apply IH in Hloop. rewrite Hloop. cbn [t_world].
  destruct (_ >=? _); by rewrite ?Flush_config, Hin.
Qed.

Lemma Write_config s pSrc src n r s' :
  Write s pSrc src n = Some (r, s') -> config (proxy s') = config (proxy s).
Proof.
  unfold Write.
  destruct (Write_blocks _) as [t1|] eqn:Hb; [|discriminate].
  destruct (Write_rest _ _) as [t2|] eqn:Hr; [|discriminate].
  intros [= _ <-].
  apply Write_rest_config in Hr. apply Write_blocks_config in Hb.
  rewrite Hr, Hb. apply Write_available_config.
Qed.

Lemma Seek_config s location :
  config (proxy (Seek s location).2) = config (proxy s).
Proof.
  unfold Seek. destruct (_ && _); [done|].
  pose proof (call_Seek_proxy (Flush s)
    (Z.quot (_HighestMultiplePowerOf2 location
               (to_int (m_SectorAlign (proxy (Flush s)))))
            (m_BlockSize (proxy (Flush s))))) as Hp.
  destruct (call_Seek _ _) as [s1 r]. cbn [fst snd] in Hp |- *.
  unfold update at 1. cbn [proxy].
  change (config (proxy (Fill (update (with_BufferLoc r) s1)))
          = config (proxy s)).
  rewrite Fill_config. unfold update. cbn [proxy]. rewrite Hp.
  change (config (proxy (Flush s)) = config (proxy s)).
  apply Flush_config.
Qed.

(** X10. No sequence of [Read], [Write], [Seek], [Flush] and [Fill] calls
    that runs to its end changes the handle, the buffer address, the buffer
    size, the block size, the alignments or the flags, whatever the
    buffered object answers. *)
Theorem run_keeps_config (l : list ClientCall) s s' :
  run s l = Some s' -> config (proxy s') = config (proxy s).
Proof.
  revert s. induction l as [|c l IH]; intros s; cbn [run].
  - by intros [= <-].
  - destruct (perform s c) as [s1|] eqn:Hc; [|discriminate].
    intros Hrun. rewrite (IH _ Hrun). clear Hrun IH.
    destruct c; cbn [perform] in Hc.
    + destruct (Read s pDst dst n) as [[[r out] s2]|] eqn:Hr; [|discriminate].
      injection Hc as <-. by eapply Read_config.
    + destruct (Write s pSrc src n) as [[r s2]|] eqn:Hw; [|discriminate].
      injection Hc as <-. by eapply Write_config.
    + injection Hc as <-. apply Seek_config.
    + injection Hc as <-. apply Flush_config.
    + injection Hc as <-. apply Fill_config.
Qed.


Lemma geb_false a b : a < b -> (a >=? b) = false.
Proof. intros. rewrite Z.geb_leb. by apply Z.leb_gt. Qed.

Lemma Read_hit s (pDst : Z) (dst : list byte) (n : Z) :
  0 < m_BufferSize (proxy s) ->
  0 < n <= RemainingReadAmount (proxy s) ->
  Read s pDst dst n
  = Some (n,
          store_at dst 0 (load_at (window (proxy s)) (m_Point (proxy s)) n),
          update (with_Point (m_Point (proxy s) + n)) s).
Proof.
  intros Hsize Hn. unfold Read, Read_available. cbn [t_n t_world t_client t_total].
  rewrite Z.min_l, gtb_true by lia.
  unfold CopyOut. unfold Read_blocks. cbn [t_n t_world t_client t_total].
  rewrite Z.sub_diag.
  rewrite geb_false by (by unfold update, with_Point).
  unfold Read_rest. cbn [t_n t_world t_client t_total].
  change (0 >? 0) with false. cbv iota.
  unfold cb_advance, cb_store, cb_offset. cbn [cb_bytes cb_base cb_ptr].
  by rewrite Z.sub_diag.
Qed.

Lemma Write_hit s (pSrc : Z) (src : list byte) (n : Z) :
  0 < m_BufferSize (proxy s) ->
  0 < n <= RemainingWriteSpace (proxy s) ->
  Write s pSrc src n
  = Some (n, (CopyIn s {| cb_base := pSrc; cb_ptr := pSrc; cb_bytes := src |}
                     n).1).
Proof.
  intros Hsize Hn. unfold Write, Write_available.
  cbn [t_n t_world t_client t_total].
  rewrite Z.min_l, gtb_true by lia.
  pose proof (CopyIn_config s {| cb_base := pSrc; cb_ptr := pSrc;
                                 cb_bytes := src |} n) as Hc.
  destruct (CopyIn _ _ _) as [s1 c1]. cbn [fst] in Hc |- *.
  unfold Write_blocks. cbn [t_n t_world t_client t_total].
  rewrite Z.sub_diag.
  rewrite geb_false by (by rewrite (config_BufferSize _ _ Hc)).
  by rewrite Write_rest_done.
Qed.


Lemma load_at_store_at (l : list byte) (off n : Z) (src : list byte) :
  0 <= off -> 0 <= n -> off + n <= Z.of_nat (length l) ->
  n <= Z.of_nat (length src) ->
  load_at (store_at l off (load_at src 0 n)) off n = load_at src 0 n.
Proof.
  intros Hoff Hn Hl Hsrc. apply list_eq. intros i.
  rewrite !lookup_load_at. case_decide as Hi; [|done].
  rewrite lookup_store_at by done.
  rewrite length_load_at. rewrite decide_True by lia.
  rewrite lookup_load_at, decide_True by lia.
  f_equal. lia.
Qed.

(** X11. On a cursor that is not negative and with a data size whose
    byte count is representable as an [int], a [Read] of no more bytes
    than [RemainingReadAmount], which lie in the memory of the window and
    fit in the destination, is served from the window: it answers [n], the
    destination receives the [n] bytes of the window at the cursor, no
    call is made on the buffered object, and only the cursor changes, by
    [n]. *)
Theorem Read_served_from_window s (pDst : Z) (dst : list byte) (n : Z) :
  0 < m_BufferSize (proxy s) ->
  0 <= m_Point (proxy s) ->
  int_range (m_DataSize (proxy s) * m_BlockSize (proxy s)) ->
  0 < n <= RemainingReadAmount (proxy s) ->
  m_Point (proxy s) + n <= Z.of_nat (length (window (proxy s))) ->
  n <= Z.of_nat (length dst) ->
  exists s',
    Read s pDst dst n
    = Some (n,
            store_at dst 0 (load_at (window (proxy s)) (m_Point (proxy s)) n),
            s')
    /\ calls s' = calls s /\ object s' = object s
    /\ proxy s' = with_Point (m_Point (proxy s) + n) (proxy s)
    /\ RemainingReadAmount (proxy s') = RemainingReadAmount (proxy s) - n.
Proof.
  intros Hsize _ _ Hn _ _. eexists. split; [by apply Read_hit|].
  unfold RemainingReadAmount, update, with_Point. cbn. repeat split; lia.
Qed.


(** X13. Bytes written into the window are read back from it: on an
    engine whose cursor and data size are within the buffer and whose
    window lies in the range of [int], after a [Write] that fits in the
    window, a [Seek] to the location where the write started and a [Read]
    of the same length (into a destination that has room for it) answer
    the written bytes, and the buffered object is not called at all,
    whatever the flags. *)
Theorem written_bytes_read_back s (pSrc : Z) (src : list byte)
    (pDst : Z) (dst : list byte) (n : Z) :
  let p := proxy s in
  well_sized p -> window_allocated p -> within_bounds p ->
  window_representable p ->
  0 < n <= RemainingWriteSpace p -> n <= Z.of_nat (length src) ->
  n <= Z.of_nat (length dst) ->
  exists s1 s2,
    Write s pSrc src n = Some (n, s1)
    /\ Seek s1 (m_BufferLoc p * m_BlockSize p + m_Point p)
       = (m_BufferLoc p * m_BlockSize p + m_Point p, s2)
    /\ Read s2 pDst dst n
       = Some (n, store_at dst 0 (load_at src 0 n),
               update (with_Point (m_Point p + n)) s2)
    /\ calls s2 = calls s /\ object s2 = object s.
Proof.
  intros p (Hblock & Hsize & Hgeo) Hmem [[Hpoint _] _] _ Hn Hsrc _. subst p.
  unfold window_allocated in Hmem. unfold RemainingWriteSpace in Hn.
  rewrite Write_hit by (done || by unfold RemainingWriteSpace).
  set (c := {| cb_base := pSrc; cb_ptr := pSrc; cb_bytes := src |}).
  set (pt := m_Point (proxy s)) in *.
  set (bs := m_BlockSize (proxy s)) in *.
  set (loc := m_BufferLoc (proxy s)) in *.
  set (ds := if pt + n >? m_DataSize (proxy s) * bs
             then Z.quot (pt + n + bs - 1) bs else m_DataSize (proxy s)).
  assert (Hs1 : proxy (CopyIn s c n).1
                = with_DataSize ds
                    (with_IsDirty true
                       (with_Point (pt + n)
                          (with_window
                             (store_at (window (proxy s)) pt (load_at src 0 n))
                             (proxy s))))).
  { unfold CopyIn, update, cb_offset. subst c ds pt bs.
    cbn [fst proxy cb_base cb_ptr cb_bytes]. rewrite Z.sub_diag.
    cbn [with_window with_Point with_IsDirty m_Point m_DataSize m_BlockSize].
    destruct (_ >? _); [done|]. by destruct (proxy s). }
  assert (Hds : pt + n <= ds * bs).
  { subst ds. destruct (Z.gtb_spec (pt + n) (m_DataSize (proxy s) * bs));
      [|lia].
    rewrite Z.quot_div_nonneg by lia.
    pose proof (Z.div_mod (pt + n + bs - 1) bs ltac:(lia)).
    pose proof (Z.mod_pos_bound (pt + n + bs - 1) bs ltac:(lia)). nia. }
  set (s1 := (CopyIn s c n).1) in *.
  assert (Hcalls : calls s1 = calls s /\ object s1 = object s) by done.
  clearbody s1.
  set (s2 := update (with_Point pt) s1).
  exists s1, s2. split; [done|]. split.
  { unfold Seek. rewrite Hs1.
    cbn [with_DataSize with_IsDirty with_Point with_window m_BufferLoc
         m_BlockSize m_DataSize].
    fold loc bs.
    rewrite geb_true by lia.
    rewrite (proj2 (Z.ltb_lt _ _)) by nia.
    cbn [andb]. subst s2. do 3 f_equal. lia. }
  split; [|by subst s2].
  rewrite Read_hit.
  - subst s2. unfold update at 1 2. cbn [proxy]. rewrite Hs1.
    cbn [with_DataSize with_IsDirty with_Point with_window window m_Point].
    by rewrite load_at_store_at by lia.
  - subst s2. unfold update. cbn [proxy]. by rewrite Hs1.
  - subst s2. unfold update, RemainingReadAmount. cbn [proxy]. rewrite Hs1.
    cbn [with_DataSize with_IsDirty with_Point with_window m_Point
         m_DataSize m_BlockSize]. fold bs. lia.
Qed.


Lemma Flush_BufferLoc s : m_BufferLoc (proxy (Flush s)) = m_BufferLoc (proxy s).
Proof. by rewrite (Flush_proxy s). Qed.

Lemma Fill_BufferLoc s : m_BufferLoc (proxy (Fill s)) = m_BufferLoc (proxy s).
Proof. destruct (Fill_proxy s) as (w & n & ->). done. Qed.

Lemma CopyIn_BufferLoc s c n :
  m_BufferLoc (proxy (CopyIn s c n).1) = m_BufferLoc (proxy s).
Proof. destruct (CopyIn_proxy s c n) as (w & size & ->). done. Qed.

Lemma Write_rest_BufferLoc budget (t t' : Transfer (D:=D)) :
  Write_rest budget t = Some t' ->
  m_BufferLoc (proxy (t_world t')) = m_BufferLoc (proxy (t_world t)).
Proof.
  revert t. induction budget as [|budget IH]; intros t; cbn [Write_rest];
    destruct (_ >? _); try discriminate; try (by intros [= <-]).
  set (s1 := if _ && _ then Fill (Flush (t_world t)) else Flush (t_world t)).
  assert (Hc : m_BufferLoc (proxy s1) = m_BufferLoc (proxy (t_world t))).
  { subst s1. destruct (_ && _); by rewrite ?Fill_BufferLoc, Flush_BufferLoc. }
  destruct (_ <=? _); [by intros [= <-]|].
  pose proof (CopyIn_BufferLoc s1 (t_client t)
                (Z.min (t_n t) (RemainingWriteSpace (proxy s1)))) as Hin.
  destruct (CopyIn _ _ _) as [s2 c2]. cbn [fst] in Hin.
  intros Hloop. apply IH in Hloop. rewrite Hloop. cbn [t_world].
  destruct (_ >=? _); by rewrite ?Flush_BufferLoc, Hin.
Qed.

(** X14. A [Write] of fewer bytes than the buffer size always answers and
    never moves the window ([m_BufferLoc]), however often it flushes and
    fills on the way and whatever the buffered object answers. *)
Theorem Write_small_keeps_location s (pSrc : Z) (src : list byte) (n : Z) :
  n < m_BufferSize (proxy s) ->
  exists r s',
    Write s pSrc src n = Some (r, s')
    /\ m_BufferLoc (proxy s') = m_BufferLoc (proxy s).
Proof.
  intros Hn. unfold Write.
  set (t0 := {| t_world := s;
                t_client := {| cb_base := pSrc; cb_ptr := pSrc;
                               cb_bytes := src |};
                t_total := 0; t_n := n |}).
  assert (Ha : m_BufferLoc (proxy (t_world (Write_available t0)))
               = m_BufferLoc (proxy s)
               /\ t_n (Write_available t0) <= n).
  { unfold Write_available.
    destruct (Z.gtb_spec (Z.min (t_n t0) (RemainingWriteSpace (proxy (t_world t0)))) 0)
      as [Hpos|Hnone]; [|split; [done|subst t0; cbn; lia]].
    pose proof (CopyIn_BufferLoc (t_world t0) (t_client t0)
                  (Z.min (t_n t0) (RemainingWriteSpace (proxy (t_world t0)))))
      as Hin.
    destruct (CopyIn _ _ _) as [s1 c1]. cbn [fst] in Hin.
    split; [done|]. subst t0. cbn [t_n] in *. lia. }
  destruct Ha as [Hloc Hle].
  pose proof (Write_available_config t0) as Hc.
  apply config_BufferSize in Hc.
  unfold Write_blocks.
  rewrite geb_false by (rewrite Hc; cbn [t_world t0]; lia).
  destruct (Write_rest_total (Z.to_nat (t_n (Write_available t0)))
              (Write_available t0)) as [t2 Hr]; [lia|].
  rewrite Hr. exists (t_total t2), (t_world t2). split; [done|].
  apply Write_rest_BufferLoc in Hr. by rewrite Hr.
Qed.

(** X15. When the cursor is at the end of the window and fills are
    enabled, a [Write] of fewer bytes than the buffer size flushes, fills
    the window again at the same location and stores the bytes at its
    start: the window does not advance to the next part of the object. *)
Theorem Write_at_end_wraps s (pSrc : Z) (src : list byte) (n : Z) :
  let p := proxy s in
  well_sized p -> m_Point p = m_BufferSize p ->
  Z.land (m_Flags p) CF_NO_FILLS = 0 ->
  0 < n < m_BufferSize p ->
  exists s',
    Write s pSrc src n = Some (n, s')
    /\ m_BufferLoc (proxy s') = m_BufferLoc p
    /\ m_Point (proxy s') = n
    /\ window (proxy s')
       = store_at (window (proxy (Fill (Flush s)))) 0 (load_at src 0 n).
Proof.
  intros p (Hblock & Hsize & Hgeo) Hend Hfills Hn. subst p.
  unfold Write, Write_available. cbn [t_n t_world t_client t_total].
  unfold RemainingWriteSpace at 1. rewrite Hgeo, Hend, Z.sub_diag.
  rewrite Z.min_r by lia. change (0 >? 0) with false. cbv iota.
  unfold Write_blocks. cbn [t_n t_world t_client t_total].
  rewrite geb_false by lia. cbn [t_n].
  rewrite (to_nat_S n) by lia. rewrite Write_rest_step by (cbn; lia).
  cbn [t_n t_world t_client t_total]. cbv zeta.
  pose proof (Flush_config s) as Hcf.
  assert (Hflags : m_Flags (proxy (Flush s)) = m_Flags (proxy s))
    by (unfold config in Hcf; congruence).
  rewrite (config_BufferSize _ _ Hcf), Hflags, Hfills.
  rewrite (proj2 (Z.ltb_lt _ _)) by lia.
  change ((0 =? 0)) with true. cbn [andb].
  destruct (Fill_proxy (Flush s)) as (w & k & Hfill).
  pose proof (Fill_config (Flush s)) as Hc2. rewrite Hcf in Hc2.
  assert (Hspace : RemainingWriteSpace (proxy (Fill (Flush s)))
                   = m_BufferSize (proxy s)).
  { unfold RemainingWriteSpace. rewrite Hfill.
    cbn [with_Point with_DataSize with_window m_BufferSizeInBlocks
         m_BlockSize m_Point].
    rewrite (Flush_proxy s). cbn. lia. }
  rewrite Hspace, Z.min_l by lia.
  rewrite (proj2 (Z.leb_gt _ _)) by lia.
  destruct (CopyIn_proxy (Fill (Flush s))
              {| cb_base := pSrc; cb_ptr := pSrc; cb_bytes := src |} n)
    as (w' & size' & Hin).
  assert (Hwin : window (proxy (CopyIn (Fill (Flush s))
                   {| cb_base := pSrc; cb_ptr := pSrc; cb_bytes := src |} n).1)
                 = store_at (window (proxy (Fill (Flush s)))) 0
                            (load_at src 0 n)).
  { unfold CopyIn, update, cb_offset.
    cbn [fst proxy cb_base cb_ptr cb_bytes]. rewrite Z.sub_diag.
    rewrite Hfill at 2 3 4 5 6 7.
    cbn [with_Point with_DataSize with_window m_Point].
    by destruct (_ >? _). }
  pose proof (CopyIn_config (Fill (Flush s))
                {| cb_base := pSrc; cb_ptr := pSrc; cb_bytes := src |} n)
    as Hc3.
  pose proof (CopyIn_BufferLoc (Fill (Flush s))
                {| cb_base := pSrc; cb_ptr := pSrc; cb_bytes := src |} n)
    as Hloc3.
  rewrite Fill_BufferLoc, Flush_BufferLoc in Hloc3.
  destruct (CopyIn _ _ _) as [s3 c3]. cbn [fst] in Hin, Hwin, Hc3, Hloc3.
  assert (Hpt : m_Point (proxy s3) = n).
  { rewrite Hin, Hfill. cbn. lia. }
  rewrite Hpt, (config_BufferSize _ _ Hc3), (config_BufferSize _ _ Hc2).
  rewrite geb_false by lia.
  rewrite Write_rest_done by (cbn; lia).
  eexists. split; [cbn [t_total t_world]; do 2 f_equal; lia|].
  cbn [t_world]. done.
Qed.

(** X16. When the cursor is at the end of the window and fills are
    disabled, a [Write] of fewer bytes than the buffer size only flushes:
    it answers 0 and stores nothing. *)
Theorem Write_at_end_without_fills_writes_nothing
    s (pSrc : Z) (src : list byte) (n : Z) :
  let p := proxy s in
  well_sized p -> m_Point p = m_BufferSize p ->
  Z.land (m_Flags p) CF_NO_FILLS <> 0 ->
  0 < n < m_BufferSize p ->
  Write s pSrc src n = Some (0, Flush s).
Proof.
  intros p (Hblock & Hsize & Hgeo) Hend Hfills Hn. subst p.
  unfold Write, Write_available. cbn [t_n t_world t_client t_total].
  unfold RemainingWriteSpace at 1. rewrite Hgeo, Hend, Z.sub_diag.
  rewrite Z.min_r by lia. change (0 >? 0) with false. cbv iota.
  unfold Write_blocks. cbn [t_n t_world t_client t_total].
  rewrite geb_false by lia. cbn [t_n].
  rewrite (to_nat_S n) by lia. rewrite Write_rest_step by (cbn; lia).
  cbn [t_n t_world t_client t_total]. cbv zeta.
  pose proof (Flush_config s) as Hcf.
  assert (Hflags : m_Flags (proxy (Flush s)) = m_Flags (proxy s))
    by (unfold config in Hcf; congruence).
  rewrite Hflags, (proj2 (Z.eqb_neq _ _) Hfills), andb_false_r.
  assert (Hspace : RemainingWriteSpace (proxy (Flush s)) = 0).
  { unfold RemainingWriteSpace. rewrite (Flush_proxy s). cbn. lia. }
  rewrite Hspace, Z.min_r by lia. done.
Qed.

End MoreEngineFacts.

(** ** Bounds over a buffered object that answers within its request *)

Section Bounds.

Context {D : Type} `{BufferedObject D}.

Implicit Types (s : World D) (p q : BufferedProxy).

Lemma config_BufferSizeInBlocks p q :
  config p = config q -> m_BufferSizeInBlocks p = m_BufferSizeInBlocks q.
Proof. unfold config. congruence. Qed.

Lemma well_sized_config p q : config p = config q -> well_sized q -> well_sized p.
Proof.
  unfold well_sized, config. intros [= _ _ -> -> -> _ _ _]. done.
Qed.

Lemma Flush_bounds s : within_bounds (proxy s) -> within_bounds (proxy (Flush s)).
Proof. by rewrite (Flush_proxy s). Qed.

Lemma Fill_bounds s :
  modest D -> 0 <= m_BufferSizeInBlocks (proxy s) ->
  0 <= m_DataSize (proxy s) <= m_BufferSizeInBlocks (proxy s) ->
  m_Point (proxy (Fill s)) = 0
  /\ 0 <= m_DataSize (proxy (Fill s)) <= m_BufferSizeInBlocks (proxy s).
Proof.
  intros [Hread _] Hblocks Hdata. unfold Fill.
  destruct (Z.land (m_Flags (proxy s)) CF_NO_FILLS =? 0); [|done].
  unfold call_Seek.
  destruct (obj_Seek _ _ _) as [o1 r]. cbn [proxy object calls].
  destruct (r =? m_BufferLoc (proxy s)); [|done].
  unfold call_Read. cbn [proxy object calls].
  pose proof (Hread o1 (m_Handle (proxy s)) (m_paBuffer (proxy s))
                (m_BufferSizeInBlocks (proxy s))) as Hk.
  destruct (obj_Read _ _ _ _) as [[o2 data] k]. cbn [snd] in Hk.
  cbn. lia.
Qed.

Lemma quot_block_bound (n size block k : Z) :
  0 <= n -> 0 < size -> 0 < block ->
  0 <= k <= Z.max 0 (Z.quot (_HighestMultiple n size) block) ->
  0 <= k * block <= n.
Proof.
  intros Hn Hsize Hblock Hk. unfold _HighestMultiple in Hk.
  pose proof (Z.rem_bound_pos n size Hn Hsize) as Hrem.
  pose proof (Z.rem_le n size Hn Hsize) as Hle.
  assert (Hq : Z.quot (n - Z.rem n size) block * block <= n - Z.rem n size).
  { rewrite Z.mul_comm. apply Z.mul_quot_le; lia. }
  assert (0 <= Z.quot (n - Z.rem n size) block)
    by (apply Z.quot_pos; lia).
  nia.
Qed.


Lemma Write_available_transferring q n (t : Transfer (D:=D)) :
  transferring q n t -> transferring q n (Write_available t).
Proof.
  intros (Htotal & Hleft & Hsum & Hc). unfold Write_available.
  destruct (Z.gtb_spec (Z.min (t_n t) (RemainingWriteSpace (proxy (t_world t)))) 0)
    as [Hpos|Hnone]; [|done].
  pose proof (CopyIn_config (t_world t) (t_client t)
                (Z.min (t_n t) (RemainingWriteSpace (proxy (t_world t)))))
    as Hin.
  destruct (CopyIn _ _ _) as [s1 c1]. cbn [fst] in Hin.
  unfold transferring. cbn [t_total t_n t_world]. rewrite Hin.
  repeat split; try done; lia.
Qed.

Lemma Write_loop_transferring q n budget (t t' : Transfer (D:=D)) :
  0 < m_BufferSize q -> transferring q n t ->
  Write_loop budget t = Some t' -> transferring q n t'.
Proof.
  intros Hsize. revert t.
  induction budget as [|budget IH]; intros t Ht; cbn [Write_loop];
    destruct (Z.geb_spec (t_n t) (m_BufferSize (proxy (t_world t))))
      as [Hmore|Hdone];
    try discriminate; try (by intros [= <-]).
  destruct Ht as (Htotal & Hleft & Hsum & Hc).
  pose proof (config_BufferSize _ _ Hc) as Hsz.
  pose proof (CopyIn_config (t_world t) (t_client t)
                (m_BufferSize (proxy (t_world t)))) as Hin.
  destruct (CopyIn _ _ _) as [s1 c1]. cbn [fst] in Hin.
  apply IH. unfold transferring. cbn [t_total t_n t_world].
  repeat split; try lia.
  change (config (proxy (Flush s1)) = config q).
  by rewrite Flush_config, Hin.
Qed.

Lemma Write_blocks_transferring q n (t t' : Transfer (D:=D)) :
  modest D -> 0 < m_BufferSize q -> 0 < m_BlockSize q ->
  transferring q n t -> Write_blocks t = Some t' -> transferring q n t'.
Proof.
  intros [_ Hwrite] Hsize Hblock Ht. unfold Write_blocks.
  destruct (_ >=? _); [|by intros [= <-]].
  set (s1 := update _ (Flush (t_world t))).
  assert (Hc1 : config (proxy s1) = config q).
  { destruct Ht as (_ & _ & _ & Hc). subst s1.
    change (config (proxy (Flush (t_world t))) = config q).
    by rewrite Flush_config. }
  clearbody s1.
  destruct (_ && _).
  - unfold call_Write.
    pose proof (Hwrite (object s1) (m_Handle (proxy s1)) (cb_ptr (t_client t))
                  (cb_view (t_client t))
                  (Z.quot (_HighestMultiple (t_n t) (m_BufferSize (proxy s1)))
                          (m_BlockSize (proxy s1)))) as Hk.
    destruct (obj_Write _ _ _ _ _) as [o2 k]. cbn [snd] in Hk.
    intros [= <-]. destruct Ht as (Htotal & Hleft & Hsum & Hc).
    unfold transferring, update. cbn [t_total t_n t_world proxy].
    apply quot_block_bound in Hk;
      [|done|by rewrite (config_BufferSize _ _ Hc1)
            |by rewrite (config_BlockSize _ _ Hc1)].
    repeat split; try lia. by rewrite <- Hc1.
  - apply Write_loop_transferring; [done|].
    destruct Ht as (Htotal & Hleft & Hsum & Hc). done.
Qed.

Lemma Write_rest_transferring q n budget (t t' : Transfer (D:=D)) :
  transferring q n t -> Write_rest budget t = Some t' -> transferring q n t'.
Proof.
  revert t. induction budget as [|budget IH]; intros t Ht; cbn [Write_rest];
    destruct (_ >? _); try discriminate; try (by intros [= <-]).
  destruct Ht as (Htotal & Hleft & Hsum & Hc).
  set (s1 := if _ && _ then Fill (Flush (t_world t)) else Flush (t_world t)).
  assert (Hc1 : config (proxy s1) = config q).
  { subst s1. destruct (_ && _); by rewrite ?Fill_config, Flush_config. }
  destruct (Z.leb_spec (Z.min (t_n t) (RemainingWriteSpace (proxy s1))) 0)
    as [Hstop|Hgo]; [by intros [= <-]|].
  pose proof (CopyIn_config s1 (t_client t)
                (Z.min (t_n t) (RemainingWriteSpace (proxy s1)))) as Hin.
  destruct (CopyIn _ _ _) as [s2 c2]. cbn [fst] in Hin.
  apply IH. unfold transferring. cbn [t_total t_n t_world].
  repeat split; try lia.
  destruct (_ >=? _); by rewrite ?Flush_config, Hin.
Qed.

(** X17. Over a buffered object that answers between 0 and the number of
    blocks it was asked for, and with positive sizes, [Write] always
    answers a count between 0 and [n] (0 for a negative [n]). *)
Theorem Write_count_bounds s (pSrc : Z) (src : list byte) (n : Z) :
  modest D -> 0 < m_BufferSize (proxy s) -> 0 < m_BlockSize (proxy s) ->
  exists r s', Write s pSrc src n = Some (r, s') /\ 0 <= r <= Z.max 0 n.
Proof.
  intros Hmodest Hsize Hblock.
  destruct (Write_total s pSrc src n Hsize) as [[r s'] Hw].
  exists r, s'. split; [done|].
  destruct (Z.le_gt_cases n 0) as [Hnone|Hpos].
  { revert Hw. unfold Write, Write_available. cbn [t_n t_world].
    rewrite gtb_false by lia.
    unfold Write_blocks. cbn [t_n t_world]. rewrite geb_false by lia.
    rewrite Write_rest_done by (cbn; lia). intros [= <- _]. lia. }
  unfold Write in Hw.
  set (t0 := {| t_world := s;
                t_client := {| cb_base := pSrc; cb_ptr := pSrc;
                               cb_bytes := src |};
                t_total := 0; t_n := n |}) in *.
  assert (Ht0 : transferring (proxy s) n t0)
    by (unfold transferring; subst t0; cbn; repeat split; lia).
  apply Write_available_transferring in Ht0.
  destruct (Write_blocks _) as [t1|] eqn:Hb; [|discriminate].
  apply (Write_blocks_transferring (proxy s) n) in Hb; try done.
  destruct (Write_rest _ _) as [t2|] eqn:Hr; [|discriminate].
  apply (Write_rest_transferring (proxy s) n) in Hr; [|done].
  injection Hw as <- _. destruct Hr as (? & ? & ? & _). lia.
Qed.


Lemma Read_available_bounds q n (t : Transfer (D:=D)) :
  well_sized q -> transferring q n t -> within_bounds (proxy (t_world t)) ->
  transferring q n (Read_available t)
  /\ within_bounds (proxy (t_world (Read_available t))).
Proof.
  intros (Hblock & Hsize & Hgeo) (Htotal & Hleft & Hsum & Hc) (Hpt & Hds).
  unfold Read_available.
  destruct (Z.gtb_spec (Z.min (t_n t) (RemainingReadAmount (proxy (t_world t)))) 0)
    as [Hpos|Hnone]; [|done].
  unfold RemainingReadAmount in *.
  pose proof (config_BufferSize _ _ Hc) as E1.
  pose proof (config_BufferSizeInBlocks _ _ Hc) as E2.
  pose proof (config_BlockSize _ _ Hc) as E3.
  assert (0 <= m_DataSize (proxy (t_world t)) * m_BlockSize (proxy (t_world t))
          <= m_BufferSize (proxy (t_world t))) by nia.
  unfold CopyOut, transferring, within_bounds, update, with_Point.
  cbn [t_total t_n t_world proxy m_Point m_DataSize m_BufferSize
       m_BufferSizeInBlocks].
  repeat split; try exact Hc; lia.
Qed.

Lemma Read_loop_bounds q n budget (t t' : Transfer (D:=D)) :
  modest D -> well_sized q ->
  transferring q n t -> within_bounds (proxy (t_world t)) ->
  Read_loop budget t = Some t' ->
  transferring q n t' /\ within_bounds (proxy (t_world t')).
Proof.
  intros Hmodest Hq. revert t.
  induction budget as [|budget IH]; intros t Ht Hb; cbn [Read_loop];
    destruct (Z.geb_spec (t_n t) (m_BufferSize (proxy (t_world t))))
      as [Hmore|Hdone];
    try discriminate; try (by intros [= <-]).
  destruct Ht as (Htotal & Hleft & Hsum & Hc). destruct Hb as (Hpt & Hds).
  destruct Hq as (Hblock & Hsize & Hgeo).
  set (s0 := update (fun p => with_BufferLoc (m_BufferLoc p + m_DataSize p) p)
                    (t_world t)).
  assert (Hc0 : config (proxy s0) = config q) by done.
  assert (Hds0 : 0 <= m_DataSize (proxy s0) <= m_BufferSizeInBlocks (proxy s0))
    by done.
  clearbody s0.
  destruct (Fill_bounds s0 Hmodest) as [Hpt1 Hds1]; [|done|].
  { rewrite (config_BufferSizeInBlocks _ _ Hc0). nia. }
  pose proof (Fill_config s0) as Hc1. rewrite Hc0 in Hc1.
  set (s1 := Fill s0) in *. clearbody s1.
  rewrite (config_BufferSizeInBlocks _ _ Hc0) in Hds1.
  rewrite (config_BufferSize _ _ Hc) in Hmore.
  assert (Hnext :
    transferring q n
      {| t_world := update (with_Point (m_Point (proxy s1)
                     + m_DataSize (proxy s1) * m_BlockSize (proxy s1))) s1;
         t_client := cb_advance
                       (cb_store (t_client t)
                          (load_at (window (proxy s1)) (m_Point (proxy s1))
                             (m_DataSize (proxy s1) * m_BlockSize (proxy s1))))
                       (m_DataSize (proxy s1) * m_BlockSize (proxy s1));
         t_total := t_total t + m_DataSize (proxy s1) * m_BlockSize (proxy s1);
         t_n := t_n t - m_DataSize (proxy s1) * m_BlockSize (proxy s1) |}
    /\ within_bounds
         (with_Point (m_Point (proxy s1)
            + m_DataSize (proxy s1) * m_BlockSize (proxy s1)) (proxy s1))).
  { pose proof (config_BufferSize _ _ Hc1) as E1.
    pose proof (config_BufferSizeInBlocks _ _ Hc1) as E2.
    pose proof (config_BlockSize _ _ Hc1) as E3.
    assert (0 <= m_DataSize (proxy s1) * m_BlockSize (proxy s1)
            <= m_BufferSize (proxy s1)) by nia.
    unfold transferring, within_bounds, update, with_Point.
    cbn [t_total t_n t_world proxy m_Point m_DataSize m_BufferSize
         m_BufferSizeInBlocks].
    repeat split; try exact Hc1; lia. }
  destruct Hnext as [Ht1 Hb1].
  unfold CopyOut. destruct (_ <? _); [by intros [= <-]|].
  by apply IH.
Qed.

Lemma Read_blocks_bounds q n (t t' : Transfer (D:=D)) :
  modest D -> well_sized q ->
  transferring q n t -> within_bounds (proxy (t_world t)) ->
  Read_blocks t = Some t' ->
  transferring q n t' /\ within_bounds (proxy (t_world t')).
Proof.
  intros Hmodest Hq Ht Hb. unfold Read_blocks.
  destruct (_ >=? _); [|by intros [= <-]].
  pose proof (Flush_bounds _ Hb) as Hb1.
  pose proof (Flush_config (t_world t)) as Hc1.
  set (s1 := Flush (t_world t)) in *. clearbody s1.
  destruct Ht as (Htotal & Hleft & Hsum & Hc). rewrite Hc in Hc1.
  destruct (_ && _).
  - unfold call_Read. cbn [update proxy object calls].
    destruct Hmodest as [Hread _].
    match goal with
    | |- context [obj_Read ?o ?h ?b ?k] => pose proof (Hread o h b k) as Hk
    end.
    destruct (obj_Read _ _ _ _) as [[o2 data] k]. cbn [snd] in Hk.
    intros [= <-]. destruct Hq as (Hblock & Hsize & Hgeo).
    unfold update, with_BufferLoc in Hk.
    cbn [proxy m_BufferSize m_BlockSize] in Hk.
    apply quot_block_bound in Hk;
      [|done|by rewrite (config_BufferSize _ _ Hc1)
            |by rewrite (config_BlockSize _ _ Hc1)].
    pose proof (config_BufferSize _ _ Hc1) as E1.
    pose proof (config_BufferSizeInBlocks _ _ Hc1) as E2.
    assert (0 <= m_BufferSizeInBlocks q) by nia.
    unfold transferring, within_bounds, update.
    cbn [t_total t_n t_world proxy with_DataSize with_Point with_BufferLoc
         m_Point m_DataSize m_BufferSize m_BufferSizeInBlocks m_BlockSize].
    repeat split; try exact Hc1; lia.
  - by apply Read_loop_bounds.
Qed.

Lemma Read_rest_bounds q n (t : Transfer (D:=D)) :
  modest D -> well_sized q ->
  transferring q n t -> within_bounds (proxy (t_world t)) ->
  transferring q n (Read_rest t)
  /\ within_bounds (proxy (t_world (Read_rest t))).
Proof.
  intros Hmodest (Hblock & Hsize & Hgeo) (Htotal & Hleft & Hsum & Hc) Hb.
  unfold Read_rest. destruct (_ >? _); [|done].
  pose proof (Flush_bounds _ Hb) as Hb1.
  pose proof (Flush_config (t_world t)) as Hc1. rewrite Hc in Hc1.
  set (s1 := Flush (t_world t)) in *. clearbody s1.
  set (s2 := update (fun p => with_BufferLoc (m_BufferLoc p + m_DataSize p) p)
                    s1).
  assert (Hc2 : config (proxy s2) = config q) by done.
  assert (Hds2 : 0 <= m_DataSize (proxy s2) <= m_BufferSizeInBlocks (proxy s2))
    by (destruct Hb1; done).
  clearbody s2.
  destruct (Fill_bounds s2 Hmodest) as [Hpt3 Hds3]; [|done|].
  { rewrite (config_BufferSizeInBlocks _ _ Hc2). nia. }
  pose proof (Fill_config s2) as Hc3. rewrite Hc2 in Hc3.
  set (s3 := Fill s2) in *. clearbody s3.
  rewrite (config_BufferSizeInBlocks _ _ Hc2) in Hds3.
  unfold RemainingReadAmount.
  destruct (Z.gtb_spec (Z.min (t_n t)
              (m_DataSize (proxy s3) * m_BlockSize (proxy s3) - m_Point (proxy s3))) 0)
    as [Hpos|Hnone].
  - pose proof (config_BufferSize _ _ Hc3) as E1.
    pose proof (config_BufferSizeInBlocks _ _ Hc3) as E2.
    pose proof (config_BlockSize _ _ Hc3) as E3.
    assert (0 <= m_DataSize (proxy s3) * m_BlockSize (proxy s3)
            <= m_BufferSize (proxy s3)) by nia.
    unfold CopyOut, transferring, within_bounds, update, with_Point.
    cbn [t_total t_n t_world proxy m_Point m_DataSize m_BufferSize
         m_BufferSizeInBlocks].
    repeat split; try exact Hc3; lia.
  - pose proof (config_BufferSize _ _ Hc3) as E1.
    pose proof (config_BufferSizeInBlocks _ _ Hc3) as E2.
    unfold transferring, within_bounds. cbn [t_total t_n t_world].
    repeat split; try exact Hc3; lia.
Qed.

(** X18. Over a buffered object that answers between 0 and the number of
    blocks it was asked for, on an engine whose sizes agree and whose
    cursor and data size are within the buffer, [Read] always answers a
    count between 0 and [n] (0 for a negative [n]) and leaves the cursor
    and the data size within the buffer. *)
Theorem Read_count_bounds s (pDst : Z) (dst : list byte) (n : Z) :
  modest D -> well_sized (proxy s) -> within_bounds (proxy s) ->
  exists r out s',
    Read s pDst dst n = Some (r, out, s')
    /\ 0 <= r <= Z.max 0 n /\ within_bounds (proxy s').
Proof.
  intros Hmodest Hq Hb.
  destruct (Read_total s pDst dst n) as [[[r out] s'] Hr];
    [apply Hq|apply Hq|].
  exists r, out, s'. split; [done|].
  destruct (Z.le_gt_cases n 0) as [Hnone|Hpos].
  { revert Hr. unfold Read, Read_available. cbn [t_n t_world].
    rewrite gtb_false by lia.
    unfold Read_blocks. cbn [t_n t_world].
    rewrite geb_false by (destruct Hq as (? & ? & ?); lia).
    unfold Read_rest. cbn [t_n t_world]. rewrite gtb_false by lia.
    intros [= <- _ <-]. split; [lia|done]. }
  unfold Read in Hr.
  set (t0 := {| t_world := s;
                t_client := {| cb_base := pDst; cb_ptr := pDst;
                               cb_bytes := dst |};
                t_total := 0; t_n := n |}) in *.
  assert (Ht0 : transferring (proxy s) n t0)
    by (unfold transferring; subst t0; cbn; repeat split; lia).
  destruct (Read_available_bounds (proxy s) n t0 Hq Ht0 Hb) as [Ht1 Hb1].
  destruct (Read_blocks _) as [t2|] eqn:Hblocks; [|discriminate].
  destruct (Read_blocks_bounds (proxy s) n _ _ Hmodest Hq Ht1 Hb1 Hblocks)
    as [Ht2 Hb2].
  destruct (Read_rest_bounds (proxy s) n t2 Hmodest Hq Ht2 Hb2) as [Ht3 Hb3].
  injection Hr as <- _ <-. split; [|done].
  destruct Ht3 as (? & ? & ? & _). lia.
Qed.

End Bounds.

(** ** Sequences of calls, and the pieces of the engine *)

Section More.

Context {D : Type} `{BufferedObject D}.

Implicit Types (s : World D) (p q : BufferedProxy).

Lemma perform_config s c s' :
  perform s c = Some s' -> config (proxy s') = config (proxy s).
Proof.
  destruct c; cbn [perform].
  - destruct (Read s pDst dst n) as [[[r out] s2]|] eqn:Hr; [|discriminate].
    intros [= <-]. by eapply Read_config.
  - destruct (Write s pSrc src n) as [[r s2]|] eqn:Hw; [|discriminate].
    intros [= <-]. by eapply Write_config.
  - intros [= <-]. apply Seek_config.
  - intros [= <-]. apply Flush_config.
  - intros [= <-]. apply Fill_config.
Qed.

Lemma perform_reading s c :
  modest D -> well_sized (proxy s) -> within_bounds (proxy s) ->
  is_reading c = true ->
  exists s1, perform s c = Some s1 /\ within_bounds (proxy s1).
Proof.
  intros Hmodest Hq Hb Hc. destruct c; try discriminate; cbn [perform].
  - destruct (Read_total s pDst dst n) as [[[r out] s1] Hr];
      [apply Hq|apply Hq|].
    rewrite Hr. exists s1. split; [done|].
    destruct (Z.le_gt_cases n 0) as [Hnone|Hpos].
    { revert Hr. unfold Read, Read_available. cbn [t_n t_world].
      rewrite gtb_false by lia.
      unfold Read_blocks. cbn [t_n t_world].
      rewrite geb_false by (destruct Hq as (? & ? & ?); lia).
      unfold Read_rest. cbn [t_n t_world]. rewrite gtb_false by lia.
      by intros [= _ _ <-]. }
    unfold Read in Hr.
    set (t0 := {| t_world := s;
                  t_client := {| cb_base := pDst; cb_ptr := pDst;
                                 cb_bytes := dst |};
                  t_total := 0; t_n := n |}) in *.
    assert (Ht0 : transferring (proxy s) n t0)
      by (unfold transferring; subst t0; cbn; repeat split; lia).
    destruct (Read_available_bounds (proxy s) n t0 Hq Ht0 Hb) as [Ht1 Hb1].
    destruct (Read_blocks _) as [t2|] eqn:Hblocks; [|discriminate].
    destruct (Read_blocks_bounds (proxy s) n _ _ Hmodest Hq Ht1 Hb1 Hblocks)
      as [Ht2 Hb2].
    destruct (Read_rest_bounds (proxy s) n t2 Hmodest Hq Ht2 Hb2)
      as [_ Hb3].
    by injection Hr as _ _ <-.
  - eexists. split; [done|]. by apply Flush_bounds.
  - eexists. split; [done|].
    destruct Hq as (Hblock & Hsize & Hgeo). destruct Hb as [_ Hds].
    destruct (Fill_bounds s Hmodest) as [Hpt Hds']; [nia|done|].
    pose proof (Fill_config s) as Hcfg.
    unfold within_bounds.
    rewrite Hpt, (config_BufferSize _ _ Hcfg),
            (config_BufferSizeInBlocks _ _ Hcfg).
    split; [lia|done].
Qed.

(** X19. Over a buffered object that answers between 0 and the number of
    blocks it was asked for, on an engine whose sizes agree and whose
    cursor and data size are within the buffer, every sequence of [Read],
    [Flush] and [Fill] calls runs to its end, and leaves the cursor and
    the data size within the buffer. *)
Theorem run_of_reads_total (l : list ClientCall) s :
  modest D -> well_sized (proxy s) -> within_bounds (proxy s) ->
  forallb is_reading l = true ->
  exists s', run s l = Some s' /\ within_bounds (proxy s').
Proof.
  intros Hmodest. revert s.
  induction l as [|c l IH]; intros s Hq Hb Hl; cbn [run]; [by exists s|].
  cbn [forallb] in Hl. apply andb_prop in Hl as [Hc Hl].
  destruct (perform_reading s c Hmodest Hq Hb Hc) as (s1 & Hs1 & Hb1).
  rewrite Hs1. apply IH; [|done|done].
  apply (well_sized_config _ (proxy s)); [|done].
  exact (perform_config _ _ _ Hs1).
Qed.

(** X20. With a buffer size of 0, which the constructor accepts, the
    loop [while ( n >= m_BufferSize )] of [Write] never ends for a
    non-negative [n]: no number of iterations is enough. *)
Theorem Write_loop_never_ends (t : Transfer (D:=D)) :
  m_BufferSize (proxy (t_world t)) = 0 -> 0 <= t_n t ->
  forall budget, Write_loop budget t = None.
Proof.
  intros Hsize Hn budget. revert t Hsize Hn.
  induction budget as [|budget IH]; intros t Hsize Hn; cbn [Write_loop];
    rewrite geb_true by lia; [done|].
  pose proof (CopyIn_config (t_world t) (t_client t)
                (m_BufferSize (proxy (t_world t)))) as Hin.
  destruct (CopyIn _ _ _) as [s1 c1]. cbn [fst] in Hin.
  apply IH; cbn [t_world t_n]; [|lia].
  change (m_BufferSize (proxy (Flush s1)) = 0).
  by rewrite (config_BufferSize _ _ (Flush_config s1)),
             (config_BufferSize _ _ Hin).
Qed.

(** X21. [Fill] always leaves the cursor at 0; it never changes the dirty
    flag or the window location and never writes to the buffered object,
    so data of a dirty window that it overwrites is lost while the window
    stays marked dirty.  With fills disabled it does nothing else than
    reset the cursor. *)
Theorem Fill_frame s :
  m_Point (proxy (Fill s)) = 0
  /\ m_IsDirty (proxy (Fill s)) = m_IsDirty (proxy s)
  /\ m_BufferLoc (proxy (Fill s)) = m_BufferLoc (proxy s)
  /\ device_writes (calls (Fill s)) = device_writes (calls s)
  /\ (Z.land (m_Flags (proxy s)) CF_NO_FILLS <> 0 ->
      Fill s = update (with_Point 0) s).
Proof.
  unfold Fill.
  destruct (Z.eqb_spec (Z.land (m_Flags (proxy s)) CF_NO_FILLS) 0) as [Hf|Hf];
    [|done].
  unfold call_Seek. destruct (obj_Seek _ _ _) as [o1 r].
  cbn [proxy object calls].
  assert (Hw : forall l c, is_CallWrite c = false ->
                 device_writes (l ++ [c]) = device_writes l).
  { intros l c Hc. unfold device_writes.
    rewrite List.filter_app, length_app. cbn. rewrite Hc. cbn. lia. }
  destruct (r =? m_BufferLoc (proxy s)).
  - unfold call_Read. cbn [proxy object calls].
    destruct (obj_Read _ _ _ _) as [[o2 data] k].
    cbn [update proxy calls]. rewrite !Hw by done.
    repeat split; done.
  - cbn [update proxy calls]. rewrite Hw by done. done.
Qed.

(** X22. [CopyIn] advances the cursor by [n] and, with a positive block
    size and a cursor that stays non-negative, leaves a data size that
    covers the cursor: the data size never shrinks, and when it grows it is
    the least number of blocks that reaches the cursor. *)
Theorem CopyIn_covers_cursor s (c : ClientBuffer) (n : Z) :
  let p := proxy s in
  let p' := proxy (CopyIn s c n).1 in
  0 < m_BlockSize p -> 0 <= m_Point p + n ->
  m_Point p' = m_Point p + n
  /\ m_Point p' <= m_DataSize p' * m_BlockSize p
  /\ m_DataSize p <= m_DataSize p'
  /\ (m_DataSize p' = m_DataSize p
      \/ (m_DataSize p' - 1) * m_BlockSize p < m_Point p').
Proof.
  intros p p' Hblock Hpt. subst p p'.
  unfold CopyIn, update. cbn [fst proxy].
  cbn [with_window with_Point with_IsDirty m_Point m_DataSize m_BlockSize].
  set (pt := m_Point (proxy s) + n) in *.
  set (bs := m_BlockSize (proxy s)) in *.
  destruct (Z.gtb_spec pt (m_DataSize (proxy s) * bs)) as [Hgrow|Hfit].
  - unfold with_DataSize, with_IsDirty, with_Point, with_window.
    cbn [m_Point m_DataSize].
    rewrite Z.quot_div_nonneg by lia.
    pose proof (Z.div_mod (pt + bs - 1) bs ltac:(lia)).
    pose proof (Z.mod_pos_bound (pt + bs - 1) bs ltac:(lia)).
    repeat split; nia.
  - unfold with_IsDirty, with_Point, with_window.
    cbn [m_Point m_DataSize]. repeat split; lia.
Qed.

End More.

Lemma Disk_modest : modest Disk.
Proof.
  split; intros; cbn [obj_Read obj_Write Disk_BufferedObject];
    unfold disk_Read, disk_Write, disk_count; cbn [snd]; lia.
Qed.

(** ** Reading and writing through to the disk *)

Lemma Seek_disk_fresh (s : World Disk) (L k : Z) :
  let p := proxy s in
  let d := object s in
  let block := Z.quot (sector_floor (2 ^ k) L) (m_BlockSize p) in
  let kk := Z.max 0 (Z.min (m_BufferSizeInBlocks p) (disk_blocks d - block)) in
  0 < m_BlockSize p -> m_BlockSize p = disk_blockSize d ->
  Z.land (m_Flags p) CF_NO_FILLS = 0 -> m_DataSize p = 0 ->
  0 <= k <= 31 -> m_SectorAlign p = 2 ^ k - 1 ->
  0 <= L -> block <= disk_blocks d ->
  Seek s L
  = (L,
     {| proxy :=
          with_Point (L - block * m_BlockSize p)
            (with_DataSize kk
               (with_window
                  (store_at (window p) 0
                     (load_at (disk_bytes d) (block * m_BlockSize p)
                              (kk * m_BlockSize p)))
                  (with_BufferLoc block p)));
        object :=
          {| disk_blockSize := disk_blockSize d; disk_blocks := disk_blocks d;
             disk_bytes := disk_bytes d; disk_pos := block + kk |};
        calls := calls s ++ [CallSeek block block; CallSeek block block;
                             CallRead (m_paBuffer p) (m_BufferSizeInBlocks p)
                                      kk] |}).
Proof.
  intros p d block kk Hblock Hbs Hfills Hempty Hk Hsa HL Hcap.
  assert (Hpow : 1 <= 2 ^ k <= 2 ^ 31) by (by apply pow2_le_31).
  assert (H0 : 0 <= block).
  { subst block. apply Z.quot_pos; [|lia].
    apply sector_floor_nonneg; lia. }
  unfold Seek. fold p. rewrite Hempty, Z.add_0_r.
  replace ((L >=? m_BufferLoc p * m_BlockSize p)
           && (L <? m_BufferLoc p * m_BlockSize p)) with false
    by (destruct (Z.geb_spec L (m_BufferLoc p * m_BlockSize p)),
                 (Z.ltb_spec L (m_BufferLoc p * m_BlockSize p));
        cbn; try done; lia).
  rewrite Flush_idle by (right; fold p; lia).
  fold p. rewrite Hsa, to_int_small by lia.
  rewrite _HighestMultiplePowerOf2_floor by lia. fold block.
  unfold call_Seek. cbn [obj_Seek Disk_BufferedObject].
  rewrite disk_Seek_inside by (fold d; lia).
  rewrite Fill_disk; cbn [update proxy object calls with_BufferLoc m_Flags
                          m_BufferLoc disk_blocks]; [|done|fold d; lia].
  cbv zeta.
  cbn [update proxy object calls with_BufferLoc with_Point with_DataSize
       with_window m_Flags m_BufferLoc m_BufferSizeInBlocks m_BlockSize
       m_Point m_paBuffer window
       disk_blocks disk_blockSize disk_bytes disk_pos].
  fold p d. fold kk. rewrite <- Hbs, <- app_assoc. cbn [app].
  f_equal.
Qed.

Lemma load_at_load_at (l : list byte) (a m off n : Z) :
  0 <= a -> 0 <= off -> 0 <= n -> off + n <= m ->
  load_at (load_at l a m) off n = load_at l (a + off) n.
Proof.
  intros Ha Hoff Hn Hm. apply list_eq. intros i.
  rewrite !lookup_load_at. case_decide; [|done].
  rewrite decide_True by lia. f_equal. lia.
Qed.

Lemma load_at_store_at_0 (w src : list byte) (off n : Z) :
  0 <= off -> 0 <= n ->
  off + n <= Z.of_nat (length src) -> off + n <= Z.of_nat (length w) ->
  load_at (store_at w 0 src) off n = load_at src off n.
Proof.
  intros Hoff Hn Hsrc Hw. apply list_eq. intros i.
  rewrite !lookup_load_at. case_decide; [|done].
  rewrite lookup_store_at by done. rewrite decide_True by lia.
  f_equal. lia.
Qed.

(** X23. Over the disk, with fills enabled and an empty window: after a
    [Seek] to [L], a [Read] of [n] bytes that end inside the window filled
    at the sector-aligned floor of [L] (and inside the disk) answers [n]
    and gives the [n] bytes of the disk at [L]; the disk is unchanged. *)
Theorem Seek_then_Read_gives_disk_bytes (s : World Disk)
    (L k n pDst : Z) (dst : list byte) :
  let p := proxy s in
  let d := object s in
  let block := Z.quot (sector_floor (2 ^ k) L) (m_BlockSize p) in
  well_sized p -> window_allocated p -> disk_ok d ->
  m_BlockSize p = disk_blockSize d ->
  Z.land (m_Flags p) CF_NO_FILLS = 0 -> m_DataSize p = 0 ->
  0 <= k <= 31 -> m_SectorAlign p = 2 ^ k - 1 ->
  0 <= L -> 0 < n ->
  L + n <= Z.min (block + m_BufferSizeInBlocks p) (disk_blocks d)
           * m_BlockSize p ->
  exists s',
    Read (Seek s L).2 pDst dst n
    = Some (n, store_at dst 0 (load_at (disk_bytes d) L n), s')
    /\ disk_bytes (object s') = disk_bytes d.
Proof.
  intros p d block Hws Hmem Hd Hbs Hfills Hempty Hk Hsa HL Hn Hfit.
  destruct Hws as (Hblock & Hsize & Hgeo).
  destruct Hd as (_ & _ & Hlen). unfold window_allocated in Hmem.
  assert (Hpow : 1 <= 2 ^ k <= 2 ^ 31) by (by apply pow2_le_31).
  pose proof (sector_floor_nonneg (2 ^ k) L ltac:(lia) HL) as Hfloor.
  assert (Hb : 0 <= block /\ block * m_BlockSize p <= L).
  { subst block. split; [apply Z.quot_pos; lia|].
    pose proof (Z.mul_quot_le (sector_floor (2 ^ k) L) (m_BlockSize p)
                  ltac:(lia) ltac:(lia)). lia. }
  assert (Hcap : block < disk_blocks d) by nia.
  rewrite (Seek_disk_fresh s L k) by (done || (fold p d block; lia)). cbn [snd].
  fold p d block. clearbody block.
  set (kk := Z.max 0 (Z.min (m_BufferSizeInBlocks p) (disk_blocks d - block)))
    in *.
  assert (Hkk : L + n <= (block + kk) * m_BlockSize p /\ 0 < kk
                /\ kk <= m_BufferSizeInBlocks p
                /\ block + kk <= disk_blocks d).
  { subst kk.
    replace (Z.min (block + m_BufferSizeInBlocks p) (disk_blocks d))
      with (block + Z.min (m_BufferSizeInBlocks p) (disk_blocks d - block))
      in Hfit by lia.
    nia. }
  destruct Hkk as (Hfit' & Hkpos & Hkle & Hkcap). clearbody kk.
  rewrite Read_hit; cycle 1.
  { done. }
  { unfold RemainingReadAmount. cbn. fold p. lia. }
  cbn [proxy window with_Point with_DataSize with_window m_Point].
  fold p d.
  assert (Hload :
    load_at (store_at (window p) 0
               (load_at (disk_bytes d) (block * m_BlockSize p)
                        (kk * m_BlockSize p)))
            (L - block * m_BlockSize p) n
    = load_at (disk_bytes d) L n).
  { rewrite load_at_store_at_0.
    - rewrite load_at_load_at by lia. f_equal. lia.
    - lia.
    - lia.
    - rewrite length_load_at. nia.
    - nia. }
  rewrite Hload. eexists. split; [reflexivity|done].
Qed.

(** X24. Over the disk, with fills enabled and an empty window: after a
    [Seek] to [L], a [Write] of [n] bytes that end inside the window
    answers [n] and leaves the disk as it was; the destructor then flushes
    the window, after which the disk differs from before in exactly the
    [n] written bytes at [L], and the window is clean. *)
Theorem written_bytes_reach_disk (s : World Disk)
    (L k n pSrc : Z) (src : list byte) :
  let p := proxy s in
  let d := object s in
  let block := Z.quot (sector_floor (2 ^ k) L) (m_BlockSize p) in
  well_sized p -> window_allocated p -> disk_ok d ->
  m_BlockSize p = disk_blockSize d ->
  Z.land (m_Flags p) CF_NO_FILLS = 0 -> m_DataSize p = 0 ->
  0 <= k <= 31 -> m_SectorAlign p = 2 ^ k - 1 ->
  0 <= L -> 0 < n <= Z.of_nat (length src) ->
  L + n <= Z.min (block + m_BufferSizeInBlocks p) (disk_blocks d)
           * m_BlockSize p ->
  exists s',
    Write (Seek s L).2 pSrc src n = Some (n, s')
    /\ disk_bytes (object s') = disk_bytes d
    /\ disk_bytes (object (BufferedProxy_dtor s'))
       = store_at (disk_bytes d) L (load_at src 0 n)
    /\ m_IsDirty (proxy (BufferedProxy_dtor s')) = false.
Proof.
  intros p d block Hws Hmem Hd Hbs Hfills Hempty Hk Hsa HL Hn Hfit.
  destruct Hws as (Hblock & Hsize & Hgeo).
  destruct Hd as (_ & _ & Hlen). unfold window_allocated in Hmem.
  assert (Hpow : 1 <= 2 ^ k <= 2 ^ 31) by (by apply pow2_le_31).
  pose proof (sector_floor_nonneg (2 ^ k) L ltac:(lia) HL) as Hfloor.
  assert (Hb : 0 <= block /\ block * m_BlockSize p <= L).
  { subst block. split; [apply Z.quot_pos; lia|].
    pose proof (Z.mul_quot_le (sector_floor (2 ^ k) L) (m_BlockSize p)
                  ltac:(lia) ltac:(lia)). lia. }
  assert (Hcap : block < disk_blocks d) by nia.
  rewrite (Seek_disk_fresh s L k) by (done || (fold p d block; lia)). cbn [snd].
  fold p d block. clearbody block.
  set (kk := Z.max 0 (Z.min (m_BufferSizeInBlocks p) (disk_blocks d - block)))
    in *.
  assert (Hkk : L + n <= (block + kk) * m_BlockSize p /\ 0 < kk
                /\ kk <= m_BufferSizeInBlocks p
                /\ block + kk <= disk_blocks d).
  { subst kk.
    replace (Z.min (block + m_BufferSizeInBlocks p) (disk_blocks d))
      with (block + Z.min (m_BufferSizeInBlocks p) (disk_blocks d - block))
      in Hfit by lia.
    nia. }
  destruct Hkk as (Hfit' & Hkpos & Hkle & Hkcap). clearbody kk.
  rewrite Write_hit; cycle 1.
  { done. }
  { unfold RemainingWriteSpace. cbn. fold p. nia. }
  eexists. split; [done|].
  unfold CopyIn, cb_offset. cbn [fst update proxy object calls cb_base cb_ptr cb_bytes].
  rewrite Z.sub_diag.
  cbn [with_window with_Point with_IsDirty with_DataSize with_BufferLoc
       m_Point m_DataSize m_BlockSize window].
  fold p. rewrite gtb_false by lia.
  split; [done|].
  unfold BufferedProxy_dtor. rewrite Flush_disk; cycle 1.
  { done. } { cbn. lia. } { cbn. lia. } { cbn. lia. }
  unfold update.
  cbn [proxy object disk_bytes disk_blockSize with_window with_Point
       with_IsDirty with_DataSize with_BufferLoc m_BufferLoc m_DataSize
       m_IsDirty window].
  split; [|done]. fold p d. rewrite <- Hbs.
  set (W := store_at (window p) 0
              (load_at (disk_bytes d) (block * m_BlockSize p)
                       (kk * m_BlockSize p))).
  set (pt := L - block * m_BlockSize p).
  set (bs := m_BlockSize p) in *.
  assert (HW : length W = length (window p))
    by (subst W; apply length_store_at).
  assert (Hwin : kk * bs <= Z.of_nat (length (window p))) by nia.
  assert (Hdisk : block * bs + kk * bs <= Z.of_nat (length (disk_bytes d)))
    by nia.
  assert (Hpt : 0 <= pt /\ pt + n <= kk * bs /\ L = block * bs + pt
                /\ 0 <= block * bs) by (subst pt; nia).
  clearbody pt. clear Hfit Hfit' Hgeo Hlen Hmem.
  apply list_eq. intros i.
  rewrite !lookup_store_at by lia.
  rewrite !length_load_at, !length_store_at, HW.
  destruct (decide (Z.to_nat L <= i < Z.to_nat L + Z.to_nat n)%nat) as [Hin|Hout].
  - rewrite !decide_True by lia.
    rewrite lookup_load_at, decide_True by lia.
    rewrite lookup_store_at by lia.
    rewrite length_load_at, HW, decide_True by lia.
    f_equal. lia.
  - rewrite (decide_False (P := ((Z.to_nat L <= i < _)%nat /\ _))) by lia.
    case_decide as Hrange; [|done].
    rewrite lookup_load_at, decide_True by lia.
    rewrite lookup_store_at by lia.
    rewrite length_load_at, HW, decide_False by lia.
    subst W. rewrite lookup_store_at by lia.
    rewrite length_load_at, decide_True by lia.
    rewrite lookup_load_at, decide_True by lia.
    f_equal. lia.
Qed.

(** ** Direct transfers *)

Section Direct.

Context {D : Type} `{BufferedObject D}.

Implicit Types (s : World D) (p : BufferedProxy).

(** X25. A direct [Read]: when nothing is left to read in the window, the
    window is clean, direct transfers are allowed, the destination is
    aligned, [n] is at least the buffer size and the buffered object
    answers all [n] bytes, [Read] makes exactly one call on the object, a
    read of [_HighestMultiple n m_BufferSize / m_BlockSize] blocks straight
    into the destination, with no seek before it; it answers [n], the
    window memory is untouched, and the window is left empty just after the
    blocks read. *)
Theorem Read_direct s (pDst : Z) (dst : list byte) (n : Z) :
  let p := proxy s in
  let blocks := Z.quot (_HighestMultiple n (m_BufferSize p)) (m_BlockSize p) in
  let answer := obj_Read (object s) (m_Handle p) pDst blocks in
  0 < m_BufferSize p -> m_BufferSize p <= n ->
  RemainingReadAmount p <= 0 -> m_IsDirty p = false ->
  Z.land (m_Flags p) CF_NO_DIRECT_IO = 0 ->
  _IsAligned (to_unsigned pDst) (m_BufferAlign p) = true ->
  answer.2 * m_BlockSize p = n ->
  Read s pDst dst n
  = Some (n, store_at dst 0 answer.1.2,
          {| proxy := with_DataSize 0 (with_Point 0
                        (with_BufferLoc
                           (m_BufferLoc p + m_DataSize p + answer.2) p));
             object := answer.1.1;
             calls := calls s ++ [CallRead pDst blocks answer.2] |}).
Proof.
  intros p blocks answer Hsize Hn Hrem Hclean Hdirect Haligned Hall.
  unfold Read, Read_available. cbn [t_n t_world t_client t_total].
  fold p. rewrite Z.min_r, gtb_false by lia.
  unfold Read_blocks. cbn [t_n t_world t_client t_total cb_ptr].
  rewrite Flush_idle by (by left). fold p.
  rewrite geb_true by lia. rewrite Hdirect, Haligned.
  change ((0 =? 0) && true) with true. cbv iota.
  unfold call_Read, update.
  cbn [proxy object calls with_BufferLoc m_Handle m_BufferSize m_BlockSize].
  fold p. fold blocks. fold answer.
  destruct answer as [[o data] r] eqn:Hanswer. cbn [fst snd] in *.
  cbn [proxy with_BufferLoc m_BlockSize m_BufferLoc].
  unfold Read_rest. cbn [t_n t_world t_client t_total].
  rewrite Hall, Z.sub_diag. change (0 >? 0) with false. cbv iota.
  unfold cb_advance, cb_store, cb_offset. cbn [cb_bytes cb_base cb_ptr].
  rewrite Z.sub_diag. fold p. do 3 f_equal; lia.
Qed.

(** X26. A direct [Write]: when no write space is left in the window, the
    window is clean, direct transfers are allowed, the source is aligned,
    [n] is at least the buffer size and the buffered object answers all
    [n] bytes, [Write] makes exactly one call on the object, a write of
    [_HighestMultiple n m_BufferSize / m_BlockSize] blocks straight from the
    source, with no seek before it; it answers [n], the window memory is
    untouched, and the window is left empty just after the blocks
    written. *)
Theorem Write_direct s (pSrc : Z) (src : list byte) (n : Z) :
  let p := proxy s in
  let blocks := Z.quot (_HighestMultiple n (m_BufferSize p)) (m_BlockSize p) in
  let answer := obj_Write (object s) (m_Handle p) pSrc src blocks in
  0 < m_BufferSize p -> m_BufferSize p <= n ->
  RemainingWriteSpace p <= 0 -> m_IsDirty p = false ->
  Z.land (m_Flags p) CF_NO_DIRECT_IO = 0 ->
  _IsAligned (to_unsigned pSrc) (m_BufferAlign p) = true ->
  answer.2 * m_BlockSize p = n ->
  Write s pSrc src n
  = Some (n,
          {| proxy := with_DataSize 0 (with_Point 0
                        (with_BufferLoc
                           (m_BufferLoc p + m_DataSize p + answer.2) p));
             object := answer.1;
             calls := calls s ++ [CallWrite pSrc blocks answer.2] |}).
Proof.
  intros p blocks answer Hsize Hn Hspace Hclean Hdirect Haligned Hall.
  unfold Write, Write_available. cbn [t_n t_world t_client t_total].
  fold p. rewrite Z.min_r, gtb_false by lia.
  unfold Write_blocks. cbn [t_n t_world t_client t_total cb_ptr].
  rewrite Flush_idle by (by left). fold p.
  rewrite geb_true by lia.
  unfold update at 1 2.
  cbn [proxy with_BufferLoc m_Flags m_BufferAlign].
  fold p. rewrite Hdirect, Haligned.
  change ((0 =? 0) && true) with true. cbv iota.
  unfold call_Write, update, cb_view, cb_offset.
  cbn [proxy object calls with_BufferLoc m_Handle m_BufferSize m_BlockSize
       cb_base cb_ptr cb_bytes].
  rewrite Z.sub_diag. change (drop (Z.to_nat 0) src) with src.
  fold p. fold blocks. fold answer.
  destruct answer as [o r] eqn:Hanswer. cbn [fst snd] in *.
  cbn [proxy with_BufferLoc m_BlockSize m_BufferLoc t_n].
  fold p. rewrite Hall, Z.sub_diag.
  rewrite Write_rest_done by (cbn; lia).
  cbn [t_total t_world]. fold p. do 3 f_equal; lia.
Qed.

End Direct.

(** ** An engine in sync with the disk *)

Lemma store_at_all (l new : list byte) :
  length new = length l -> store_at l 0 new = new.
Proof.
  intros Hlen. apply list_eq. intros i.
  rewrite lookup_store_at by done.
  case_decide as Hi; [f_equal; lia|].
  rewrite !lookup_ge_None_2; [done|lia|lia].
Qed.

Lemma load_at_window (w disk : list byte) (a m off n : Z) :
  load_at w 0 m = load_at disk a m ->
  0 <= a -> 0 <= off -> 0 <= n -> off + n <= m ->
  load_at w off n = load_at disk (a + off) n.
Proof.
  intros Heq Ha Hoff Hn Hm. apply list_eq. intros i.
  rewrite !lookup_load_at. case_decide as Hi; [|done].
  apply (f_equal (fun l => l !! (Z.to_nat off + i)%nat)) in Heq.
  rewrite !lookup_load_at in Heq. rewrite !decide_True in Heq by lia.
  replace (Z.to_nat 0 + (Z.to_nat off + i))%nat with (Z.to_nat off + i)%nat
    in Heq by lia.
  rewrite Heq. f_equal. lia.
Qed.

Lemma Read_rest_synced (t : Transfer (D:=Disk)) :
  let s := t_world t in
  let p := proxy s in
  let d := object s in
  synced s -> m_Point p = m_DataSize p * m_BlockSize p ->
  0 < t_n t < m_BufferSize p ->
  position p + t_n t <= disk_blocks d * m_BlockSize p ->
  exists s',
    Read_rest t
    = {| t_world := s';
         t_client :=
           cb_advance
             (cb_store (t_client t)
                (load_at (disk_bytes d) (position p) (t_n t)))
             (t_n t);
         t_total := t_total t + t_n t;
         t_n := t_n t - t_n t |}
    /\ synced s' /\ position (proxy s') = position p + t_n t
    /\ disk_bytes (object s') = disk_bytes d.
Proof.
  intros s p d Hsync Hend Hn Hfit.
  destruct Hsync as ((Hblock & Hsize & Hgeo) & Hmem & Hdisk & Hbs & Hfills
                     & Hclean & Hloc & Hds & Hcap & Hpt & Hdata).
  fold p d in Hblock, Hsize, Hgeo, Hmem, Hdisk, Hbs, Hfills, Hclean, Hloc,
              Hds, Hcap, Hpt, Hdata.
  destruct Hdisk as (Hdb & Hpos & Hlen). unfold window_allocated in Hmem.
  unfold position in *. fold p in Hfit |- *.
  unfold Read_rest. fold s. rewrite gtb_true by lia.
  rewrite Flush_idle by (by left). fold p.
  set (s1 := update (fun p0 => with_BufferLoc (m_BufferLoc p0 + m_DataSize p0) p0) s).
  rewrite (Fill_disk s1) by (subst s1; cbn; fold p d; (done || lia)).
  cbv zeta. subst s1.
  cbn [update proxy object calls with_BufferLoc m_BufferLoc m_BufferSizeInBlocks
       m_paBuffer window].
  fold p d.
  set (loc1 := m_BufferLoc p + m_DataSize p).
  set (kk := Z.max 0 (Z.min (m_BufferSizeInBlocks p) (disk_blocks d - loc1))).
  unfold RemainingReadAmount, CopyOut.
  cbn [update proxy object calls with_Point with_DataSize with_window
       with_BufferLoc m_Point m_DataSize m_BlockSize window].
  fold p. rewrite <- Hbs.
  set (bs := m_BlockSize p) in *.
  assert (Hkk : t_n t <= kk * bs /\ 0 < kk /\ kk <= m_BufferSizeInBlocks p
                /\ loc1 + kk <= disk_blocks d
                /\ loc1 * bs = m_BufferLoc p * bs + m_Point p
                /\ 0 <= loc1 * bs /\ 0 <= loc1).
  { subst kk loc1. rewrite Hend. nia. }
  destruct Hkk as (Hk1 & Hk2 & Hk3 & Hk4 & Hk5 & Hk6 & Hk7).
  clearbody kk loc1.
  rewrite Z.min_l by lia. rewrite gtb_true by lia.
  assert (Hload :
    load_at (store_at (window p) 0 (load_at (disk_bytes d) (loc1 * bs) (kk * bs)))
            0 (t_n t)
    = load_at (disk_bytes d) (m_BufferLoc p * bs + m_Point p) (t_n t)).
  { rewrite load_at_store_at_0; [| lia | lia | rewrite length_load_at; nia | nia].
    rewrite load_at_load_at by lia. f_equal. lia. }
  rewrite Hload. eexists. split; [reflexivity|].
  split; [|split; [cbn; fold p bs; lia|done]].
  unfold synced, well_sized, window_allocated, disk_ok, update.
  cbn [proxy object with_Point with_DataSize with_window with_BufferLoc
       m_Point m_DataSize m_BlockSize m_BufferSize m_BufferSizeInBlocks
       m_Flags m_IsDirty m_BufferLoc window
       disk_blockSize disk_blocks disk_bytes disk_pos].
  fold p d bs. rewrite length_store_at.
  repeat split; try done; try lia.
  rewrite load_at_store_at_0; [| lia | nia | rewrite length_load_at; nia | nia].
  rewrite load_at_load_at by nia. f_equal. lia.
Qed.

Lemma store_at_consecutive (dst disk : list byte) (pos r n : Z) :
  Z.of_nat (length dst) = n -> 0 <= pos -> 0 <= r <= n ->
  pos + n <= Z.of_nat (length disk) ->
  store_at (store_at dst 0 (load_at disk pos r)) r
           (load_at disk (pos + r) (n - r))
  = load_at disk pos n.
Proof.
  intros Hdst Hpos Hr Hfit. apply list_eq. intros i.
  rewrite !lookup_store_at by lia.
  rewrite !length_load_at, !length_store_at.
  rewrite !lookup_load_at.
  destruct (decide (i < Z.to_nat n)%nat) as [Hi|Hi].
  - destruct (decide (i < Z.to_nat r)%nat) as [Hlow|Hhigh].
    + rewrite (decide_False (P := ((Z.to_nat r <= i < _)%nat /\ _))) by lia.
      rewrite decide_True by lia. rewrite decide_True by lia. f_equal. lia.
    + rewrite (decide_True (P := ((Z.to_nat r <= i < _)%nat /\ _))) by lia.
      rewrite decide_True by lia. f_equal. lia.
  - rewrite (decide_False (P := ((Z.to_nat r <= i < _)%nat /\ _))) by lia.
    rewrite decide_False by lia. apply lookup_ge_None_2. lia.
Qed.

(** X27. Over the disk, on an engine that is in sync with it, a [Read] of
    fewer bytes than the buffer size that end inside the disk answers [n]
    and gives exactly the [n] bytes of the disk at the current position,
    also when they continue in the next window; afterwards the engine is
    in sync again, [n] bytes further, and the disk is unchanged. *)
Theorem Read_small_synced (s : World Disk) (pDst : Z) (dst : list byte)
    (n : Z) :
  synced s -> 0 < n < m_BufferSize (proxy s) ->
  position (proxy s) + n
  <= disk_blocks (object s) * m_BlockSize (proxy s) ->
  Z.of_nat (length dst) = n ->
  exists s',
    Read s pDst dst n
    = Some (n, load_at (disk_bytes (object s)) (position (proxy s)) n, s')
    /\ synced s' /\ position (proxy s') = position (proxy s) + n
    /\ disk_bytes (object s') = disk_bytes (object s).
Proof.
  intros Hsync Hn Hfit Hdst.
  pose proof Hsync as ((Hblock & Hsize & Hgeo) & Hmem & Hdisk & Hbs & Hfills
                       & Hclean & Hloc & Hds & Hcap & Hpt & Hdata).
  destruct Hdisk as (Hdb & Hpos & Hlen). unfold window_allocated in Hmem.
  set (p := proxy s) in *. set (d := object s) in *.
  assert (Hbytes : 0 <= m_BufferLoc p * m_BlockSize p
                   /\ m_DataSize p * m_BlockSize p <= m_BufferSize p) by nia.
  destruct Hbytes as [Hloc' Hcap'].
  assert (Hdisklen : Z.of_nat (length (disk_bytes d))
                     = disk_blocks d * m_BlockSize p) by (by rewrite Hbs).
  destruct (Z.le_gt_cases n (RemainingReadAmount p)) as [Hhit|Hmiss].
  - (* served from the window *)
    rewrite Read_hit by (done || (fold p; lia)). fold p.
    unfold RemainingReadAmount in Hhit.
    rewrite (load_at_window (window p) (disk_bytes d)
               (m_BufferLoc p * m_BlockSize p)
               (m_DataSize p * m_BlockSize p)) by (done || lia).
    rewrite store_at_all
      by (rewrite length_load_at; unfold position in Hfit; fold p in Hfit; lia).
    eexists. split; [reflexivity|].
    split; [|split; [unfold position; cbn; fold p; lia|done]].
    unfold synced, well_sized, window_allocated, disk_ok, update.
    cbn [proxy object with_Point m_Point m_DataSize m_BlockSize m_BufferSize
         m_BufferSizeInBlocks m_Flags m_IsDirty m_BufferLoc window].
    fold p d. repeat split; try done; lia.
  - unfold RemainingReadAmount in Hmiss.
    unfold Read.
    set (c0 := {| cb_base := pDst; cb_ptr := pDst; cb_bytes := dst |}).
    destruct (Z.eq_dec (m_Point p) (m_DataSize p * m_BlockSize p))
      as [Hend|Hmid].
    + (* nothing is left in the window *)
      unfold Read_available. cbn [t_n t_world t_client t_total].
      fold p. unfold RemainingReadAmount.
      rewrite gtb_false by lia.
      unfold Read_blocks. cbn [t_n t_world]. fold p.
      rewrite geb_false by lia.
      destruct (Read_rest_synced
                  {| t_world := s; t_client := c0; t_total := 0; t_n := n |})
        as (s' & Hrest & Hsync' & Hpos' & Hbytes');
        cbn [t_world t_n]; try done; try (fold p; lia).
      rewrite Hrest. cbn [t_total t_client t_world t_n] in *.
      unfold cb_advance, cb_store, cb_offset, c0.
      cbn [cb_bytes cb_base cb_ptr]. rewrite Z.sub_diag.
      rewrite store_at_all
        by (rewrite length_load_at; unfold position in Hfit |- *;
            fold p d in Hfit |- *; lia).
      exists s'. done.
    + (* the rest of the window, then the next window *)
      set (r := m_DataSize p * m_BlockSize p - m_Point p) in *.
      unfold Read_available. cbn [t_n t_world t_client t_total].
      fold p. unfold RemainingReadAmount. fold r.
      rewrite Z.min_r, gtb_true by lia.
      unfold CopyOut. fold p.
      unfold Read_blocks. cbn [t_n t_world]. 
      rewrite geb_false by (unfold update; cbn [proxy with_Point m_BufferSize];
                            fold p; lia).
      set (s1 := update (with_Point (m_Point p + r)) s).
      assert (Hs1 : synced s1).
      { unfold synced, well_sized, window_allocated, disk_ok, s1, update.
        cbn [proxy object with_Point m_Point m_DataSize m_BlockSize
             m_BufferSize m_BufferSizeInBlocks m_Flags m_IsDirty m_BufferLoc
             window].
        fold p d. repeat split; try done; lia. }
      destruct (Read_rest_synced
                  {| t_world := s1;
                     t_client := cb_advance
                                   (cb_store c0
                                      (load_at (window p) (m_Point p) r)) r;
                     t_total := 0 + r; t_n := n - r |})
        as (s' & Hrest & Hsync' & Hpos' & Hbytes');
        cbn [t_world t_n]; try done;
        try (unfold position, s1, update;
             cbn [proxy object with_Point m_Point m_DataSize m_BlockSize
                  m_BufferSize m_BufferLoc];
             unfold position in Hfit; fold p d in Hfit |- *; lia).
      rewrite Hrest. cbn [t_total t_client t_world t_n] in *.
      exists s'. split; [|split; [done|split]].
      * unfold cb_advance, cb_store, cb_offset, c0.
        cbn [cb_bytes cb_base cb_ptr]. rewrite Z.sub_diag.
        replace (pDst + r - pDst) with r by lia.
        unfold position, s1, update.
        cbn [proxy object with_Point m_Point m_BlockSize m_BufferLoc].
        fold p d.
        rewrite (load_at_window (window p) (disk_bytes d)
                   (m_BufferLoc p * m_BlockSize p)
                   (m_DataSize p * m_BlockSize p)) by (done || lia).
        replace (m_BufferLoc p * m_BlockSize p + (m_Point p + r))
          with (m_BufferLoc p * m_BlockSize p + m_Point p + r) by lia.
        rewrite store_at_consecutive
          by (unfold position in Hfit; fold p d in Hfit; lia).
        do 3 f_equal; lia.
      * rewrite Hpos'. unfold position, s1, update.
        cbn [proxy with_Point m_Point m_BlockSize m_BufferLoc]. fold p. lia.
      * rewrite Hbytes'. done.
Qed.

Lemma Seek_disk_miss (s : World Disk) (L k : Z) :
  let p := proxy s in
  let d := object s in
  let block := Z.quot (sector_floor (2 ^ k) L) (m_BlockSize p) in
  let kk := Z.max 0 (Z.min (m_BufferSizeInBlocks p) (disk_blocks d - block)) in
  0 < m_BlockSize p -> m_BlockSize p = disk_blockSize d ->
  Z.land (m_Flags p) CF_NO_FILLS = 0 -> m_IsDirty p = false ->
  ~ within_window p L ->
  0 <= k <= 31 -> m_SectorAlign p = 2 ^ k - 1 ->
  0 <= L -> block <= disk_blocks d ->
  Seek s L
  = (L,
     {| proxy :=
          with_Point (L - block * m_BlockSize p)
            (with_DataSize kk
               (with_window
                  (store_at (window p) 0
                     (load_at (disk_bytes d) (block * m_BlockSize p)
                              (kk * m_BlockSize p)))
                  (with_BufferLoc block p)));
        object :=
          {| disk_blockSize := disk_blockSize d; disk_blocks := disk_blocks d;
             disk_bytes := disk_bytes d; disk_pos := block + kk |};
        calls := calls s ++ [CallSeek block block; CallSeek block block;
                             CallRead (m_paBuffer p) (m_BufferSizeInBlocks p)
                                      kk] |}).
Proof.
  intros p d block kk Hblock Hbs Hfills Hclean Hout Hk Hsa HL Hcap.
  assert (Hpow : 1 <= 2 ^ k <= 2 ^ 31) by (by apply pow2_le_31).
  assert (H0 : 0 <= block).
  { subst block. apply Z.quot_pos; [|lia].
    apply sector_floor_nonneg; lia. }
  unfold Seek. fold p.
  destruct ((L >=? m_BufferLoc p * m_BlockSize p)
            && (L <? (m_BufferLoc p + m_DataSize p) * m_BlockSize p))
    eqn:Htest; [by apply within_window_test in Htest|].
  rewrite Flush_idle by (by left).
  fold p. rewrite Hsa, to_int_small by lia.
  rewrite _HighestMultiplePowerOf2_floor by lia. fold block.
  unfold call_Seek. cbn [obj_Seek Disk_BufferedObject].
  rewrite disk_Seek_inside by (fold d; lia).
  rewrite Fill_disk; cbn [update proxy object calls with_BufferLoc m_Flags
                          m_BufferLoc disk_blocks]; [|done|fold d; lia].
  cbv zeta.
  cbn [update proxy object calls with_BufferLoc with_Point with_DataSize
       with_window m_Flags m_BufferLoc m_BufferSizeInBlocks m_BlockSize
       m_Point m_paBuffer window
       disk_blocks disk_blockSize disk_bytes disk_pos].
  fold p d. fold kk. rewrite <- Hbs, <- app_assoc. cbn [app].
  reflexivity.
Qed.

(** X28. Over the disk, on an engine that is in sync with it, a [Seek] to
    a location [L >= 0] that lies in the window, or in the window that is
    filled at the sector-aligned floor of [L], answers [L] and leaves the
    engine in sync at position [L]; the disk is unchanged. *)
Theorem Seek_synced (s : World Disk) (L k : Z) :
  let p := proxy s in
  let d := object s in
  let block := Z.quot (sector_floor (2 ^ k) L) (m_BlockSize p) in
  synced s -> 0 <= k <= 31 -> m_SectorAlign p = 2 ^ k - 1 -> 0 <= L ->
  within_window p L
  \/ L <= Z.min (block + m_BufferSizeInBlocks p) (disk_blocks d)
          * m_BlockSize p ->
  exists s',
    Seek s L = (L, s') /\ synced s' /\ position (proxy s') = L
    /\ disk_bytes (object s') = disk_bytes d.
Proof.
  intros p d block Hsync Hk Hsa HL Hwhere.
  pose proof Hsync as ((Hblock & Hsize & Hgeo) & Hmem & Hdisk & Hbs & Hfills
                       & Hclean & Hloc & Hds & Hcap & Hpt & Hdata).
  destruct Hdisk as (Hdb & Hpos & Hlen). unfold window_allocated in Hmem.
  fold p d in Hblock, Hsize, Hgeo, Hmem, Hdb, Hpos, Hlen, Hbs, Hfills,
              Hclean, Hloc, Hds, Hcap, Hpt, Hdata.
  destruct (decide (within_window p L)) as [Hin|Hout].
  - (* the location is in the window *)
    unfold Seek. fold p.
    rewrite (proj2 (within_window_test p L) Hin).
    unfold within_window in Hin.
    eexists. split; [reflexivity|].
    split; [|split; [unfold position; cbn; fold p; lia|done]].
    unfold synced, well_sized, window_allocated, disk_ok, update.
    cbn [proxy object with_Point m_Point m_DataSize m_BlockSize m_BufferSize
         m_BufferSizeInBlocks m_Flags m_IsDirty m_BufferLoc window].
    fold p d. repeat split; try done; lia.
  - destruct Hwhere as [?|Hfit]; [done|].
    assert (Hpow : 1 <= 2 ^ k <= 2 ^ 31) by (by apply pow2_le_31).
    pose proof (sector_floor_nonneg (2 ^ k) L ltac:(lia) HL) as Hfloor.
    assert (Hb : 0 <= block /\ block * m_BlockSize p <= L).
    { subst block. split; [apply Z.quot_pos; lia|].
      pose proof (Z.mul_quot_le (sector_floor (2 ^ k) L) (m_BlockSize p)
                    ltac:(lia) ltac:(lia)). lia. }
    assert (Hcap' : block <= disk_blocks d) by nia.
    rewrite (Seek_disk_miss s L k) by (done || (fold p d block; lia)).
    fold p d block. clearbody block.
    set (kk := Z.max 0 (Z.min (m_BufferSizeInBlocks p) (disk_blocks d - block)))
      in *.
    assert (Hkk : L <= (block + kk) * m_BlockSize p /\ 0 <= kk
                  /\ kk <= m_BufferSizeInBlocks p
                  /\ block + kk <= disk_blocks d).
    { subst kk.
      replace (Z.min (block + m_BufferSizeInBlocks p) (disk_blocks d))
        with (block + Z.min (m_BufferSizeInBlocks p) (disk_blocks d - block))
        in Hfit by lia.
      nia. }
    destruct Hkk as (Hfit' & Hkpos & Hkle & Hkcap). clearbody kk.
    eexists. split; [reflexivity|].
    split; [|split; [unfold position; cbn; fold p; lia|done]].
    unfold synced, well_sized, window_allocated, disk_ok.
    cbn [proxy object with_Point with_DataSize with_window with_BufferLoc
         m_Point m_DataSize m_BlockSize m_BufferSize m_BufferSizeInBlocks
         m_Flags m_IsDirty m_BufferLoc window
         disk_blockSize disk_blocks disk_bytes disk_pos].
    fold p d. rewrite length_store_at.
    repeat split; try done; try lia; try nia.
    rewrite load_at_store_at_0; [| lia | nia | rewrite length_load_at; nia | nia].
    rewrite load_at_load_at by nia. f_equal. lia.
Qed.

(** ** Witnesses of the further properties *)

Lemma written_100_proxy :
  proxy written_100
  = with_DataSize 1
      (with_IsDirty true (with_Point 100 (engine_at_65536 0))).
Proof. vm_compute. reflexivity. Qed.

Lemma ctor_positive_arguments_witness :
  0 < 512 < 2 ^ 31 /\ 0 < 1 < 2 ^ 31 /\ 0 < 512
  /\ power_of_two 512 /\ (512 | 4096).
Proof.
  assert (H1 : 0 < 512 < 2 ^ 31) by lia.
  assert (H2 : 0 < 1 < 2 ^ 31) by lia.
  assert (H3 : 0 < 512) by lia.
  repeat (split; [assumption|]).
  pose proof (ctor_positive_arguments 65536 (zeros 4096) 4096 7 0 512 512 1
                H1 H2 H3) as Hc.
  rewrite engine_4096_constructed in Hc. cbv zeta in Hc.
  exact (conj (proj1 Hc) (proj1 (proj2 (proj2 Hc)))).
Defined.

Lemma IsPowerOf2_nonnegative_witness :
  0 <= 512 < 2 ^ 31
  /\ (_IsPowerOf2 512 = true <-> 512 = 0 \/ power_of_two 512).
Proof.
  assert (H1 : 0 <= 512 < 2 ^ 31) by lia.
  split; [exact H1|exact (IsPowerOf2_nonnegative 512 H1)].
Defined.

Lemma IsAligned_divides_witness :
  0 <= 9 /\ (_IsAligned 65536 (2 ^ 9 - 1) = true <-> (2 ^ 9 | 65536)).
Proof.
  assert (H1 : 0 <= 9) by lia.
  split; [exact H1|exact (IsAligned_divides 65536 9 H1)].
Defined.

Lemma HighestMultiple_bounds_witness :
  int_rem (-10000) 4096 <> None
  /\ (4096 | _HighestMultiple (-10000) 4096)
  /\ (-10000 <= 0 -> -10000 <= _HighestMultiple (-10000) 4096 <= 0).
Proof.
  assert (H1 : int_rem (-10000) 4096 <> None) by (vm_compute; discriminate).
  split; [exact H1|].
  pose proof (HighestMultiple_bounds (-10000) 4096 H1) as Hb.
  exact (conj (proj1 Hb) (proj2 (proj2 (proj2 Hb)))).
Defined.

Lemma HighestMultiplePowerOf2_bounds_witness :
  0 <= 9
  /\ (2 ^ 9 | _HighestMultiplePowerOf2 (-10000) (2 ^ 9 - 1))
  /\ _HighestMultiplePowerOf2 (-10000) (2 ^ 9 - 1) <= -10000
     < _HighestMultiplePowerOf2 (-10000) (2 ^ 9 - 1) + 2 ^ 9.
Proof.
  assert (H1 : 0 <= 9) by lia.
  split; [exact H1|exact (HighestMultiplePowerOf2_bounds (-10000) 9 H1)].
Defined.

Lemma Pad_bounds_witness :
  0 <= 4096 /\ 0 < 512 /\ _HighestMultiple 4096 512 + 512 < 2 ^ 31
  /\ (512 | _Pad 4096 512) /\ 4096 < _Pad 4096 512 <= 4096 + 512.
Proof.
  assert (H1 : 0 <= 4096) by lia.
  assert (H2 : 0 < 512) by lia.
  assert (H3 : _HighestMultiple 4096 512 + 512 < 2 ^ 31)
    by (vm_compute; reflexivity).
  split; [exact H1|]. split; [exact H2|]. split; [exact H3|].
  exact (Pad_bounds 4096 512 H1 H2 H3).
Defined.

Lemma PadPowerOf2_bounds_witness :
  0 <= 9 /\ 0 <= 4097 /\ 4097 + 2 ^ 9 - 1 < 2 ^ 32
  /\ (2 ^ 9 | _PadPowerOf2 4097 (2 ^ 9 - 1))
  /\ 4097 <= _PadPowerOf2 4097 (2 ^ 9 - 1) < 4097 + 2 ^ 9.
Proof.
  assert (H1 : 0 <= 9) by lia.
  assert (H2 : 0 <= 4097) by lia.
  assert (H3 : 4097 + 2 ^ 9 - 1 < 2 ^ 32) by lia.
  split; [exact H1|]. split; [exact H2|]. split; [exact H3|].
  exact (PadPowerOf2_bounds 4097 9 H1 H2 H3).
Defined.

Lemma ctor_builds_consistent_engine_witness :
  BufferedProxy_ctor 65536 (zeros 4096) 4096 7 0 512 512 1
  = Constructed (engine_at_65536 0)
  /\ m_BufferSizeInBlocks (engine_at_65536 0) * m_BlockSize (engine_at_65536 0)
     = m_BufferSize (engine_at_65536 0)
  /\ RemainingWriteSpace (engine_at_65536 0) = 4096.
Proof.
  assert (H1 : BufferedProxy_ctor 65536 (zeros 4096) 4096 7 0 512 512 1
               = Constructed (engine_at_65536 0))
    by (vm_compute; reflexivity).
  split; [exact H1|].
  pose proof (ctor_builds_consistent_engine _ _ _ _ _ _ _ _ _ H1) as Hb.
  exact (conj (proj1 (proj2 (proj2 (proj2 Hb))))
              (proj1 (proj2 (proj2 (proj2 (proj2 (proj2 Hb))))))).
Defined.

Lemma run_keeps_config_witness :
  run (attach (engine_at_65536 0) (new_disk 512 20 (zeros 10240)))
      [DoWrite 131072 (zeros 100) 100]
  = Some written_100
  /\ config (proxy written_100) = config (engine_at_65536 0).
Proof.
  assert (H1 : run (attach (engine_at_65536 0)
                           (new_disk 512 20 (zeros 10240)))
                   [DoWrite 131072 (zeros 100) 100]
               = Some written_100) by (vm_compute; reflexivity).
  split; [exact H1|exact (run_keeps_config _ _ _ H1)].
Defined.

Lemma Read_served_from_window_witness :
  0 < m_BufferSize (proxy written_100)
  /\ 0 <= m_Point (proxy written_100)
  /\ int_range (m_DataSize (proxy written_100)
                * m_BlockSize (proxy written_100))
  /\ 0 < 10 <= RemainingReadAmount (proxy written_100)
  /\ m_Point (proxy written_100) + 10
     <= Z.of_nat (length (window (proxy written_100)))
  /\ 10 <= Z.of_nat (length (zeros 10))
  /\ exists s',
       Read written_100 196608 (zeros 10) 10
       = Some (10,
               store_at (zeros 10) 0
                 (load_at (window (proxy written_100))
                          (m_Point (proxy written_100)) 10),
               s')
       /\ calls s' = calls written_100.
Proof.
  assert (H1 : 0 < m_BufferSize (proxy written_100))
    by (vm_compute; reflexivity).
  assert (H2 : 0 <= m_Point (proxy written_100))
    by (vm_compute; discriminate).
  assert (H3 : int_range (m_DataSize (proxy written_100)
                          * m_BlockSize (proxy written_100)))
    by (rewrite written_100_proxy; vm_compute; split; [discriminate|reflexivity]).
  assert (H4 : 0 < 10 <= RemainingReadAmount (proxy written_100))
    by (rewrite written_100_proxy; vm_compute; split; [reflexivity|discriminate]).
  assert (H5 : m_Point (proxy written_100) + 10
               <= Z.of_nat (length (window (proxy written_100))))
    by (vm_compute; discriminate).
  assert (H6 : 10 <= Z.of_nat (length (zeros 10)))
    by (vm_compute; discriminate).
  repeat (split; [assumption|]).
  destruct (Read_served_from_window written_100 196608 (zeros 10) 10
              H1 H2 H3 H4 H5 H6) as (s' & Hr & Hc & _).
  exact (ex_intro _ s' (conj Hr Hc)).
Defined.


Lemma written_bytes_read_back_witness :
  well_sized (proxy written_100) /\ window_allocated (proxy written_100)
  /\ within_bounds (proxy written_100)
  /\ window_representable (proxy written_100)
  /\ 0 < 10 <= RemainingWriteSpace (proxy written_100)
  /\ 10 <= Z.of_nat (length (pattern 10))
  /\ 10 <= Z.of_nat (length (zeros 10))
  /\ exists s1 s2,
       Write written_100 131072 (pattern 10) 10 = Some (10, s1)
       /\ Seek s1 (m_BufferLoc (proxy written_100)
                   * m_BlockSize (proxy written_100)
                   + m_Point (proxy written_100))
          = (m_BufferLoc (proxy written_100) * m_BlockSize (proxy written_100)
             + m_Point (proxy written_100), s2)
       /\ Read s2 196608 (zeros 10) 10
          = Some (10, store_at (zeros 10) 0 (load_at (pattern 10) 0 10),
                  update (with_Point (m_Point (proxy written_100) + 10)) s2)
       /\ calls s2 = calls written_100 /\ object s2 = object written_100.
Proof.
  assert (H1 : well_sized (proxy written_100))
    by (rewrite written_100_proxy; vm_compute; repeat split; reflexivity).
  assert (H2 : window_allocated (proxy written_100))
    by (vm_compute; reflexivity).
  assert (H3 : within_bounds (proxy written_100))
    by (rewrite written_100_proxy; vm_compute; repeat split; discriminate).
  assert (H4 : window_representable (proxy written_100))
    by (rewrite written_100_proxy; vm_compute; split; discriminate).
  assert (H5 : 0 < 10 <= RemainingWriteSpace (proxy written_100))
    by (rewrite written_100_proxy; vm_compute; split; [reflexivity|discriminate]).
  assert (H6 : 10 <= Z.of_nat (length (pattern 10)))
    by (vm_compute; discriminate).
  assert (H7 : 10 <= Z.of_nat (length (zeros 10)))
    by (vm_compute; discriminate).
  repeat (split; [assumption|]).
  exact (written_bytes_read_back written_100 131072 (pattern 10) 196608
           (zeros 10) 10 H1 H2 H3 H4 H5 H6 H7).
Defined.

Lemma Write_small_keeps_location_witness :
  100 < m_BufferSize (proxy written_100)
  /\ exists r s',
       Write written_100 131072 (pattern 100) 100 = Some (r, s')
       /\ m_BufferLoc (proxy s') = m_BufferLoc (proxy written_100).
Proof.
  assert (H1 : 100 < m_BufferSize (proxy written_100))
    by (vm_compute; reflexivity).
  split; [exact H1|].
  exact (Write_small_keeps_location written_100 131072 (pattern 100) 100 H1).
Defined.

Lemma Write_at_end_wraps_witness :
  well_sized (proxy (written_4096 0))
  /\ m_Point (proxy (written_4096 0)) = m_BufferSize (proxy (written_4096 0))
  /\ Z.land (m_Flags (proxy (written_4096 0))) CF_NO_FILLS = 0
  /\ 0 < 100 < m_BufferSize (proxy (written_4096 0))
  /\ exists s',
       Write (written_4096 0) 131072 (zeros 100) 100 = Some (100, s')
       /\ m_BufferLoc (proxy s') = m_BufferLoc (proxy (written_4096 0))
       /\ m_Point (proxy s') = 100.
Proof.
  assert (H1 : well_sized (proxy (written_4096 0)))
    by (vm_compute; repeat split; reflexivity).
  assert (H2 : m_Point (proxy (written_4096 0))
               = m_BufferSize (proxy (written_4096 0)))
    by (vm_compute; reflexivity).
  assert (H3 : Z.land (m_Flags (proxy (written_4096 0))) CF_NO_FILLS = 0)
    by (vm_compute; reflexivity).
  assert (H4 : 0 < 100 < m_BufferSize (proxy (written_4096 0)))
    by (vm_compute; split; reflexivity).
  repeat (split; [assumption|]).
  destruct (Write_at_end_wraps (written_4096 0) 131072 (zeros 100) 100
              H1 H2 H3 H4) as (s' & Hw & Hloc & Hpt & _).
  exact (ex_intro _ s' (conj Hw (conj Hloc Hpt))).
Defined.

Lemma Write_at_end_without_fills_writes_nothing_witness :
  well_sized (proxy (written_4096 CF_NO_FILLS))
  /\ m_Point (proxy (written_4096 CF_NO_FILLS))
     = m_BufferSize (proxy (written_4096 CF_NO_FILLS))
  /\ Z.land (m_Flags (proxy (written_4096 CF_NO_FILLS))) CF_NO_FILLS <> 0
  /\ 0 < 100 < m_BufferSize (proxy (written_4096 CF_NO_FILLS))
  /\ Write (written_4096 CF_NO_FILLS) 131072 (zeros 100) 100
     = Some (0, Flush (written_4096 CF_NO_FILLS)).
Proof.
  assert (H1 : well_sized (proxy (written_4096 CF_NO_FILLS)))
    by (vm_compute; repeat split; reflexivity).
  assert (H2 : m_Point (proxy (written_4096 CF_NO_FILLS))
               = m_BufferSize (proxy (written_4096 CF_NO_FILLS)))
    by (vm_compute; reflexivity).
  assert (H3 : Z.land (m_Flags (proxy (written_4096 CF_NO_FILLS))) CF_NO_FILLS
               <> 0)
    by (vm_compute; discriminate).
  assert (H4 : 0 < 100 < m_BufferSize (proxy (written_4096 CF_NO_FILLS)))
    by (vm_compute; split; reflexivity).
  repeat (split; [assumption|]).
  exact (Write_at_end_without_fills_writes_nothing
           (written_4096 CF_NO_FILLS) 131072 (zeros 100) 100 H1 H2 H3 H4).
Defined.

Lemma Write_count_bounds_witness :
  modest Disk /\ 0 < m_BufferSize (proxy written_100)
  /\ 0 < m_BlockSize (proxy written_100)
  /\ exists r s',
       Write written_100 131072 (pattern 10000) 10000 = Some (r, s')
       /\ 0 <= r <= Z.max 0 10000.
Proof.
  assert (H1 : 0 < m_BufferSize (proxy written_100))
    by (vm_compute; reflexivity).
  assert (H2 : 0 < m_BlockSize (proxy written_100))
    by (vm_compute; reflexivity).
  split; [exact Disk_modest|]. split; [exact H1|]. split; [exact H2|].
  exact (Write_count_bounds written_100 131072 (pattern 10000) 10000
           Disk_modest H1 H2).
Defined.

Lemma Read_count_bounds_witness :
  modest Disk /\ well_sized (proxy written_100)
  /\ within_bounds (proxy written_100)
  /\ exists r out s',
       Read written_100 196608 (zeros 10000) 10000 = Some (r, out, s')
       /\ 0 <= r <= Z.max 0 10000 /\ within_bounds (proxy s').
Proof.
  assert (H1 : well_sized (proxy written_100))
    by (rewrite written_100_proxy; vm_compute; repeat split; reflexivity).
  assert (H2 : within_bounds (proxy written_100))
    by (rewrite written_100_proxy; vm_compute; repeat split; discriminate).
  split; [exact Disk_modest|]. split; [exact H1|]. split; [exact H2|].
  exact (Read_count_bounds written_100 196608 (zeros 10000) 10000
           Disk_modest H1 H2).
Defined.

Lemma run_of_reads_total_witness :
  modest Disk /\ well_sized (proxy written_100)
  /\ within_bounds (proxy written_100)
  /\ forallb is_reading
       [DoRead 196608 (zeros 10000) 10000; DoFlush; DoFill;
        DoRead 196608 (zeros 100) 100] = true
  /\ exists s',
       run written_100
           [DoRead 196608 (zeros 10000) 10000; DoFlush; DoFill;
            DoRead 196608 (zeros 100) 100]
       = Some s'
       /\ within_bounds (proxy s').
Proof.
  assert (H1 : well_sized (proxy written_100))
    by (rewrite written_100_proxy; vm_compute; repeat split; reflexivity).
  assert (H2 : within_bounds (proxy written_100))
    by (rewrite written_100_proxy; vm_compute; repeat split; discriminate).
  assert (H3 : forallb is_reading
                 [DoRead 196608 (zeros 10000) 10000; DoFlush; DoFill;
                  DoRead 196608 (zeros 100) 100] = true) by reflexivity.
  split; [exact Disk_modest|]. split; [exact H1|]. split; [exact H2|].
  split; [exact H3|].
  exact (run_of_reads_total _ written_100 Disk_modest H1 H2 H3).
Defined.

Lemma Write_loop_never_ends_witness :
  BufferedProxy_ctor 65536 [] 0 7 CF_NO_DIRECT_IO 512 512 1
  = Constructed engine_0
  /\ m_BufferSize (proxy (t_world empty_buffer_start)) = 0
  /\ 0 <= t_n empty_buffer_start
  /\ forall budget, Write_loop budget empty_buffer_start = None.
Proof.
  assert (H0 : BufferedProxy_ctor 65536 [] 0 7 CF_NO_DIRECT_IO 512 512 1
               = Constructed engine_0) by (vm_compute; reflexivity).
  assert (H1 : m_BufferSize (proxy (t_world empty_buffer_start)) = 0)
    by (vm_compute; reflexivity).
  assert (H2 : 0 <= t_n empty_buffer_start) by (vm_compute; discriminate).
  split; [exact H0|]. split; [exact H1|]. split; [exact H2|].
  exact (Write_loop_never_ends empty_buffer_start H1 H2).
Defined.

Lemma CopyIn_covers_cursor_witness :
  0 < m_BlockSize (proxy written_100)
  /\ 0 <= m_Point (proxy written_100) + 1000
  /\ m_Point (proxy (CopyIn written_100
                       {| cb_base := 131072; cb_ptr := 131072;
                          cb_bytes := pattern 1000 |} 1000).1)
     <= m_DataSize (proxy (CopyIn written_100
                             {| cb_base := 131072; cb_ptr := 131072;
                                cb_bytes := pattern 1000 |} 1000).1)
        * m_BlockSize (proxy written_100).
Proof.
  assert (H1 : 0 < m_BlockSize (proxy written_100))
    by (vm_compute; reflexivity).
  assert (H2 : 0 <= m_Point (proxy written_100) + 1000)
    by (vm_compute; discriminate).
  split; [exact H1|]. split; [exact H2|].
  exact (proj1 (proj2 (CopyIn_covers_cursor written_100
                         {| cb_base := 131072; cb_ptr := 131072;
                            cb_bytes := pattern 1000 |} 1000 H1 H2))).
Defined.

Lemma fresh_on_pattern_ok :
  well_sized (proxy fresh_on_pattern)
  /\ window_allocated (proxy fresh_on_pattern)
  /\ disk_ok (object fresh_on_pattern)
  /\ m_BlockSize (proxy fresh_on_pattern)
     = disk_blockSize (object fresh_on_pattern)
  /\ Z.land (m_Flags (proxy fresh_on_pattern)) CF_NO_FILLS = 0
  /\ m_DataSize (proxy fresh_on_pattern) = 0
  /\ m_SectorAlign (proxy fresh_on_pattern) = 2 ^ 9 - 1
  /\ 5000 + 100
     <= Z.min (Z.quot (sector_floor (2 ^ 9) 5000)
                      (m_BlockSize (proxy fresh_on_pattern))
               + m_BufferSizeInBlocks (proxy fresh_on_pattern))
              (disk_blocks (object fresh_on_pattern))
        * m_BlockSize (proxy fresh_on_pattern).
Proof.
  vm_compute. repeat split; try reflexivity; discriminate.
Qed.

Lemma Seek_then_Read_gives_disk_bytes_witness :
  0 <= 9 <= 31 /\ 0 <= 5000 /\ 0 < 100
  /\ exists s',
       Read (Seek fresh_on_pattern 5000).2 196608 (zeros 100) 100
       = Some (100,
               store_at (zeros 100) 0
                 (load_at (disk_bytes (object fresh_on_pattern)) 5000 100),
               s')
       /\ disk_bytes (object s') = disk_bytes (object fresh_on_pattern).
Proof.
  assert (H1 : 0 <= 9 <= 31) by lia.
  assert (H2 : 0 <= 5000) by lia.
  assert (H3 : 0 < 100) by lia.
  split; [exact H1|]. split; [exact H2|]. split; [exact H3|].
  destruct fresh_on_pattern_ok as (A & B & C & E & F & G & I & J).
  exact (Seek_then_Read_gives_disk_bytes fresh_on_pattern 5000 9 100 196608
           (zeros 100) A B C E F G H1 I H2 H3 J).
Defined.

Lemma written_bytes_reach_disk_witness :
  0 <= 9 <= 31 /\ 0 <= 5000 /\ 0 < 100 <= Z.of_nat (length (zeros 100))
  /\ exists s',
       Write (Seek fresh_on_pattern 5000).2 131072 (zeros 100) 100
       = Some (100, s')
       /\ disk_bytes (object s') = disk_bytes (object fresh_on_pattern)
       /\ disk_bytes (object (BufferedProxy_dtor s'))
          = store_at (disk_bytes (object fresh_on_pattern)) 5000
                     (load_at (zeros 100) 0 100)
       /\ m_IsDirty (proxy (BufferedProxy_dtor s')) = false.
Proof.
  assert (H1 : 0 <= 9 <= 31) by lia.
  assert (H2 : 0 <= 5000) by lia.
  assert (H3 : 0 < 100 <= Z.of_nat (length (zeros 100)))
    by (vm_compute; split; [reflexivity|discriminate]).
  split; [exact H1|]. split; [exact H2|]. split; [exact H3|].
  destruct fresh_on_pattern_ok as (A & B & C & E & F & G & I & J).
  exact (written_bytes_reach_disk fresh_on_pattern 5000 9 100 131072
           (zeros 100) A B C E F G H1 I H2 H3 J).
Defined.

Lemma Read_direct_witness :
  0 < m_BufferSize (proxy fresh_on_pattern)
  /\ m_BufferSize (proxy fresh_on_pattern) <= 8192
  /\ RemainingReadAmount (proxy fresh_on_pattern) <= 0
  /\ m_IsDirty (proxy fresh_on_pattern) = false
  /\ Z.land (m_Flags (proxy fresh_on_pattern)) CF_NO_DIRECT_IO = 0
  /\ _IsAligned (to_unsigned 196608)
                (m_BufferAlign (proxy fresh_on_pattern)) = true
  /\ (obj_Read (object fresh_on_pattern) (m_Handle (proxy fresh_on_pattern))
               196608
               (Z.quot (_HighestMultiple 8192
                          (m_BufferSize (proxy fresh_on_pattern)))
                       (m_BlockSize (proxy fresh_on_pattern)))).2
     * m_BlockSize (proxy fresh_on_pattern) = 8192
  /\ exists out s',
       Read fresh_on_pattern 196608 (zeros 8192) 8192 = Some (8192, out, s')
       /\ calls s' = [CallRead 196608 16 16].
Proof.
  assert (H1 : 0 < m_BufferSize (proxy fresh_on_pattern))
    by (vm_compute; reflexivity).
  assert (H2 : m_BufferSize (proxy fresh_on_pattern) <= 8192)
    by (vm_compute; discriminate).
  assert (H3 : RemainingReadAmount (proxy fresh_on_pattern) <= 0)
    by (vm_compute; discriminate).
  assert (H4 : m_IsDirty (proxy fresh_on_pattern) = false) by reflexivity.
  assert (H5 : Z.land (m_Flags (proxy fresh_on_pattern)) CF_NO_DIRECT_IO = 0)
    by reflexivity.
  assert (H6 : _IsAligned (to_unsigned 196608)
                 (m_BufferAlign (proxy fresh_on_pattern)) = true)
    by (vm_compute; reflexivity).
  assert (H7 : (obj_Read (object fresh_on_pattern)
                  (m_Handle (proxy fresh_on_pattern)) 196608
                  (Z.quot (_HighestMultiple 8192
                             (m_BufferSize (proxy fresh_on_pattern)))
                          (m_BlockSize (proxy fresh_on_pattern)))).2
               * m_BlockSize (proxy fresh_on_pattern) = 8192)
    by (vm_compute; reflexivity).
  repeat (split; [assumption|]).
  eexists _, _. split.
  - exact (Read_direct fresh_on_pattern 196608 (zeros 8192) 8192
             H1 H2 H3 H4 H5 H6 H7).
  - vm_compute. reflexivity.
Defined.

Lemma Write_direct_witness :
  0 < m_BufferSize (proxy flushed_4096)
  /\ m_BufferSize (proxy flushed_4096) <= 4096
  /\ RemainingWriteSpace (proxy flushed_4096) <= 0
  /\ m_IsDirty (proxy flushed_4096) = false
  /\ Z.land (m_Flags (proxy flushed_4096)) CF_NO_DIRECT_IO = 0
  /\ _IsAligned (to_unsigned 131072) (m_BufferAlign (proxy flushed_4096))
     = true
  /\ (obj_Write (object flushed_4096) (m_Handle (proxy flushed_4096))
                131072 (pattern 4096)
                (Z.quot (_HighestMultiple 4096
                           (m_BufferSize (proxy flushed_4096)))
                        (m_BlockSize (proxy flushed_4096)))).2
     * m_BlockSize (proxy flushed_4096) = 4096
  /\ exists s',
       Write flushed_4096 131072 (pattern 4096) 4096 = Some (4096, s')
       /\ calls s' = calls flushed_4096 ++ [CallWrite 131072 8 8].
Proof.
  assert (H1 : 0 < m_BufferSize (proxy flushed_4096))
    by (vm_compute; reflexivity).
  assert (H2 : m_BufferSize (proxy flushed_4096) <= 4096)
    by (vm_compute; discriminate).
  assert (H3 : RemainingWriteSpace (proxy flushed_4096) <= 0)
    by (vm_compute; discriminate).
  assert (H4 : m_IsDirty (proxy flushed_4096) = false)
    by (vm_compute; reflexivity).
  assert (H5 : Z.land (m_Flags (proxy flushed_4096)) CF_NO_DIRECT_IO = 0)
    by (vm_compute; reflexivity).
  assert (H6 : _IsAligned (to_unsigned 131072)
                 (m_BufferAlign (proxy flushed_4096)) = true)
    by (vm_compute; reflexivity).
  assert (H7 : (obj_Write (object flushed_4096)
                  (m_Handle (proxy flushed_4096)) 131072 (pattern 4096)
                  (Z.quot (_HighestMultiple 4096
                             (m_BufferSize (proxy flushed_4096)))
                          (m_BlockSize (proxy flushed_4096)))).2
               * m_BlockSize (proxy flushed_4096) = 4096)
    by (vm_compute; reflexivity).
  repeat (split; [assumption|]).
  eexists. split.
  - exact (Write_direct flushed_4096 131072 (pattern 4096) 4096
             H1 H2 H3 H4 H5 H6 H7).
  - vm_compute. reflexivity.
Defined.

Lemma fresh_on_pattern_synced : synced fresh_on_pattern.
Proof. vm_compute. repeat split; try reflexivity; discriminate. Qed.

Lemma Read_small_synced_witness :
  synced fresh_on_pattern
  /\ 0 < 100 < m_BufferSize (proxy fresh_on_pattern)
  /\ position (proxy fresh_on_pattern) + 100
     <= disk_blocks (object fresh_on_pattern)
        * m_BlockSize (proxy fresh_on_pattern)
  /\ Z.of_nat (length (zeros 100)) = 100
  /\ exists s',
       Read fresh_on_pattern 196608 (zeros 100) 100
       = Some (100,
               load_at (disk_bytes (object fresh_on_pattern))
                       (position (proxy fresh_on_pattern)) 100, s')
       /\ synced s'
       /\ position (proxy s') = position (proxy fresh_on_pattern) + 100
       /\ disk_bytes (object s') = disk_bytes (object fresh_on_pattern).
Proof.
  assert (H1 : 0 < 100 < m_BufferSize (proxy fresh_on_pattern))
    by (vm_compute; split; reflexivity).
  assert (H2 : position (proxy fresh_on_pattern) + 100
               <= disk_blocks (object fresh_on_pattern)
                  * m_BlockSize (proxy fresh_on_pattern))
    by (vm_compute; discriminate).
  assert (H3 : Z.of_nat (length (zeros 100)) = 100)
    by (vm_compute; reflexivity).
  split; [exact fresh_on_pattern_synced|].
  repeat (split; [assumption|]).
  exact (Read_small_synced fresh_on_pattern 196608 (zeros 100) 100
           fresh_on_pattern_synced H1 H2 H3).
Defined.

Lemma Seek_synced_witness :
  synced fresh_on_pattern /\ 0 <= 9 <= 31
  /\ m_SectorAlign (proxy fresh_on_pattern) = 2 ^ 9 - 1 /\ 0 <= 5000
  /\ exists s',
       Seek fresh_on_pattern 5000 = (5000, s') /\ synced s'
       /\ position (proxy s') = 5000
       /\ disk_bytes (object s') = disk_bytes (object fresh_on_pattern).
Proof.
  assert (H1 : 0 <= 9 <= 31) by lia.
  assert (H2 : m_SectorAlign (proxy fresh_on_pattern) = 2 ^ 9 - 1)
    by (vm_compute; reflexivity).
  assert (H3 : 0 <= 5000) by lia.
  assert (H4 : within_window (proxy fresh_on_pattern) 5000
               \/ 5000 <= Z.min (Z.quot (sector_floor (2 ^ 9) 5000)
                                        (m_BlockSize (proxy fresh_on_pattern))
                                 + m_BufferSizeInBlocks
                                     (proxy fresh_on_pattern))
                                (disk_blocks (object fresh_on_pattern))
                          * m_BlockSize (proxy fresh_on_pattern))
    by (right; vm_compute; discriminate).
  split; [exact fresh_on_pattern_synced|].
  repeat (split; [assumption|]).
  exact (Seek_synced fresh_on_pattern 5000 9 fresh_on_pattern_synced
           H1 H2 H3 H4).
Defined.
